(** * PetNet: the adoption-request lifecycle and the availability of
    publications

    A shallow embedding of the Express controllers of be-petnet
    (controllers/requestController.js and the publication controller) over a
    model of the Prisma/SQLite store they talk to.  Every [await] of the
    JavaScript source is one node of a small program tree ([Prog]); the
    tree is run to completion for a single call ([run]) and stepped node by
    node when two calls are interleaved ([interleave]). *)

From stdpp Require Import gmap strings list fin_maps pretty sorting.
From Stdlib Require Import ZArith Ascii String.

Local Open Scope string_scope.
Local Open Scope Z_scope.
#[local] Set Warnings "-register-all,-clear-no-such-hyp".

(** ** JavaScript values and the built-ins the controllers use *)

Module JS.

(** The scalar values a JSON body field, a route parameter or a token claim
    can hold; arrays and objects are not among them.  [JUndefined] is an
    absent field.  A JSON number is an integer; JavaScript holds it as a
    double, so that [JNum n] stands for the number [n] only when [n] is a
    safe integer ([isSafeInteger] below).  A string is given by its UTF-8
    bytes. *)
Inductive JsVal :=
| JUndefined
| JNull
| JBool (b : bool)
| JNum (n : Z)
| JStr (s : string).

#[global] Instance JsVal_eq_dec : EqDecision JsVal.
Proof. solve_decision. Defined.

(** [!v] is [negb (truthy v)]. *)
Definition truthy (v : JsVal) : bool :=
  match v with
  | JUndefined | JNull => false
  | JBool b => b
  | JNum n => negb (n =? 0)
  | JStr s => negb (String.eqb s "")
  end.

(** [String(v)].  A number is printed in plain decimal, as JavaScript prints
    the integers below 1e21. *)
Definition ToString (v : JsVal) : string :=
  match v with
  | JUndefined => "undefined"
  | JNull => "null"
  | JBool true => "true"
  | JBool false => "false"
  | JNum n => pretty n
  | JStr s => s
  end.

Definition code (c : ascii) : N := N_of_ascii c.

(** White space and line terminators that [parseInt] skips: the one-byte
    ones, U+00A0, and the three-byte ones (U+1680, U+2000..U+200A, U+2028,
    U+2029, U+202F, U+205F, U+3000, U+FEFF). *)
Definition ws1 (a : ascii) : bool :=
  ((9 <=? code a) && (code a <=? 13) || (code a =? 32))%N.

Definition ws2 (a b : ascii) : bool :=
  ((code a =? 194) && (code b =? 160))%N.

Definition ws3 (a b c : ascii) : bool :=
  ((code a =? 225) && (code b =? 154) && (code c =? 128)
   || (code a =? 226) && (code b =? 128)
      && ((128 <=? code c) && (code c <=? 138)
          || (code c =? 168) || (code c =? 169) || (code c =? 175))
   || (code a =? 226) && (code b =? 129) && (code c =? 159)
   || (code a =? 227) && (code b =? 128) && (code c =? 128)
   || (code a =? 239) && (code b =? 187) && (code c =? 191))%N.

Fixpoint trimStart (s : string) : string :=
  match s with
  | EmptyString => s
  | String a r1 =>
      if ws1 a then trimStart r1 else
      match r1 with
      | EmptyString => s
      | String b r2 =>
          if ws2 a b then trimStart r2 else
          match r2 with
          | EmptyString => s
          | String c r3 => if ws3 a b c then trimStart r3 else s
          end
      end
  end.

(** The value of a character as a digit, whatever the radix. *)
Definition digit_val (c : ascii) : option Z :=
  let n := code c in
  if ((48 <=? n) && (n <=? 57))%N then Some (Z.of_N n - 48)
  else if ((97 <=? n) && (n <=? 122))%N then Some (Z.of_N n - 87)
  else if ((65 <=? n) && (n <=? 90))%N then Some (Z.of_N n - 55)
  else None.

(** The longest prefix of [s] made of digits of [radix], read as a number;
    [acc] is [None] until a digit was read. *)
Fixpoint digits (radix : Z) (s : string) (acc : option Z) : option Z :=
  match s with
  | EmptyString => acc
  | String c r =>
      match digit_val c with
      | Some d =>
          if d <? radix
          then digits radix r (Some (radix * default 0 acc + d))
          else acc
      | None => acc
      end
  end.

Definition split_sign (s : string) : Z * string :=
  match s with
  | String c r =>
      if (code c =? 45)%N then (-1, r)
      else if (code c =? 43)%N then (1, r)
      else (1, s)
  | EmptyString => (1, s)
  end.

Definition split_radix (s : string) : Z * string :=
  match s with
  | String z (String x r) =>
      if ((code z =? 48) && ((code x =? 120) || (code x =? 88)))%N
      then (16, r) else (10, s)
  | _ => (10, s)
  end.

(** [parseInt(v)] with no radix argument; [None] is NaN.  The integer that
    the digits spell is returned as it is; JavaScript returns the nearest
    double, which is that integer when it is a safe integer. *)
Definition parseInt (v : JsVal) : option Z :=
  let s1 := trimStart (ToString v) in
  let '(sign, s2) := split_sign s1 in
  let '(radix, s3) := split_radix s2 in
  (λ n, sign * n) <$> digits radix s3 None.

(** [Number.MAX_SAFE_INTEGER], 2^53 - 1. *)
Definition MAX_SAFE_INTEGER : Z := 9007199254740991.

(** [Number.isSafeInteger(n)]: the integers that a double holds exactly, and
    that the store takes as a key. *)
Definition isSafeInteger (n : Z) : Prop := Z.abs n ≤ MAX_SAFE_INTEGER.

#[global] Instance isSafeInteger_dec n : Decision (isSafeInteger n).
Proof. unfold isSafeInteger. apply _. Defined.

(** [s.length], the number of UTF-16 code units of the string whose UTF-8
    bytes are [s]: a continuation byte counts for nothing, the first byte of
    a sequence for one unit, and for two when the sequence has four bytes (a
    code point above U+FFFF is a surrogate pair). *)
Fixpoint length_utf16 (s : string) : N :=
  match s with
  | EmptyString => 0
  | String c r =>
      ((if (128 <=? code c) && (code c <? 192) then 0
        else if 240 <=? code c then 2 else 1) + length_utf16 r)%N
  end.

Definition isNaN (n : option Z) : bool :=
  match n with None => true | Some _ => false end.

(** [arr.includes(v)] for an array of string literals. *)
Definition includes (arr : list string) (v : JsVal) : bool :=
  match v with
  | JStr s => bool_decide (s ∈ arr)
  | _ => false
  end.

(** [a || b] on strings: the first when it is not empty. *)
Definition or_else (a : option string) (b : string) : string :=
  match a with
  | Some s => if String.eqb s "" then b else s
  | None => b
  end.

End JS.
Import JS.

(** ** JSON documents sent back by [res.json] *)

Inductive Json :=
| JsonNull
| JsonBool (b : bool)
| JsonNum (n : Z)
| JsonStr (s : string)
| JsonArr (items : list Json)
| JsonObj (fields : list (string * Json)).

Record Response := { status : Z; body : Json }.

Definition json_of (v : JsVal) : Json :=
  match v with
  | JUndefined | JNull => JsonNull
  | JBool b => JsonBool b
  | JNum n => JsonNum n
  | JStr s => JsonStr s
  end.

(** ** The relational store (prisma/migrations) *)

Record Usuario := {
  usr_nombre : string;
  usr_apellido : string;
  usr_email : string;
  usr_password : string;
  usr_telefono : string;
  usr_provincia : string;
  usr_localidad : string
}.

Record Publicacion := {
  pub_foto : string;
  pub_estado : string;
  pub_usuarioId : Z
}.

(** The column "tamaño" is spelt [mas_tamano]. *)
Record Mascota := {
  mas_nombre : string;
  mas_sexo : string;
  mas_tipo : string;
  mas_tamano : string;
  mas_descripcion : string;
  mas_publicacionId : Z
}.

Record Solicitud := {
  sol_estado : string;
  sol_mensaje : string;
  sol_usuarioId : Z;
  sol_publicacionId : Z
}.

#[global] Instance Usuario_eq_dec : EqDecision Usuario.
Proof. solve_decision. Defined.
#[global] Instance Publicacion_eq_dec : EqDecision Publicacion.
Proof. solve_decision. Defined.
#[global] Instance Mascota_eq_dec : EqDecision Mascota.
Proof. solve_decision. Defined.
#[global] Instance Solicitud_eq_dec : EqDecision Solicitud.
Proof. solve_decision. Defined.

(** A table is keyed by its INTEGER PRIMARY KEY AUTOINCREMENT; the [seq_]
    fields are the rows of sqlite_sequence (the largest key handed out so
    far).  Mascota is kept as the list of its rows in key order, because the
    controllers read [Mascota[0]]. *)
Record DB := {
  usuarios : gmap Z Usuario;
  publicaciones : gmap Z Publicacion;
  mascotas : list (Z * Mascota);
  solicitudes : gmap Z Solicitud;
  seq_usuario : Z;
  seq_publicacion : Z;
  seq_mascota : Z;
  seq_solicitud : Z
}.

Definition empty_db : DB :=
  {| usuarios := ∅; publicaciones := ∅; mascotas := []; solicitudes := ∅;
     seq_usuario := 0; seq_publicacion := 0; seq_mascota := 0;
     seq_solicitud := 0 |}.

Definition set_usuarios (f : gmap Z Usuario → gmap Z Usuario) (d : DB) : DB :=
  {| usuarios := f (usuarios d); publicaciones := publicaciones d;
     mascotas := mascotas d; solicitudes := solicitudes d;
     seq_usuario := seq_usuario d; seq_publicacion := seq_publicacion d;
     seq_mascota := seq_mascota d; seq_solicitud := seq_solicitud d |}.

Definition set_publicaciones
    (f : gmap Z Publicacion → gmap Z Publicacion) (d : DB) : DB :=
  {| usuarios := usuarios d; publicaciones := f (publicaciones d);
     mascotas := mascotas d; solicitudes := solicitudes d;
     seq_usuario := seq_usuario d; seq_publicacion := seq_publicacion d;
     seq_mascota := seq_mascota d; seq_solicitud := seq_solicitud d |}.

Definition set_mascotas
    (f : list (Z * Mascota) → list (Z * Mascota)) (d : DB) : DB :=
  {| usuarios := usuarios d; publicaciones := publicaciones d;
     mascotas := f (mascotas d); solicitudes := solicitudes d;
     seq_usuario := seq_usuario d; seq_publicacion := seq_publicacion d;
     seq_mascota := seq_mascota d; seq_solicitud := seq_solicitud d |}.

Definition set_solicitudes
    (f : gmap Z Solicitud → gmap Z Solicitud) (d : DB) : DB :=
  {| usuarios := usuarios d; publicaciones := publicaciones d;
     mascotas := mascotas d; solicitudes := f (solicitudes d);
     seq_usuario := seq_usuario d; seq_publicacion := seq_publicacion d;
     seq_mascota := seq_mascota d; seq_solicitud := seq_solicitud d |}.

Definition bump_seq_usuario (d : DB) : DB :=
  {| usuarios := usuarios d; publicaciones := publicaciones d;
     mascotas := mascotas d; solicitudes := solicitudes d;
     seq_usuario := seq_usuario d + 1; seq_publicacion := seq_publicacion d;
     seq_mascota := seq_mascota d; seq_solicitud := seq_solicitud d |}.

Definition bump_seq_publicacion (d : DB) : DB :=
  {| usuarios := usuarios d; publicaciones := publicaciones d;
     mascotas := mascotas d; solicitudes := solicitudes d;
     seq_usuario := seq_usuario d; seq_publicacion := seq_publicacion d + 1;
     seq_mascota := seq_mascota d; seq_solicitud := seq_solicitud d |}.

Definition bump_seq_mascota (d : DB) : DB :=
  {| usuarios := usuarios d; publicaciones := publicaciones d;
     mascotas := mascotas d; solicitudes := solicitudes d;
     seq_usuario := seq_usuario d; seq_publicacion := seq_publicacion d;
     seq_mascota := seq_mascota d + 1; seq_solicitud := seq_solicitud d |}.

Definition bump_seq_solicitud (d : DB) : DB :=
  {| usuarios := usuarios d; publicaciones := publicaciones d;
     mascotas := mascotas d; solicitudes := solicitudes d;
     seq_usuario := seq_usuario d; seq_publicacion := seq_publicacion d;
     seq_mascota := seq_mascota d; seq_solicitud := seq_solicitud d + 1 |}.

(** No column is updated on the user table by the controllers below; a row
    is added by registration. *)
Definition usuario_create (u : Usuario) (d : DB) : DB :=
  bump_seq_usuario (set_usuarios (insert (seq_usuario d + 1) u) d).

(** ** Effects of a controller: Prisma calls and the mailer *)

Record Email := {
  mail_to : string;
  mail_nombreSolicitante : string;
  mail_nombreAnimal : string;
  mail_nuevoEstado : string
}.

(** The store and the notifications handed to the mailer so far (oldest
    first). *)
Record World := { db : DB; outbox : list Email }.

(** What a controller cannot see: whether [transporter.sendMail] rejects a
    message (with which error), and [process.env.NODE_ENV]. *)
Record Env := {
  transporter : Email → option string;
  NODE_ENV : string
}.

Inductive Result (A : Type) :=
| Ok (a : A)
| Err (msg : string).
Arguments Ok {A} a.
Arguments Err {A} msg.

(** A Solicitud read with
    [include: { usuario: true, publicacion: { include: { Mascota: true } } }]. *)
Record SolicitudInc := {
  si_id : Z;
  si_row : Solicitud;
  si_usuario : Usuario;
  si_publicacion : Publicacion;
  si_Mascota : list (Z * Mascota)
}.

Inductive Call : Type → Type :=
| PublicacionFindUnique (id : Z) : Call (option (Z * Publicacion))
| PublicacionFindUniqueMascota (id : Z)
    : Call (option (Z * Publicacion * list (Z * Mascota)))
| PublicacionCreate (foto : JsVal) (estado : string) (usuarioId : Z)
    : Call (Z * Publicacion)
| PublicacionUpdate (id : Z) (foto estado : option JsVal)
    : Call (Z * Publicacion)
| PublicacionDelete (id : Z) : Call (Z * Publicacion)
| MascotaCreate (nombre tamano sexo tipo descripcion : JsVal)
    (publicacionId : Z) : Call (Z * Mascota)
| MascotaUpdate (id : Z) (nombre tamano sexo tipo descripcion : JsVal)
    : Call (Z * Mascota)
| SolicitudFindUnique (id : Z) : Call (option (Z * Solicitud))
| SolicitudFindUniqueInclude (id : Z) : Call (option SolicitudInc)
| SolicitudFindUniqueUsuarioPublicacion (usuarioId publicacionId : Z)
    : Call (option (Z * Solicitud))
| SolicitudCreate (usuarioId publicacionId : Z) (mensaje : JsVal)
    (estado : string) : Call (Z * Solicitud)
| SolicitudUpdate (id : Z) (estado : string) : Call (Z * Solicitud)
| SolicitudUpdateMany (publicacionId notId : Z) (estado : string)
    (nuevo : string) : Call Z
| SolicitudDelete (id : Z) : Call (Z * Solicitud)
| SolicitudFindManyPublicacionUsuario (usuarioId : Z) : Call (list SolicitudInc)
| EnviarNotificacionCambioEstado (to nombreSolicitante nombreAnimal
    nuevoEstado : string) : Call unit.

(** A controller body: what it returns, what it throws, and its awaits.
    [Transaction] is [prisma.$transaction(async (tx) => body)]. *)
Inductive Prog : Type → Type :=
| Ret {A} (a : A) : Prog A
| Throw {A} (msg : string) : Prog A
| Vis {A X} (c : Call X) (k : X → Prog A) : Prog A
| Transaction {A X} (body : Prog X) (k : X → Prog A) : Prog A.

(** [let! x := c in k] is [const x = await c; k]. *)
Notation "'let!' x := c 'in' k" := (Vis c (λ x, k))
  (at level 10, x pattern, c at level 100, k at level 200, only parsing).

(** *** The store's side of each call *)

Definition set_estado (estado : string) (r : Solicitud) : Solicitud :=
  {| sol_estado := estado; sol_mensaje := sol_mensaje r;
     sol_usuarioId := sol_usuarioId r;
     sol_publicacionId := sol_publicacionId r |}.

Definition mascotas_de (pid : Z) (l : list (Z * Mascota)) : list (Z * Mascota) :=
  filter (λ kr, mas_publicacionId kr.2 = pid) l.

(** The row of the unique index (usuarioId, publicacionId), if any. *)
Definition solicitud_de (uid pid : Z) (m : gmap Z Solicitud)
    : option (Z * Solicitud) :=
  head (map_to_list
          (filter (λ kr, sol_usuarioId kr.2 = uid ∧ sol_publicacionId kr.2 = pid)
                  m)).

(** The rows that [updateMany] selects:
    [{ publicacionId, id: { not: notId }, estado }]. *)
Definition selected (pid notId : Z) (estado : string) (k : Z) (r : Solicitud)
    : Prop :=
  sol_publicacionId r = pid ∧ k ≠ notId ∧ sol_estado r = estado.

#[global] Instance selected_dec pid notId estado k r :
  Decision (selected pid notId estado k r).
Proof. unfold selected. apply _. Defined.

Definition update_many (pid notId : Z) (estado nuevo : string)
    (m : gmap Z Solicitud) : gmap Z Solicitud :=
  map_imap (λ k r, Some (if decide (selected pid notId estado k r)
                         then set_estado nuevo r else r)) m.

Definition as_string (v : JsVal) : option string :=
  match v with JStr s => Some s | _ => None end.

(** A String column given anything but a string is refused by the client
    before the store is touched. *)
Definition invalid_invocation : string := "Invalid invocation: argument of the wrong type".
Definition record_not_found : string := "Record to update or delete not found".
Definition fk_failed : string := "Foreign key constraint failed".
Definition unique_failed : string := "Unique constraint failed on the fields: (usuarioId, publicacionId)".
Definition inconsistent_result : string := "Inconsistent query result: a required relation is null".

Definition publicacion_update (id : Z) (foto estado : option JsVal) (d : DB)
    : Result (Z * Publicacion) * DB :=
  match foto, estado with
  | Some (JUndefined | JNull | JBool _ | JNum _), _
  | _, Some (JUndefined | JNull | JBool _ | JNum _) => (Err invalid_invocation, d)
  | _, _ =>
      match publicaciones d !! id with
      | None => (Err record_not_found, d)
      | Some p =>
          let p' := {| pub_foto := default (pub_foto p) (foto ≫= as_string);
                       pub_estado := default (pub_estado p) (estado ≫= as_string);
                       pub_usuarioId := pub_usuarioId p |} in
          (Ok (id, p'), set_publicaciones (insert id p') d)
      end
  end.

Definition publicacion_create (foto : JsVal) (estado : string) (uid : Z)
    (d : DB) : Result (Z * Publicacion) * DB :=
  match foto with
  | JStr f =>
      match usuarios d !! uid with
      | None => (Err fk_failed, d)
      | Some _ =>
          let id := seq_publicacion d + 1 in
          let p := {| pub_foto := f; pub_estado := estado;
                      pub_usuarioId := uid |} in
          (Ok (id, p), bump_seq_publicacion (set_publicaciones (insert id p) d))
      end
  | _ => (Err invalid_invocation, d)
  end.

(** ON DELETE CASCADE on Mascota.publicacionId and Solicitud.publicacionId. *)
Definition publicacion_delete (id : Z) (d : DB)
    : Result (Z * Publicacion) * DB :=
  match publicaciones d !! id with
  | None => (Err record_not_found, d)
  | Some p =>
      (Ok (id, p),
       set_solicitudes (filter (λ kr, sol_publicacionId kr.2 ≠ id))
         (set_mascotas (filter (λ kr, mas_publicacionId kr.2 ≠ id))
            (set_publicaciones (delete id) d)))
  end.

Definition mascota_of (nombre tamano sexo tipo descripcion : JsVal) (pid : Z)
    : option Mascota :=
  n ← as_string nombre; t ← as_string tamano; s ← as_string sexo;
  ti ← as_string tipo; de ← as_string descripcion;
  Some {| mas_nombre := n; mas_sexo := s; mas_tipo := ti; mas_tamano := t;
          mas_descripcion := de; mas_publicacionId := pid |}.

Definition mascota_create (nombre tamano sexo tipo descripcion : JsVal)
    (pid : Z) (d : DB) : Result (Z * Mascota) * DB :=
  match mascota_of nombre tamano sexo tipo descripcion pid with
  | None => (Err invalid_invocation, d)
  | Some m =>
      match publicaciones d !! pid with
      | None => (Err fk_failed, d)
      | Some _ =>
          let id := seq_mascota d + 1 in
          (Ok (id, m),
           bump_seq_mascota (set_mascotas (λ l, l ++ [(id, m)])%list d))
      end
  end.

Definition mascota_update (id : Z) (nombre tamano sexo tipo descripcion : JsVal)
    (d : DB) : Result (Z * Mascota) * DB :=
  match list_find (λ kr, kr.1 = id) (mascotas d) with
  | None =>
      (Err (match mascota_of nombre tamano sexo tipo descripcion 0 with
            | Some _ => record_not_found
            | None => invalid_invocation
            end), d)
  | Some (_, (_, old)) =>
      match mascota_of nombre tamano sexo tipo descripcion
              (mas_publicacionId old) with
      | None => (Err invalid_invocation, d)
      | Some m =>
          (Ok (id, m),
           set_mascotas
             (map (λ kr, if decide (kr.1 = id) then (id, m) else kr)) d)
      end
  end.

Definition solicitud_find_include (id : Z) (d : DB)
    : Result (option SolicitudInc) :=
  match solicitudes d !! id with
  | None => Ok None
  | Some r =>
      match usuarios d !! sol_usuarioId r,
            publicaciones d !! sol_publicacionId r with
      | Some u, Some p =>
          Ok (Some {| si_id := id; si_row := r; si_usuario := u;
                      si_publicacion := p;
                      si_Mascota :=
                        mascotas_de (sol_publicacionId r) (mascotas d) |})
      | _, _ => Err inconsistent_result
      end
  end.

Definition key_le (a b : Z * Solicitud) : Prop := a.1 ≤ b.1.

#[global] Instance key_le_dec a b : Decision (key_le a b).
Proof. unfold key_le. apply _. Defined.

(** [findMany({ where: { publicacion: { usuarioId } }, include })]: the rows
    in key order. *)
Definition solicitudes_recibidas (uid : Z) (d : DB) : list (Z * Solicitud) :=
  filter (λ kr, pub_usuarioId <$> publicaciones d !! sol_publicacionId kr.2
                = Some uid)
         (merge_sort key_le (map_to_list (solicitudes d))).

Fixpoint collect {A} (l : list (Result (option A))) : Result (list A) :=
  match l with
  | [] => Ok []
  | Err msg :: _ => Err msg
  | Ok x :: rest =>
      match collect rest with
      | Ok xs => Ok (match x with Some a => a :: xs | None => xs end)
      | Err msg => Err msg
      end
  end.

Definition solicitud_find_many (uid : Z) (d : DB) : Result (list SolicitudInc) :=
  collect (map (λ kr, solicitud_find_include kr.1 d) (solicitudes_recibidas uid d)).

Definition solicitud_create (uid pid : Z) (mensaje : JsVal) (estado : string)
    (d : DB) : Result (Z * Solicitud) * DB :=
  match mensaje with
  | JStr m =>
      if decide (is_Some (usuarios d !! uid) ∧ is_Some (publicaciones d !! pid))
      then
        match solicitud_de uid pid (solicitudes d) with
        | Some _ => (Err unique_failed, d)
        | None =>
            let id := seq_solicitud d + 1 in
            let r := {| sol_estado := estado; sol_mensaje := m;
                        sol_usuarioId := uid; sol_publicacionId := pid |} in
            (Ok (id, r), bump_seq_solicitud (set_solicitudes (insert id r) d))
        end
      else (Err fk_failed, d)
  | _ => (Err invalid_invocation, d)
  end.

Definition solicitud_update (id : Z) (estado : string) (d : DB)
    : Result (Z * Solicitud) * DB :=
  match solicitudes d !! id with
  | None => (Err record_not_found, d)
  | Some r =>
      (Ok (id, set_estado estado r),
       set_solicitudes (insert id (set_estado estado r)) d)
  end.

Definition solicitud_delete (id : Z) (d : DB) : Result (Z * Solicitud) * DB :=
  match solicitudes d !! id with
  | None => (Err record_not_found, d)
  | Some r => (Ok (id, r), set_solicitudes (delete id) d)
  end.

(** One Prisma call against the store. *)
Definition query {X} (c : Call X) (d : DB) : Result X * DB :=
  match c in Call X return Result X * DB with
  | PublicacionFindUnique id =>
      (Ok ((λ p, (id, p)) <$> publicaciones d !! id), d)
  | PublicacionFindUniqueMascota id =>
      (Ok ((λ p, (id, p, mascotas_de id (mascotas d)))
             <$> publicaciones d !! id), d)
  | PublicacionCreate foto estado uid => publicacion_create foto estado uid d
  | PublicacionUpdate id foto estado => publicacion_update id foto estado d
  | PublicacionDelete id => publicacion_delete id d
  | MascotaCreate n t s ti de pid => mascota_create n t s ti de pid d
  | MascotaUpdate id n t s ti de => mascota_update id n t s ti de d
  | SolicitudFindUnique id =>
      (Ok ((λ r, (id, r)) <$> solicitudes d !! id), d)
  | SolicitudFindUniqueInclude id => (solicitud_find_include id d, d)
  | SolicitudFindUniqueUsuarioPublicacion uid pid =>
      (Ok (solicitud_de uid pid (solicitudes d)), d)
  | SolicitudCreate uid pid mensaje estado =>
      solicitud_create uid pid mensaje estado d
  | SolicitudUpdate id estado => solicitud_update id estado d
  | SolicitudDelete id => solicitud_delete id d
  | SolicitudFindManyPublicacionUsuario uid => (solicitud_find_many uid d, d)
  | SolicitudUpdateMany pid notId estado nuevo =>
      (Ok (Z.of_nat (size (filter (λ kr, selected pid notId estado kr.1 kr.2)
                                  (solicitudes d)))),
       set_solicitudes (update_many pid notId estado nuevo) d)
  | EnviarNotificacionCambioEstado _ _ _ _ => (Ok tt, d)
  end.

(** One await: a Prisma call changes the store; the mailer call records the
    message and fails when the transporter rejects it. *)
Definition exec {X} (env : Env) (c : Call X) (w : World) : Result X * World :=
  match c in Call X return Result X * World with
  | EnviarNotificacionCambioEstado to ns na ne =>
      let e := {| mail_to := to; mail_nombreSolicitante := ns;
                  mail_nombreAnimal := na; mail_nuevoEstado := ne |} in
      (match transporter env e with None => Ok tt | Some msg => Err msg end,
       {| db := db w; outbox := (outbox w ++ [e])%list |})
  | c' =>
      let '(r, d) := query c' (db w) in
      (r, {| db := d; outbox := outbox w |})
  end.

(** Running a body to its end.  A transaction that throws leaves the store
    as it was. *)
Fixpoint run {A} (env : Env) (p : Prog A) (w : World) : Result A * World :=
  match p with
  | Ret a => (Ok a, w)
  | Throw msg => (Err msg, w)
  | Vis c k =>
      match exec env c w with
      | (Ok x, w') => run env (k x) w'
      | (Err msg, w') => (Err msg, w')
      end
  | Transaction body k =>
      match run env body w with
      | (Ok x, w') => run env (k x) w'
      | (Err msg, _) => (Err msg, w)
      end
  end.

(** [try { body } catch (error) { handler(error.message) }]. *)
Definition try_catch (env : Env) (body : Prog Response)
    (handler : string → Response) (w : World) : Response * World :=
  match run env body w with
  | (Ok r, w') => (r, w')
  | (Err msg, w') => (handler msg, w')
  end.

(** ** Rows as JSON *)

Definition publicacion_json (p : Z * Publicacion) : Json :=
  JsonObj [("id", JsonNum p.1); ("foto", JsonStr (pub_foto p.2));
           ("estado", JsonStr (pub_estado p.2));
           ("usuarioId", JsonNum (pub_usuarioId p.2))].

Definition mascota_json (m : Z * Mascota) : Json :=
  JsonObj [("id", JsonNum m.1); ("nombre", JsonStr (mas_nombre m.2));
           ("sexo", JsonStr (mas_sexo m.2)); ("tipo", JsonStr (mas_tipo m.2));
           ("tamaño", JsonStr (mas_tamano m.2));
           ("descripcion", JsonStr (mas_descripcion m.2));
           ("publicacionId", JsonNum (mas_publicacionId m.2))].

Definition usuario_json (u : Z * Usuario) : Json :=
  JsonObj [("id", JsonNum u.1); ("nombre", JsonStr (usr_nombre u.2));
           ("apellido", JsonStr (usr_apellido u.2));
           ("email", JsonStr (usr_email u.2));
           ("password", JsonStr (usr_password u.2));
           ("telefono", JsonStr (usr_telefono u.2));
           ("provincia", JsonStr (usr_provincia u.2));
           ("localidad", JsonStr (usr_localidad u.2))].

Definition solicitud_fields (s : Z * Solicitud) : list (string * Json) :=
  [("id", JsonNum s.1); ("estado", JsonStr (sol_estado s.2));
   ("mensaje", JsonStr (sol_mensaje s.2));
   ("usuarioId", JsonNum (sol_usuarioId s.2));
   ("publicacionId", JsonNum (sol_publicacionId s.2))].

Definition solicitud_json (s : Z * Solicitud) : Json :=
  JsonObj (solicitud_fields s).

Definition solicitud_inc_json (s : SolicitudInc) : Json :=
  JsonObj
    (solicitud_fields (si_id s, si_row s) ++
     [("usuario", usuario_json (sol_usuarioId (si_row s), si_usuario s));
      ("publicacion",
       match publicacion_json (sol_publicacionId (si_row s), si_publicacion s) with
       | JsonObj fs =>
           JsonObj (fs ++ [("Mascota", JsonArr (map mascota_json (si_Mascota s)))])
       | j => j
       end)])%list.

(** [res.status(n).json({ success, message })]. *)
Definition reply (n : Z) (success : bool) (message : string) : Response :=
  {| status := n;
     body := JsonObj [("success", JsonBool success);
                      ("message", JsonStr message)] |}.

(** ** controllers/requestController.js *)

Module RequestController.

(** [userId] is [req.user.userId], set by the authentication middleware from
    the token; [publicacionId] and [mensaje] are the fields of [req.body]. *)
Definition createRequest_body (userId : Z) (publicacionId mensaje : JsVal)
    : Prog Response :=
  let pubId := parseInt publicacionId in
  match pubId with
  | None =>
      Ret (reply 400 false
             "Faltan datos obligatorios (publicacionId y mensaje son requeridos)")
  | Some pubId =>
  if negb (truthy publicacionId) || negb (truthy mensaje) then
    Ret (reply 400 false
           "Faltan datos obligatorios (publicacionId y mensaje son requeridos)")
  else
  let! publicacion := PublicacionFindUnique pubId in
  match publicacion with
  | None => Ret (reply 404 false "Publicación no encontrada")
  | Some publicacion =>
  if decide (pub_estado publicacion.2 ≠ "disponible") then
    Ret (reply 400 false "Esta publicación no está disponible para adopción")
  else if decide (pub_usuarioId publicacion.2 = userId) then
    Ret (reply 400 false
           "No puedes solicitar adopción de tu propia publicación")
  else
  let! solicitudExistente :=
    SolicitudFindUniqueUsuarioPublicacion userId pubId in
  match solicitudExistente with
  | Some _ =>
      Ret (reply 400 false "Ya enviaste una solicitud para esta publicación")
  | None =>
  let! nuevaSolicitud := SolicitudCreate userId pubId mensaje "Pendiente" in
  Ret {| status := 201;
         body := JsonObj [("success", JsonBool true);
                          ("message", JsonStr "Solicitud enviada correctamente");
                          ("data", solicitud_json nuevaSolicitud)] |}
  end end end.

Definition createRequest_catch (env : Env) (error_message : string) : Response :=
  {| status := 500;
     body := JsonObj
       ([("success", JsonBool false);
         ("message",
          JsonStr "No se pudo enviar la solicitud, intente nuevamente")] ++
        (if decide (NODE_ENV env = "development")
         then [("error", JsonStr error_message)] else []))%list |}.

Definition createRequest (env : Env) (userId : Z) (publicacionId mensaje : JsVal)
    : World → Response * World :=
  try_catch env (createRequest_body userId publicacionId mensaje)
            (createRequest_catch env).

(** [id] is the route parameter [req.params.id]. *)
Definition deleteRequest_body (userId : Z) (id : string) : Prog Response :=
  let solicitudId := parseInt (JStr id) in
  match solicitudId with
  | None => Ret (reply 400 false "ID de solicitud inválido")
  | Some solicitudId =>
  let! solicitud := SolicitudFindUnique solicitudId in
  match solicitud with
  | None => Ret (reply 404 false "Solicitud no encontrada")
  | Some solicitud =>
  if decide (sol_usuarioId solicitud.2 ≠ userId) then
    Ret (reply 403 false "No tienes permiso para cancelar esta solicitud")
  else if decide (sol_estado solicitud.2 ≠ "Pendiente") then
    Ret (reply 400 false "Solo se pueden cancelar solicitudes pendientes")
  else
  let! _ := SolicitudDelete solicitudId in
  Ret (reply 200 true "Solicitud cancelada correctamente")
  end end.

Definition deleteRequest (env : Env) (userId : Z) (id : string)
    : World → Response * World :=
  try_catch env (deleteRequest_body userId id)
    (λ _, reply 500 false
            "No se pudo cancelar la solicitud, intente nuevamente").

Definition recibida (sol : SolicitudInc) : Json :=
  JsonObj
    [("id", JsonNum (si_id sol));
     ("solicitante",
      JsonObj [("id", JsonNum (sol_usuarioId (si_row sol)));
               ("nombre", JsonStr (usr_nombre (si_usuario sol)));
               ("apellido", JsonStr (usr_apellido (si_usuario sol)))]);
     ("mascota",
      JsonStr (match si_Mascota sol with
               | m :: _ => mas_nombre m.2
               | [] => "Sin nombre"
               end));
     ("estado", JsonStr (sol_estado (si_row sol)));
     ("mensaje", JsonStr (sol_mensaje (si_row sol)))].

Definition getSolicitudesRecibidas_body (userId : Z) : Prog Response :=
  let! solicitudes := SolicitudFindManyPublicacionUsuario userId in
  match solicitudes with
  | [] =>
      Ret {| status := 200;
             body := JsonObj
               [("mensaje", JsonStr "No hay solicitudes para tus publicaciones.");
                ("solicitudes", JsonArr [])] |}
  | _ =>
      Ret {| status := 200;
             body := JsonObj
               [("solicitudes", JsonArr (map recibida solicitudes))] |}
  end.

Definition estadosPermitidos : list string :=
  ["Aprobada"; "Rechazada"; "Pendiente"].

Definition internal_error (error : string) : Response :=
  {| status := 500;
     body := JsonObj [("success", JsonBool false);
                      ("message", JsonStr "Error interno del servidor");
                      ("error", JsonStr error)] |}.

Definition actualizada (nuevoEstado : string) (solicitud : Json) : Response :=
  {| status := 200;
     body := JsonObj
       [("success", JsonBool true);
        ("message",
         JsonStr ("Solicitud actualizada a " +:+ nuevoEstado +:+
                  " y correo enviado al solicitante."));
        ("solicitud", solicitud)] |}.

(** [Mascota[0]?.nombre || "la mascota"]. *)
Definition nombreAnimal (solicitud : SolicitudInc) : string :=
  or_else (mas_nombre ∘ snd <$> head (si_Mascota solicitud)) "la mascota".

(** [id] is [req.params.id], [nuevoEstado] is [req.body.nuevoEstado]. *)
Definition actualizarEstadoSolicitud_body (userId : Z) (id : string)
    (nuevoEstado : JsVal) : Prog Response :=
  let solicitudId := parseInt (JStr id) in
  match solicitudId with
  | None => Ret (internal_error "ID de solicitud inválido")
  | Some solicitudId =>
  if negb (includes estadosPermitidos nuevoEstado) then
    Ret (reply 400 false "Estado no válido")
  else
  let! solicitud := SolicitudFindUniqueInclude solicitudId in
  match solicitud with
  | None => Ret (reply 404 false "Solicitud no encontrada")
  | Some solicitud =>
  if decide (pub_usuarioId (si_publicacion solicitud) ≠ userId) then
    Ret (reply 403 false "No autorizado para modificar esta solicitud")
  else if decide (sol_estado (si_row solicitud) = "Aprobada") then
    Ret (reply 400 false "No se puede modificar una solicitud aprobada")
  else if decide (JStr (sol_estado (si_row solicitud)) = nuevoEstado) then
    Ret {| status := 200;
           body := JsonObj
             [("success", JsonBool true);
              ("message",
               JsonStr "El estado ya estaba actualizado. No se envió correo.");
              ("solicitud", solicitud_inc_json solicitud)] |}
  else if decide (nuevoEstado = JStr "Aprobada") then
    let! solicitudActualizada :=
      SolicitudUpdate (si_id solicitud) (ToString nuevoEstado) in
    let! _ := PublicacionUpdate (sol_publicacionId (si_row solicitud))
                None (Some (JStr "no disponible")) in
    let! _ := SolicitudUpdateMany (sol_publicacionId (si_row solicitud))
                (si_id solicitud) "Pendiente" "Rechazada" in
    let! _ := EnviarNotificacionCambioEstado
                (usr_email (si_usuario solicitud))
                (usr_nombre (si_usuario solicitud))
                (nombreAnimal solicitud) (ToString nuevoEstado) in
    Ret (actualizada (ToString nuevoEstado)
           (solicitud_json solicitudActualizada))
  else
    let! solicitudActualizada :=
      SolicitudUpdate (si_id solicitud) (ToString nuevoEstado) in
    let! _ := EnviarNotificacionCambioEstado
                (usr_email (si_usuario solicitud))
                (usr_nombre (si_usuario solicitud))
                (nombreAnimal solicitud) (ToString nuevoEstado) in
    Ret (actualizada (ToString nuevoEstado)
           (solicitud_json solicitudActualizada))
  end end.

Definition actualizarEstadoSolicitud (env : Env) (userId : Z) (id : string)
    (nuevoEstado : JsVal) : World → Response * World :=
  try_catch env (actualizarEstadoSolicitud_body userId id nuevoEstado)
            internal_error.

Definition getSolicitudesRecibidas (env : Env) (userId : Z)
    : World → Response * World :=
  try_catch env (getSolicitudesRecibidas_body userId) internal_error.

End RequestController.

(** ** express-validator chains (the library's documented behaviour)

    A chain reads one field of [req.body]; every validator of the chain
    runs (there is no [bail]) and adds its message when it fails. *)

Module Validator.

Record FieldError := { fe_value : JsVal; fe_msg : string; fe_path : string }.

Definition error_json (e : FieldError) : Json :=
  JsonObj ([("type", JsonStr "field")] ++
           match fe_value e with
           | JUndefined => []
           | v => [("value", json_of v)]
           end ++
           [("msg", JsonStr (fe_msg e)); ("path", JsonStr (fe_path e));
            ("location", JsonStr "body")])%list.

(** The string a standard validator is run on: empty for null and
    undefined. *)
Definition toString (v : JsVal) : string :=
  match v with
  | JUndefined | JNull => ""
  | _ => ToString v
  end.

Definition Chain := string → JsVal → list FieldError.

Definition notEmpty (msg : string) : Chain := λ path v,
  if String.eqb (toString v) "" then
    [{| fe_value := v; fe_msg := msg; fe_path := path |}]
  else [].

Definition isIn (values : list string) (msg : string) : Chain := λ path v,
  if bool_decide (toString v ∈ values) then []
  else [{| fe_value := v; fe_msg := msg; fe_path := path |}].

(** [.custom(fn)]: the message is that of the error [fn] throws. *)
Definition custom (fn : JsVal → option string) : Chain := λ path v,
  match fn v with
  | Some msg => [{| fe_value := v; fe_msg := msg; fe_path := path |}]
  | None => []
  end.

Definition both (c1 c2 : Chain) : Chain := λ path v, (c1 path v ++ c2 path v)%list.

(** [.optional()]: an undefined field is not validated at all. *)
Definition optional (c : Chain) : Chain := λ path v,
  match v with
  | JUndefined => []
  | _ => c path v
  end.

End Validator.

(** ** The publication controller *)

Module PublicationController.
Import Validator.

(** The fields read from [req.body]; "tamaño" is spelt [tamano]. *)
Record Body := {
  nombre : JsVal;
  tamano : JsVal;
  sexo : JsVal;
  tipo : JsVal;
  descripcion : JsVal;
  foto : JsVal;
  estado : JsVal
}.

Definition image_prefixes : list string :=
  ["data:image/jpeg;base64,"; "data:image/jpg;base64,";
   "data:image/png;base64,"; "data:image/gif;base64,";
   "data:image/webp;base64,"].

(** [/^data:image\/(jpeg|jpg|png|gif|webp);base64,/.test(value)]. *)
Definition base64Regex_test (v : JsVal) : bool :=
  existsb (λ pre, String.prefix pre (ToString v)) image_prefixes.

Definition foto_format (v : JsVal) : option string :=
  if base64Regex_test v then None
  else Some "La foto debe ser una imagen en formato base64 válido (data:image/jpeg;base64,...)".

(** [value.length > maxSize]; reading [length] of null or undefined throws,
    a number or a boolean has none. *)
Definition foto_size (v : JsVal) : option string :=
  match v with
  | JStr s =>
      if (7000000 <? length_utf16 s)%N
      then Some "La imagen es demasiado grande (máximo 5MB)" else None
  | JUndefined => Some "Cannot read properties of undefined (reading 'length')"
  | JNull => Some "Cannot read properties of null (reading 'length')"
  | _ => None
  end.

Definition pet_validations (b : Body) : list FieldError :=
  (notEmpty "El nombre es obligatorio" "nombre" (nombre b) ++
   isIn ["Chico"; "Mediano"; "Grande"]
     "El tamaño debe ser: Chico, Mediano o Grande" "tamaño" (tamano b) ++
   isIn ["Macho"; "Hembra"] "El sexo debe ser: Macho o Hembra" "sexo" (sexo b) ++
   isIn ["Perro"; "Gato"; "Pájaro"; "Conejo"]
     "El tipo debe ser: Perro, Gato, Pájaro o Conejo" "tipo" (tipo b) ++
   notEmpty "La descripción es obligatoria" "descripcion" (descripcion b))%list.

Definition createPublicationValidations (b : Body) : list FieldError :=
  (pet_validations b ++
   both (notEmpty "La foto es obligatoria")
        (both (custom foto_format) (custom foto_size)) "foto" (foto b))%list.

Definition updatePublicationValidations (b : Body) : list FieldError :=
  (pet_validations b ++
   optional (isIn ["disponible"; "adoptado"]
               "El estado debe ser: disponible o adoptado") "estado" (estado b) ++
   optional (both (custom foto_format) (custom foto_size)) "foto" (foto b))%list.

Definition errores (errors : list FieldError) : Response :=
  {| status := 400;
     body := JsonObj [("errores", JsonArr (map error_json errors))] |}.

Definition publication_data (publicacion : Z * Publicacion) (mascota : Z * Mascota)
    : Json :=
  JsonObj [("id", JsonNum publicacion.1);
           ("foto", JsonStr (pub_foto publicacion.2));
           ("estado", JsonStr (pub_estado publicacion.2));
           ("usuarioId", JsonNum (pub_usuarioId publicacion.2));
           ("mascota",
            JsonObj [("id", JsonNum mascota.1);
                     ("nombre", JsonStr (mas_nombre mascota.2));
                     ("tipo", JsonStr (mas_tipo mascota.2));
                     ("sexo", JsonStr (mas_sexo mascota.2));
                     ("tamaño", JsonStr (mas_tamano mascota.2));
                     ("descripcion", JsonStr (mas_descripcion mascota.2))])].

Definition createPublication_body (userId : Z) (b : Body) : Prog Response :=
  let errors := createPublicationValidations b in
  if negb (bool_decide (errors = [])) then Ret (errores errors)
  else if decide (userId = 0) then Ret (reply 401 false "No autorizado")
  else
  Transaction
    (let! nuevaPublicacion := PublicacionCreate (foto b) "disponible" userId in
     let! nuevaMascota := MascotaCreate (nombre b) (tamano b) (sexo b) (tipo b)
                            (descripcion b) nuevaPublicacion.1 in
     Ret (nuevaPublicacion, nuevaMascota))
    (λ result,
     Ret {| status := 201;
            body := JsonObj
              [("success", JsonBool true);
               ("message", JsonStr "La publicación se creó correctamente");
               ("data", publication_data result.1 result.2)] |}).

Definition createPublication (env : Env) (userId : Z) (b : Body)
    : World → Response * World :=
  try_catch env (createPublication_body userId b)
    (λ _, reply 500 false "No se pudo crear la publicación, intente nuevamente").

(** [updateData]: [foto] and [estado] are copied when truthy. *)
Definition updateData (v : JsVal) : option JsVal :=
  if truthy v then Some v else None.

Definition updatePublication_body (userId : Z) (id : string) (b : Body)
    : Prog Response :=
  let errors := updatePublicationValidations b in
  if negb (bool_decide (errors = [])) then Ret (errores errors)
  else
  match parseInt (JStr id) with
  | None => Ret (reply 400 false "ID de publicación inválido")
  | Some pubId =>
  if decide (userId = 0) then Ret (reply 401 false "No autorizado")
  else
  let! publicacion := PublicacionFindUniqueMascota pubId in
  match publicacion with
  | None => Ret (reply 404 false "Publicación no encontrada")
  | Some (publicacion, Mascota) =>
  if decide (pub_usuarioId publicacion.2 ≠ userId) then
    Ret (reply 403 false "No tienes permiso para editar esta publicación")
  else
  let mascotaExistente := head Mascota in
  Transaction
    (let update_mascota updatedPublicacion :=
       match mascotaExistente with
       | Some mascotaExistente =>
           let! updatedMascota :=
             MascotaUpdate mascotaExistente.1 (nombre b) (tamano b) (sexo b)
               (tipo b) (descripcion b) in
           Ret (updatedPublicacion, updatedMascota)
       | None =>
           let! updatedMascota :=
             MascotaCreate (nombre b) (tamano b) (sexo b) (tipo b)
               (descripcion b) pubId in
           Ret (updatedPublicacion, updatedMascota)
       end in
     match updateData (foto b), updateData (estado b) with
     | None, None => update_mascota publicacion
     | f, e =>
         let! updatedPublicacion := PublicacionUpdate pubId f e in
         update_mascota updatedPublicacion
     end)
    (λ result,
     Ret {| status := 200;
            body := JsonObj
              [("success", JsonBool true);
               ("message", JsonStr "La publicación se editó correctamente");
               ("data", publication_data result.1 result.2)] |})
  end end.

Definition updatePublication (env : Env) (userId : Z) (id : string) (b : Body)
    : World → Response * World :=
  try_catch env (updatePublication_body userId id b)
    (λ _, reply 500 false "No se pudo editar la publicación, intente nuevamente").

Definition deletePublication_body (userId : Z) (id : string) : Prog Response :=
  match parseInt (JStr id) with
  | None => Ret (reply 400 false "ID de publicación inválido")
  | Some pubId =>
  if decide (userId = 0) then Ret (reply 401 false "No autorizado")
  else
  let! publicacion := PublicacionFindUnique pubId in
  match publicacion with
  | None => Ret (reply 404 false "Publicación no encontrada")
  | Some publicacion =>
  if decide (pub_usuarioId publicacion.2 ≠ userId) then
    Ret (reply 403 false "No tienes permiso para eliminar esta publicación")
  else
  let! _ := PublicacionDelete pubId in
  Ret (reply 200 true "La publicación se eliminó correctamente")
  end end.

Definition deletePublication (env : Env) (userId : Z) (id : string)
    : World → Response * World :=
  try_catch env (deletePublication_body userId id)
    (λ _, reply 500 false
            "Hubo un problema al eliminar la publicación, intenta nuevamente").

End PublicationController.

(** ** The controllers that only read

    Each of them makes one Prisma call and formats what it gets; the store is
    left as it is. *)

(** A Solicitud read with
    [include: { publicacion: { include: { Mascota: true } } }]. *)
Record SolicitudPub := {
  sp_id : Z;
  sp_row : Solicitud;
  sp_publicacion : Publicacion;
  sp_Mascota : list (Z * Mascota)
}.

(** A Publicacion read with [include: { Mascota: true }]. *)
Record PublicacionInc := {
  pi_id : Z;
  pi_row : Publicacion;
  pi_Mascota : list (Z * Mascota)
}.

(** The columns of the publisher that [getDetallePublicacion] selects. *)
Record Publicante := {
  pte_id : Z;
  pte_nombre : string;
  pte_apellido : string;
  pte_email : string;
  pte_telefono : string;
  pte_provincia : string;
  pte_localidad : string
}.

Record PublicacionDetalle := {
  pd_id : Z;
  pd_row : Publicacion;
  pd_Mascota : list (Z * Mascota);
  pd_usuario : Publicante
}.

Definition by_key {A} (a b : Z * A) : Prop := a.1 ≤ b.1.

#[global] Instance by_key_dec {A} (a b : Z * A) : Decision (by_key a b).
Proof. unfold by_key. apply _. Defined.

(** The rows of a table, as a [findMany] with no [orderBy] returns them: the
    source fixes no order, key order is taken here. *)
Definition rows {A} (m : gmap Z A) : list (Z * A) :=
  merge_sort by_key (map_to_list m).

Fixpoint all_ok {A} (l : list (Result A)) : Result (list A) :=
  match l with
  | [] => Ok []
  | Err msg :: _ => Err msg
  | Ok x :: rest =>
      match all_ok rest with
      | Ok xs => Ok (x :: xs)
      | Err msg => Err msg
      end
  end.

Definition with_publicacion (d : DB) (kr : Z * Solicitud) : Result SolicitudPub :=
  match publicaciones d !! sol_publicacionId kr.2 with
  | Some p =>
      Ok {| sp_id := kr.1; sp_row := kr.2; sp_publicacion := p;
            sp_Mascota := mascotas_de (sol_publicacionId kr.2) (mascotas d) |}
  | None => Err inconsistent_result
  end.

(** [solicitud.findMany({ where: { usuarioId }, include })]. *)
Definition solicitud_find_many_usuario (uid : Z) (d : DB)
    : Result (list SolicitudPub) :=
  all_ok (map (with_publicacion d)
              (filter (λ kr, sol_usuarioId kr.2 = uid) (rows (solicitudes d)))).

Definition with_Mascota (d : DB) (kp : Z * Publicacion) : PublicacionInc :=
  {| pi_id := kp.1; pi_row := kp.2;
     pi_Mascota := mascotas_de kp.1 (mascotas d) |}.

(** [publicacion.findMany({ where: { usuarioId }, include })]. *)
Definition publicacion_find_many_usuario (uid : Z) (d : DB)
    : list PublicacionInc :=
  map (with_Mascota d)
      (filter (λ kp, pub_usuarioId kp.2 = uid) (rows (publicaciones d))).

(** The [where] of [getPublicacionesDisponibles]: [estado] and, when a
    [tipo] was given, [Mascota: { some: { tipo } }]. *)
Definition filtros (tipo : option string) (pub : PublicacionInc) : Prop :=
  pub_estado (pi_row pub) = "disponible"
  ∧ match tipo with
    | Some t => Exists (λ m, mas_tipo m.2 = t) (pi_Mascota pub)
    | None => True
    end.

#[global] Instance filtros_dec tipo pub : Decision (filtros tipo pub).
Proof. unfold filtros. destruct tipo; apply _. Defined.

Definition publicacion_find_many (tipo : option string) (d : DB)
    : list PublicacionInc :=
  filter (filtros tipo) (map (with_Mascota d) (rows (publicaciones d))).

(** [publicacion.findUnique({ where: { id }, include: { Mascota, usuario } })]. *)
Definition publicacion_find_detalle (id : Z) (d : DB)
    : Result (option PublicacionDetalle) :=
  match publicaciones d !! id with
  | None => Ok None
  | Some p =>
      match usuarios d !! pub_usuarioId p with
      | None => Err inconsistent_result
      | Some u =>
          Ok (Some {| pd_id := id; pd_row := p;
                      pd_Mascota := mascotas_de id (mascotas d);
                      pd_usuario :=
                        {| pte_id := pub_usuarioId p;
                           pte_nombre := usr_nombre u;
                           pte_apellido := usr_apellido u;
                           pte_email := usr_email u;
                           pte_telefono := usr_telefono u;
                           pte_provincia := usr_provincia u;
                           pte_localidad := usr_localidad u |} |})
      end
  end.

Module RequestListings.

(** One entry of the list of [getSolicitudesEnviadas]. *)
Definition enviada (sol : SolicitudPub) : Json :=
  JsonObj
    [("id", JsonNum (sp_id sol));
     ("animal",
      JsonStr (match sp_Mascota sol with
               | m :: _ => mas_nombre m.2
               | [] => "Sin nombre"
               end));
     ("estado", JsonStr (sol_estado (sp_row sol)));
     ("mensaje", JsonStr (sol_mensaje (sp_row sol)));
     ("acciones",
      JsonObj
        [("cancelar",
          if decide (sol_estado (sp_row sol) = "Pendiente")
          then JsonStr ("/api/solicitudes/" +:+ pretty (sp_id sol) +:+ "/cancelar")
          else JsonNull);
         ("verDetalle",
          JsonStr ("/api/publicaciones/"
                   +:+ pretty (sol_publicacionId (sp_row sol))))])].

Definition getSolicitudesEnviadas (userId : Z) (w : World) : Response * World :=
  match solicitud_find_many_usuario userId (db w) with
  | Ok [] =>
      ({| status := 200;
          body := JsonObj
            [("mensaje", JsonStr "No has enviado solicitudes de adopción.");
             ("solicitudes", JsonArr [])] |}, w)
  | Ok solicitudes =>
      ({| status := 200;
          body := JsonObj [("solicitudes", JsonArr (map enviada solicitudes))] |},
       w)
  | Err error => (RequestController.internal_error error, w)
  end.

End RequestListings.

Module PublicationListings.

Definition mascota_completa (Mascota : list (Z * Mascota)) : Json :=
  match Mascota with
  | m :: _ =>
      JsonObj [("id", JsonNum m.1); ("nombre", JsonStr (mas_nombre m.2));
               ("tipo", JsonStr (mas_tipo m.2));
               ("sexo", JsonStr (mas_sexo m.2));
               ("tamaño", JsonStr (mas_tamano m.2));
               ("descripcion", JsonStr (mas_descripcion m.2))]
  | [] => JsonNull
  end.

Definition mi_publicacion (pub : PublicacionInc) : Json :=
  JsonObj [("id", JsonNum (pi_id pub));
           ("foto", JsonStr (pub_foto (pi_row pub)));
           ("estado", JsonStr (pub_estado (pi_row pub)));
           ("mascota", mascota_completa (pi_Mascota pub))].

(** Both branches of the source give the same document for an empty list. *)
Definition getMisPublicaciones (userId : Z) (w : World) : Response * World :=
  match publicacion_find_many_usuario userId (db w) with
  | [] => ({| status := 200;
              body := JsonObj [("publicaciones", JsonArr [])] |}, w)
  | publicaciones =>
      ({| status := 200;
          body := JsonObj
            [("publicaciones", JsonArr (map mi_publicacion publicaciones))] |},
       w)
  end.

Definition detalle (publicacion : PublicacionDetalle) : Json :=
  JsonObj
    [("id", JsonNum (pd_id publicacion));
     ("foto", JsonStr (pub_foto (pd_row publicacion)));
     ("estado", JsonStr (pub_estado (pd_row publicacion)));
     ("mascota",
      match pd_Mascota publicacion with
      | mascota :: _ =>
          JsonObj [("nombre", JsonStr (mas_nombre mascota.2));
                   ("tipo", JsonStr (mas_tipo mascota.2));
                   ("sexo", JsonStr (mas_sexo mascota.2));
                   ("tamaño", JsonStr (mas_tamano mascota.2));
                   ("descripcion", JsonStr (mas_descripcion mascota.2))]
      | [] => JsonNull
      end);
     ("publicante",
      let usuario := pd_usuario publicacion in
      JsonObj [("id", JsonNum (pte_id usuario));
               ("nombre", JsonStr (pte_nombre usuario));
               ("apellido", JsonStr (pte_apellido usuario));
               ("email", JsonStr (pte_email usuario));
               ("telefono", JsonStr (pte_telefono usuario));
               ("provincia", JsonStr (pte_provincia usuario));
               ("localidad", JsonStr (pte_localidad usuario))])].

Definition sin_detalle : Response :=
  {| status := 404; body := JsonObj [("success", JsonBool false)] |}.

(** [id] is the route parameter. *)
Definition getDetallePublicacion (id : string) (w : World) : Response * World :=
  match parseInt (JStr id) with
  | None => (sin_detalle, w)
  | Some publicacionId =>
      match publicacion_find_detalle publicacionId (db w) with
      | Ok None => (sin_detalle, w)
      | Ok (Some publicacion) =>
          ({| status := 200;
              body := JsonObj [("publicacion", detalle publicacion)] |}, w)
      | Err error => (RequestController.internal_error error, w)
      end
  end.

Definition disponible (pub : PublicacionInc) : Json :=
  JsonObj [("id", JsonNum (pi_id pub));
           ("estado", JsonStr (pub_estado (pi_row pub)));
           ("foto", JsonStr (pub_foto (pi_row pub)));
           ("mascota",
            match pi_Mascota pub with
            | m :: _ => JsonObj [("nombre", JsonStr (mas_nombre m.2));
                                 ("tipo", JsonStr (mas_tipo m.2))]
            | [] => JsonNull
            end)].

(** [tipo] is [req.query.tipo] when it is absent or one string (a repeated
    or bracketed parameter is not modelled); the filter on the pet is added
    when it is truthy. *)
Definition getPublicacionesDisponibles (tipo : option string) (w : World)
    : Response * World :=
  let filtro :=
    match tipo with
    | Some t => if String.eqb t "" then None else Some t
    | None => None
    end in
  match publicacion_find_many filtro (db w) with
  | [] =>
      ({| status := 200;
          body := JsonObj
            [("publicaciones", JsonArr []);
             ("message",
              JsonStr "No hay animales disponibles para adopción en este momento")] |},
       w)
  | publicaciones =>
      ({| status := 200;
          body := JsonObj
            [("publicaciones", JsonArr (map disponible publicaciones))] |}, w)
  end.

End PublicationListings.

(** ** The API as a whole *)

(** Registration (controllers/userController.js) is outside the lifecycle;
    only its effect on the user table is kept: a validated body whose email
    is not yet registered becomes a new row. *)
Definition registerUser (u : Usuario) (w : World) : World :=
  if decide (map_Exists (λ _ u', usr_email u' = usr_email u) (usuarios (db w)))
  then w
  else {| db := usuario_create u (db w); outbox := outbox w |}.

(** The calls of the lifecycle.  The profile routes of
    controllers/userController.js (reading and updating one's own Usuario
    row) are not among them. *)
Inductive Op :=
| OpRegisterUser (u : Usuario)
| OpCreatePublication (userId : Z) (b : PublicationController.Body)
| OpUpdatePublication (userId : Z) (id : string) (b : PublicationController.Body)
| OpDeletePublication (userId : Z) (id : string)
| OpCreateRequest (userId : Z) (publicacionId mensaje : JsVal)
| OpDeleteRequest (userId : Z) (id : string)
| OpActualizarEstadoSolicitud (userId : Z) (id : string) (nuevoEstado : JsVal).

(** The world after one call has run to its end. *)
Definition apply_op (env : Env) (op : Op) (w : World) : World :=
  match op with
  | OpRegisterUser u => registerUser u w
  | OpCreatePublication userId b =>
      (PublicationController.createPublication env userId b w).2
  | OpUpdatePublication userId id b =>
      (PublicationController.updatePublication env userId id b w).2
  | OpDeletePublication userId id =>
      (PublicationController.deletePublication env userId id w).2
  | OpCreateRequest userId publicacionId mensaje =>
      (RequestController.createRequest env userId publicacionId mensaje w).2
  | OpDeleteRequest userId id =>
      (RequestController.deleteRequest env userId id w).2
  | OpActualizarEstadoSolicitud userId id nuevoEstado =>
      (RequestController.actualizarEstadoSolicitud env userId id nuevoEstado w).2
  end.

(** Calls served one after the other, each under its own environment. *)
Definition run_ops (ops : list (Env * Op)) (w : World) : World :=
  fold_left (λ w eo, apply_op eo.1 eo.2 w) ops w.

Definition initial : World := {| db := empty_db; outbox := [] |}.

Definition reachable (w : World) : Prop :=
  ∃ ops, run_ops ops initial = w.

(** An edit that sends no [estado] field. *)
Definition edits_no_estado (op : Op) : Prop :=
  match op with
  | OpUpdatePublication _ _ b => PublicationController.estado b = JUndefined
  | _ => True
  end.

Definition reachable_without_estado_edit (w : World) : Prop :=
  ∃ ops, Forall (λ eo, edits_no_estado eo.2) ops ∧ run_ops ops initial = w.

Definition has_approved (d : DB) (pid : Z) : Prop :=
  ∃ rid r, solicitudes d !! rid = Some r ∧ sol_publicacionId r = pid
           ∧ sol_estado r = "Aprobada".

(** "no disponible" exactly for the publications with an approved request. *)
Definition availability_invariant (d : DB) : Prop :=
  ∀ pid p, publicaciones d !! pid = Some p →
    (pub_estado p = "no disponible" ↔ has_approved d pid).

(** What holds of every store the API produces: keys were handed out by the
    sequences, and a Solicitud points to a Publicacion (the foreign key). *)
Record consistent (d : DB) : Prop := {
  publicaciones_below_seq :
    ∀ pid p, publicaciones d !! pid = Some p → pid ≤ seq_publicacion d;
  solicitudes_below_seq :
    ∀ rid r, solicitudes d !! rid = Some r → rid ≤ seq_solicitud d;
  solicitud_publicacion_fk :
    ∀ rid r, solicitudes d !! rid = Some r →
      is_Some (publicaciones d !! sol_publicacionId r)
}.

(** ** Two calls at once

    Each await is one step; a schedule says whose turn it is ([true]: the
    first call).  When the schedule ends, the first call and then the second
    run to their end. *)
Definition step {A} (env : Env) (p : Prog A) (w : World) : Prog A * World :=
  match p with
  | Ret a => (Ret a, w)
  | Throw msg => (Throw msg, w)
  | Vis c k =>
      match exec env c w with
      | (Ok x, w') => (k x, w')
      | (Err msg, w') => (Throw msg, w')
      end
  | Transaction body k =>
      match run env body w with
      | (Ok x, w') => (k x, w')
      | (Err msg, _) => (Throw msg, w)
      end
  end.

Fixpoint interleave {A B} (env : Env) (schedule : list bool)
    (p : Prog A) (q : Prog B) (w : World) : Prog A * Prog B * World :=
  match schedule with
  | [] => (p, q, w)
  | true :: rest =>
      let '(p', w') := step env p w in interleave env rest p' q w'
  | false :: rest =>
      let '(q', w') := step env q w in interleave env rest p q' w'
  end.

Definition concurrently (env : Env) (schedule : list bool)
    (p q : Prog Response) (hp hq : string → Response) (w : World)
    : Response * Response * World :=
  let '(p', q', w') := interleave env schedule p q w in
  let '(rp, w1) := try_catch env p' hp w' in
  let '(rq, w2) := try_catch env q' hq w1 in
  (rp, rq, w2).

(** Two status changes by the same owner, interleaved. *)
Definition two_status_changes (env : Env) (schedule : list bool) (userId : Z)
    (id1 id2 : string) (nuevoEstado : JsVal) (w : World)
    : Response * Response * World :=
  concurrently env schedule
    (RequestController.actualizarEstadoSolicitud_body userId id1 nuevoEstado)
    (RequestController.actualizarEstadoSolicitud_body userId id2 nuevoEstado)
    RequestController.internal_error RequestController.internal_error w.

(** ** Vocabulary of the statements *)

(** What [findUnique] with its [include] returns for request [rid]. *)
Definition found (w : World) (rid : Z) (r : Solicitud) (u : Usuario)
    (p : Publicacion) : SolicitudInc :=
  {| si_id := rid; si_row := r; si_usuario := u; si_publicacion := p;
     si_Mascota := mascotas_de (sol_publicacionId r) (mascotas (db w)) |}.

(** Some row of [m] belongs to the pair (requester, publication). *)
Definition already_requested (uid pid : Z) (m : gmap Z Solicitud) : Prop :=
  ∃ k r, m !! k = Some r ∧ sol_usuarioId r = uid ∧ sol_publicacionId r = pid.

(** The row that createRequest inserts. *)
Definition created (userId pubId : Z) (mensaje : string) : Solicitud :=
  {| sol_estado := "Pendiente"; sol_mensaje := mensaje;
     sol_usuarioId := userId; sol_publicacionId := pubId |}.

Definition faltan_datos : Response :=
  reply 400 false
    "Faltan datos obligatorios (publicacionId y mensaje son requeridos)".

Definition no_disponible (p : Publicacion) : Publicacion :=
  {| pub_foto := pub_foto p; pub_estado := "no disponible";
     pub_usuarioId := pub_usuarioId p |}.

(** The three writes of an approval, in the order of the source. *)
Definition approve_db (rid : Z) (r : Solicitud) (p : Publicacion) (d : DB) : DB :=
  set_solicitudes (update_many (sol_publicacionId r) rid "Pendiente" "Rechazada")
    (set_publicaciones (insert (sol_publicacionId r) (no_disponible p))
       (set_solicitudes (insert rid (set_estado "Aprobada" r)) d)).

(** The notification of a status change to the requester of [s]. *)
Definition notificacion (s : SolicitudInc) (nuevoEstado : string) : Email :=
  {| mail_to := usr_email (si_usuario s);
     mail_nombreSolicitante := usr_nombre (si_usuario s);
     mail_nombreAnimal := RequestController.nombreAnimal s;
     mail_nuevoEstado := nuevoEstado |}.

(** The answer of a status change once the mail was handed over: [ok], or
    the 500 of the catch block when the transporter rejected the mail. *)
Definition after_mail (env : Env) (e : Email) (ok : Response) : Response :=
  match transporter env e with
  | None => ok
  | Some msg => RequestController.internal_error msg
  end.

(** Two different requests for publication [pid] are both approved. *)
Definition two_approved_on (d : DB) (pid : Z) : Prop :=
  ∃ r1 r2 s1 s2, r1 ≠ r2
    ∧ solicitudes d !! r1 = Some s1 ∧ solicitudes d !! r2 = Some s2
    ∧ sol_publicacionId s1 = pid ∧ sol_publicacionId s2 = pid
    ∧ sol_estado s1 = "Aprobada" ∧ sol_estado s2 = "Aprobada".

(** What the owner is shown for a request by [getSolicitudesRecibidas]. *)
Definition shown (id : Z) (solicitante : Z * string * string)
    (mascota estado mensaje : string) : Json :=
  JsonObj
    [("id", JsonNum id);
     ("solicitante",
      JsonObj [("id", JsonNum solicitante.1.1);
               ("nombre", JsonStr solicitante.1.2);
               ("apellido", JsonStr solicitante.2)]);
     ("mascota", JsonStr mascota);
     ("estado", JsonStr estado);
     ("mensaje", JsonStr mensaje)].

(** A decimal numeral starts with a digit or with the minus sign. *)
Definition decimal_head (s : string) : Prop :=
  match s with
  | String c _ => (48 ≤ code c ≤ 57)%N ∨ code c = 45%N
  | EmptyString => False
  end.

(** The row that an accepted edit with body [b] leaves in place of [p]. *)
Definition edited (b : PublicationController.Body) (p : Publicacion)
    : Publicacion :=
  {| pub_foto :=
       default (pub_foto p)
         (PublicationController.updateData (PublicationController.foto b)
            ≫= as_string);
     pub_estado :=
       default (pub_estado p)
         (PublicationController.updateData (PublicationController.estado b)
            ≫= as_string);
     pub_usuarioId := pub_usuarioId p |}.

(** Nothing but the publications and the pets changed from [d] to [d']. *)
Definition same_requests (d d' : DB) : Prop :=
  solicitudes d' = solicitudes d ∧ usuarios d' = usuarios d
  ∧ seq_publicacion d' = seq_publicacion d
  ∧ seq_solicitud d' = seq_solicitud d.

Definition estado_error (v : JsVal) : Validator.FieldError :=
  {| Validator.fe_value := v;
     Validator.fe_msg := "El estado debe ser: disponible o adoptado";
     Validator.fe_path := "estado" |}.

(** The invariant that is proved by induction on the calls. *)
Definition good (d : DB) : Prop := consistent d ∧ availability_invariant d.

(** ** Stages of an approval

    The rest of an approval after its fourth, third, second and first
    await, as [step] leaves it. *)
Definition send (m : Email) (actualizada_row : Z * Solicitud) : Prog Response :=
  Vis (EnviarNotificacionCambioEstado (mail_to m) (mail_nombreSolicitante m)
         (mail_nombreAnimal m) "Aprobada")
      (λ _, Ret (RequestController.actualizada "Aprobada" (solicitud_json actualizada_row))).

Definition after_publicacion (rid pid : Z) (m : Email) (act : Z * Solicitud)
    : Prog Response :=
  Vis (SolicitudUpdateMany pid rid "Pendiente" "Rechazada") (λ _, send m act).

Definition after_update (rid pid : Z) (m : Email) (act : Z * Solicitud)
    : Prog Response :=
  Vis (PublicacionUpdate pid None (Some (JStr "no disponible")))
      (λ _, after_publicacion rid pid m act).

Definition writes (rid pid : Z) (m : Email) : Prog Response :=
  Vis (SolicitudUpdate rid "Aprobada") (λ act, after_update rid pid m act).

(** The mail of an approval is in the outbox once it stands at stage 5. *)
Definition sent (st : nat) (m : Email) : list Email :=
  if decide (5 ≤ st)%nat then [m] else [].

(** Where an approval of request [rid] stands after [st] awaits: before
    the read, before each of the three writes, before the mail, and at its
    end (returned, or thrown by the mailer). *)
Definition prog_at (env : Env) (userId pid : Z) (id : string) (rid : Z)
    (R : Solicitud) (m : Email) (st : nat) (p : Prog Response) : Prop :=
  match st with
  | 0%nat => p = RequestController.actualizarEstadoSolicitud_body userId id (JStr "Aprobada")
  | 1%nat => p = writes rid pid m
  | 2%nat => p = after_update rid pid m (rid, set_estado "Aprobada" R)
  | 3%nat => p = after_publicacion rid pid m (rid, set_estado "Aprobada" R)
  | 4%nat => p = send m (rid, set_estado "Aprobada" R)
  | _ => (p = Ret (RequestController.actualizada "Aprobada"
                     (solicitud_json (rid, set_estado "Aprobada" R)))
          ∧ transporter env m = None)
         ∨ ∃ msg, p = Throw msg ∧ transporter env m = Some msg
  end.

(** The row of request [rid] is [R] up to its estado, which is "Aprobada"
    exactly from the first write of its approval on. *)
Definition row_ok (rid : Z) (R : Solicitud) (st : nat) (w : World) : Prop :=
  ∃ e, solicitudes (db w) !! rid = Some (set_estado e R)
       ∧ (e = "Aprobada" ↔ (2 ≤ st)%nat).

Definition shared_ok (userId pid : Z) (w0 : World) (sa sb : nat) (w : World)
    : Prop :=
  usuarios (db w) = usuarios (db w0) ∧ mascotas (db w) = mascotas (db w0)
  ∧ ∃ P', publicaciones (db w) !! pid = Some P' ∧ pub_usuarioId P' = userId
          ∧ ((3 ≤ sa)%nat ∨ (3 ≤ sb)%nat → pub_estado P' = "no disponible").

(** What holds of the world while two approvals, of [ra] and of [rb], stand
    after [sa] and [sb] awaits. *)
Definition inv (userId pid : Z) (w0 : World)
    (ra : Z) (Ra : Solicitud) (ma : Email) (sa : nat)
    (rb : Z) (Rb : Solicitud) (mb : Email) (sb : nat) (w : World) : Prop :=
  shared_ok userId pid w0 sa sb w ∧ row_ok ra Ra sa w ∧ row_ok rb Rb sb w
  ∧ outbox w ≡ₚ (outbox w0 ++ sent sa ma ++ sent sb mb)%list.

Definition next (st : nat) : nat :=
  match st with
  | 0 => 1 | 1 => 2 | 2 => 3 | 3 => 4 | _ => 5
  end%nat.

(** ** What the controllers keep true of the store *)

(** A pet as the validations of the two forms let it through. *)
Definition valid_pet (m : Mascota) : Prop :=
  mas_nombre m ≠ "" ∧ mas_descripcion m ≠ ""
  ∧ mas_tamano m ∈ ["Chico"; "Mediano"; "Grande"]
  ∧ mas_sexo m ∈ ["Macho"; "Hembra"]
  ∧ mas_tipo m ∈ ["Perro"; "Gato"; "Pájaro"; "Conejo"].

(** A photo that passes the two custom validators. *)
Definition valid_foto (f : string) : Prop :=
  PublicationController.foto_format (JStr f) = None
  ∧ PublicationController.foto_size (JStr f) = None.

(** The foreign keys of the four tables, and the primary key of Mascota. *)
Record referential (d : DB) : Prop := {
  publicacion_usuario_fk :
    ∀ pid p, publicaciones d !! pid = Some p →
      is_Some (usuarios d !! pub_usuarioId p);
  solicitud_usuario_fk :
    ∀ rid r, solicitudes d !! rid = Some r →
      is_Some (usuarios d !! sol_usuarioId r);
  solicitud_publicacion :
    ∀ rid r, solicitudes d !! rid = Some r →
      is_Some (publicaciones d !! sol_publicacionId r);
  mascota_publicacion_fk :
    ∀ k m, (k, m) ∈ mascotas d →
      is_Some (publicaciones d !! mas_publicacionId m);
  mascota_keys : NoDup (mascotas d).*1
}.

(** No two requests of one user for one publication (the unique index). *)
Definition unique_pairs (d : DB) : Prop :=
  ∀ k1 k2 r1 r2,
    solicitudes d !! k1 = Some r1 → solicitudes d !! k2 = Some r2 →
    sol_usuarioId r1 = sol_usuarioId r2 →
    sol_publicacionId r1 = sol_publicacionId r2 → k1 = k2.

(** The two [estado] columns, free text in the schema, hold one of three
    values each. *)
Definition estados_ok (d : DB) : Prop :=
  (∀ rid r, solicitudes d !! rid = Some r →
     sol_estado r ∈ ["Pendiente"; "Aprobada"; "Rechazada"])
  ∧ (∀ pid p, publicaciones d !! pid = Some p →
       pub_estado p ∈ ["disponible"; "adoptado"; "no disponible"]).

(** Every publication has one pet, a valid one, and a valid photo. *)
Definition one_pet (d : DB) : Prop :=
  ∀ pid p, publicaciones d !! pid = Some p →
    ∃ k m, mascotas_de pid (mascotas d) = [(k, m)] ∧ valid_pet m.

Definition fotos_ok (d : DB) : Prop :=
  ∀ pid p, publicaciones d !! pid = Some p → valid_foto (pub_foto p).

(** The keys of Mascota were handed out by its sequence. *)
Definition mascotas_below_seq (d : DB) : Prop :=
  ∀ k m, (k, m) ∈ mascotas d → k ≤ seq_mascota d.

Definition sound (d : DB) : Prop :=
  consistent d ∧ referential d ∧ mascotas_below_seq d ∧ unique_pairs d
  ∧ estados_ok d ∧ one_pet d ∧ fotos_ok d.

(** What an accepted edit can make of the row [p]. *)
Definition edit_of (p p' : Publicacion) : Prop :=
  pub_usuarioId p' = pub_usuarioId p
  ∧ (pub_estado p' = pub_estado p ∨ pub_estado p' = "disponible"
     ∨ pub_estado p' = "adoptado")
  ∧ (pub_foto p' = pub_foto p ∨ valid_foto (pub_foto p')).

(** The changes that a call made in the name of user [uid] can make to the
    store, one constructor for each write path of the controllers. *)
Inductive change (uid : Z) (d : DB) : DB → Prop :=
| ch_none : change uid d d
| ch_published f m :
    is_Some (usuarios d !! uid) → valid_foto f → valid_pet m →
    mas_publicacionId m = seq_publicacion d + 1 →
    change uid d
      (bump_seq_mascota
         (set_mascotas (λ l, l ++ [(seq_mascota d + 1, m)])%list
            (bump_seq_publicacion
               (set_publicaciones
                  (insert (seq_publicacion d + 1)
                     {| pub_foto := f; pub_estado := "disponible";
                        pub_usuarioId := uid |}) d))))
| ch_edited pid p p' mid i old m :
    publicaciones d !! pid = Some p → pub_usuarioId p = uid → edit_of p p' →
    head (mascotas_de pid (mascotas d)) = Some (mid, old) →
    list_find (λ kr, kr.1 = mid) (mascotas d) = Some (i, (mid, old)) →
    valid_pet m → mas_publicacionId m = mas_publicacionId old →
    change uid d
      (set_mascotas (map (λ kr, if decide (kr.1 = mid) then (mid, m) else kr))
         (set_publicaciones (insert pid p') d))
| ch_edited_new_pet pid p p' m :
    publicaciones d !! pid = Some p → pub_usuarioId p = uid → edit_of p p' →
    mascotas_de pid (mascotas d) = [] →
    valid_pet m → mas_publicacionId m = pid →
    change uid d
      (bump_seq_mascota
         (set_mascotas (λ l, l ++ [(seq_mascota d + 1, m)])%list
            (set_publicaciones (insert pid p') d)))
| ch_deleted pid p :
    publicaciones d !! pid = Some p → pub_usuarioId p = uid →
    change uid d (publicacion_delete pid d).2
| ch_requested pid p texto :
    publicaciones d !! pid = Some p → pub_estado p = "disponible" →
    pub_usuarioId p ≠ uid → ¬ already_requested uid pid (solicitudes d) →
    is_Some (usuarios d !! uid) →
    change uid d
      (bump_seq_solicitud
         (set_solicitudes
            (insert (seq_solicitud d + 1) (created uid pid texto)) d))
| ch_cancelled rid r :
    solicitudes d !! rid = Some r → sol_usuarioId r = uid →
    sol_estado r = "Pendiente" →
    change uid d (set_solicitudes (delete rid) d)
| ch_approved rid r p :
    solicitudes d !! rid = Some r →
    publicaciones d !! sol_publicacionId r = Some p → pub_usuarioId p = uid →
    sol_estado r ≠ "Aprobada" →
    change uid d (approve_db rid r p d)
| ch_retargeted rid r p e :
    solicitudes d !! rid = Some r →
    publicaciones d !! sol_publicacionId r = Some p → pub_usuarioId p = uid →
    sol_estado r ≠ "Aprobada" → e = "Rechazada" ∨ e = "Pendiente" →
    change uid d (set_solicitudes (insert rid (set_estado e r)) d).

(** The user in whose name a call is made ([req.user.userId]); a
    registration is made in nobody's name. *)
Definition caller (op : Op) : option Z :=
  match op with
  | OpRegisterUser _ => None
  | OpCreatePublication userId _ | OpUpdatePublication userId _ _
  | OpDeletePublication userId _ | OpCreateRequest userId _ _
  | OpDeleteRequest userId _ | OpActualizarEstadoSolicitud userId _ _ =>
      Some userId
  end.

(** ** Two submissions at once

    The same user sends two requests for the same publication and their
    awaits are interleaved. *)
Definition two_submissions (env : Env) (schedule : list bool) (userId : Z)
    (publicacionId1 mensaje1 publicacionId2 mensaje2 : JsVal) (w : World)
    : Response * Response * World :=
  concurrently env schedule
    (RequestController.createRequest_body userId publicacionId1 mensaje1)
    (RequestController.createRequest_body userId publicacionId2 mensaje2)
    (RequestController.createRequest_catch env)
    (RequestController.createRequest_catch env) w.

(** Where a submission stands: before the read of the publication, before
    the read of the unique index, before the insert, and at its end
    (refused as a duplicate, created, or failed on the unique index). *)
Inductive SubmitStage :=
| sub_start | sub_checked | sub_insert | sub_refused | sub_created | sub_failed.

#[global] Instance SubmitStage_eq_dec : EqDecision SubmitStage.
Proof. solve_decision. Defined.

Definition enviada_201 (nuevaSolicitud : Z * Solicitud) : Response :=
  {| status := 201;
     body := JsonObj [("success", JsonBool true);
                      ("message", JsonStr "Solicitud enviada correctamente");
                      ("data", solicitud_json nuevaSolicitud)] |}.

Definition ya_enviada : Response :=
  reply 400 false "Ya enviaste una solicitud para esta publicación".

(** The rest of a submission after its second and after its first await. *)
Definition insert_request (uid pid : Z) (mensaje : JsVal) : Prog Response :=
  Vis (SolicitudCreate uid pid mensaje "Pendiente")
      (λ nuevaSolicitud, Ret (enviada_201 nuevaSolicitud)).

Definition check_duplicate (uid pid : Z) (mensaje : JsVal) : Prog Response :=
  Vis (SolicitudFindUniqueUsuarioPublicacion uid pid)
      (λ solicitudExistente,
         match solicitudExistente with
         | Some _ => Ret ya_enviada
         | None => insert_request uid pid mensaje
         end).

Definition submit_at (uid pid : Z) (v : JsVal) (texto : string) (rid : Z)
    (s : SubmitStage) (p : Prog Response) : Prop :=
  match s with
  | sub_start => p = RequestController.createRequest_body uid v (JStr texto)
  | sub_checked => p = check_duplicate uid pid (JStr texto)
  | sub_insert => p = insert_request uid pid (JStr texto)
  | sub_refused => p = Ret ya_enviada
  | sub_created => p = Ret (enviada_201 (rid, created uid pid texto))
  | sub_failed => p = Throw unique_failed
  end.

(** The answer of a submission that has reached its end. *)
Definition submit_answer (env : Env) (uid pid : Z) (texto : string) (rid : Z)
    (s : SubmitStage) : Response :=
  match s with
  | sub_created => enviada_201 (rid, created uid pid texto)
  | sub_failed => RequestController.createRequest_catch env unique_failed
  | _ => ya_enviada
  end.

Definition submit_ended (s : SubmitStage) : Prop :=
  s = sub_refused ∨ s = sub_created ∨ s = sub_failed.

(** The stage after one more await, given where the other submission
    stands. *)
Definition submit_next (s other : SubmitStage) : SubmitStage :=
  match s with
  | sub_start => sub_checked
  | sub_checked => if decide (other = sub_created) then sub_refused else sub_insert
  | sub_insert => if decide (other = sub_created) then sub_failed else sub_created
  | _ => s
  end.

(** The store once the request with message [texto] is in. *)
Definition with_request (uid pid : Z) (texto : string) (d : DB) : DB :=
  bump_seq_solicitud
    (set_solicitudes
       (insert (seq_solicitud d + 1) (created uid pid texto)) d).

(** What holds of the world while the two submissions stand at [sa] and
    [sb]: at most one of them has inserted its row, and one that was refused
    or has failed lost to the other. *)
Definition submit_inv (uid pid : Z) (w0 : World) (ta tb : string)
    (sa sb : SubmitStage) (w : World) : Prop :=
  outbox w = outbox w0
  ∧ ¬ (sa = sub_created ∧ sb = sub_created)
  ∧ (sa = sub_refused ∨ sa = sub_failed → sb = sub_created)
  ∧ (sb = sub_refused ∨ sb = sub_failed → sa = sub_created)
  ∧ db w = if decide (sa = sub_created) then with_request uid pid ta (db w0)
           else if decide (sb = sub_created) then with_request uid pid tb (db w0)
           else db w0.

(** ** A cancellation and a status change at once

    The requester cancels a request while the owner of the publication
    changes its state. *)
Definition status_change_and_cancel (env : Env) (schedule : list bool)
    (owner requester : Z) (id : string) (nuevoEstado : JsVal) (w : World)
    : Response * Response * World :=
  concurrently env schedule
    (RequestController.actualizarEstadoSolicitud_body owner id nuevoEstado)
    (RequestController.deleteRequest_body requester id)
    RequestController.internal_error
    (λ _, reply 500 false
            "No se pudo cancelar la solicitud, intente nuevamente") w.

(** ** A later store against an earlier one *)

(** The rows of [d'] under the keys that [d] had handed out are rows of [d]:
    a request with nothing changed but its estado, a publication with its
    owner; and a request that was approved in [d] is in [d'] as it was,
    unless it is gone together with its publication. *)
Definition later (d d' : DB) : Prop :=
  seq_solicitud d ≤ seq_solicitud d'
  ∧ seq_publicacion d ≤ seq_publicacion d'
  ∧ (∀ rid r', solicitudes d' !! rid = Some r' → rid ≤ seq_solicitud d →
       ∃ r, solicitudes d !! rid = Some r ∧ r' = set_estado (sol_estado r') r)
  ∧ (∀ pid p', publicaciones d' !! pid = Some p' → pid ≤ seq_publicacion d →
       ∃ p, publicaciones d !! pid = Some p
            ∧ pub_usuarioId p' = pub_usuarioId p)
  ∧ (∀ rid r, solicitudes d !! rid = Some r → sol_estado r = "Aprobada" →
       solicitudes d' !! rid = Some r
       ∨ solicitudes d' !! rid = None
         ∧ publicaciones d' !! sol_publicacionId r = None).

(** [obj.key] on a JSON document. *)
Definition field (key : string) (j : Json) : option Json :=
  match j with
  | JsonObj fields =>
      (λ found, found.2.2) <$> list_find (λ kv, kv.1 = key) fields
  | _ => None
  end.

(** [obj.k1.k2...]. *)
Fixpoint path (keys : list string) (j : Json) : option Json :=
  match keys with
  | [] => Some j
  | key :: rest =>
      match field key j with
      | Some j' => path rest j'
      | None => None
      end
  end.

(** ** A small site used in the examples

    Ana (user 1) publishes Firulais (publication 1); Beto (2) and Caro (3)
    each send a request (1 and 2). *)

Module Sample.

Definition env : Env := {| transporter := λ _, None; NODE_ENV := "production" |}.

(** The same site with a mailer that rejects every message. *)
Definition env_mail_down : Env :=
  {| transporter := λ _, Some "Invalid login"; NODE_ENV := "production" |}.

Definition usuario (nombre : string) : Usuario :=
  {| usr_nombre := nombre; usr_apellido := "Pérez";
     usr_email := nombre +:+ "@example.com"; usr_password := "$2b$10$hash";
     usr_telefono := "1122334455"; usr_provincia := "Buenos Aires";
     usr_localidad := "La Plata" |}.

Definition firulais : PublicationController.Body :=
  {| PublicationController.nombre := JStr "Firulais";
     PublicationController.tamano := JStr "Mediano";
     PublicationController.sexo := JStr "Macho";
     PublicationController.tipo := JStr "Perro";
     PublicationController.descripcion := JStr "Muy amigable";
     PublicationController.foto := JStr "data:image/png;base64,iVBORw0KGgo=";
     PublicationController.estado := JUndefined |}.

(** The edit form: no new photo, and the given [estado] field. *)
Definition firulais_edit (estado : JsVal) : PublicationController.Body :=
  {| PublicationController.nombre := JStr "Firulais";
     PublicationController.tamano := JStr "Mediano";
     PublicationController.sexo := JStr "Macho";
     PublicationController.tipo := JStr "Perro";
     PublicationController.descripcion := JStr "Muy amigable";
     PublicationController.foto := JUndefined;
     PublicationController.estado := estado |}.

Definition published_ops : list (Env * Op) :=
  [(env, OpRegisterUser (usuario "Ana"));
   (env, OpRegisterUser (usuario "Beto"));
   (env, OpRegisterUser (usuario "Caro"));
   (env, OpCreatePublication 1 firulais)].

Definition two_pending_ops : list (Env * Op) :=
  (published_ops ++
   [(env, OpCreateRequest 2 (JNum 1) (JStr "Me gustaría adoptar a Firulais"));
    (env, OpCreateRequest 3 (JStr "1") (JStr "Tengo un patio grande"))])%list.

Definition approved_ops : list (Env * Op) :=
  (two_pending_ops ++
   [(env, OpActualizarEstadoSolicitud 1 "1" (JStr "Aprobada"))])%list.

Definition both_approved_ops : list (Env * Op) :=
  (approved_ops ++
   [(env, OpActualizarEstadoSolicitud 1 "2" (JStr "Aprobada"))])%list.

Definition reopened_ops : list (Env * Op) :=
  (approved_ops ++
   [(env, OpUpdatePublication 1 "1" (firulais_edit (JStr "disponible")))])%list.

Definition published : World := Eval vm_compute in run_ops published_ops initial.
Definition two_pending : World := Eval vm_compute in run_ops two_pending_ops initial.
Definition approved : World := Eval vm_compute in run_ops approved_ops initial.
Definition both_approved : World :=
  Eval vm_compute in run_ops both_approved_ops initial.
Definition reopened : World := Eval vm_compute in run_ops reopened_ops initial.

End Sample.

(** * Properties *)

Import RequestController PublicationController.

Example parseInt_examples :
  parseInt (JStr "42") = Some 42 ∧ parseInt (JNum 42) = Some 42
  ∧ parseInt (JStr "  -7px") = Some (-7) ∧ parseInt (JStr "0x1A") = Some 26
  ∧ parseInt (JStr "invalid_id") = None ∧ parseInt (JStr "") = None
  ∧ parseInt JUndefined = None ∧ parseInt (JStr "0") = Some 0
  ∧ parseInt (JBool true) = None ∧ parseInt (JStr "12abc") = Some 12.
Proof. vm_compute. repeat split. Qed.

Example length_utf16_examples :
  length_utf16 "" = 0%N ∧ length_utf16 "data:image/png;base64," = 22%N
  ∧ length_utf16 "Pájaro" = 6%N ∧ length_utf16 "€" = 1%N
  ∧ length_utf16 "🐶" = 2%N.
Proof. vm_compute. repeat split. Qed.

(** ** One await at a time *)

Section Awaits.
Context (env : Env).

Lemma exec_find_include_None w rid :
  solicitudes (db w) !! rid = None →
  exec env (SolicitudFindUniqueInclude rid) w = (Ok None, w).
Proof.
  intros Hr. destruct w as [d o]. simpl in *.
  unfold solicitud_find_include. by rewrite Hr.
Qed.

Lemma exec_find_include_Some w rid r u p :
  solicitudes (db w) !! rid = Some r →
  usuarios (db w) !! sol_usuarioId r = Some u →
  publicaciones (db w) !! sol_publicacionId r = Some p →
  exec env (SolicitudFindUniqueInclude rid) w =
    (Ok (Some {| si_id := rid; si_row := r; si_usuario := u;
                 si_publicacion := p;
                 si_Mascota := mascotas_de (sol_publicacionId r)
                                           (mascotas (db w)) |}), w).
Proof.
  intros Hr Hu Hp. destruct w as [d o]. simpl in *.
  unfold solicitud_find_include. by rewrite Hr, Hu, Hp.
Qed.

(** A read never changes the world, whatever it returns. *)
Lemma exec_find_include_world w rid :
  (exec env (SolicitudFindUniqueInclude rid) w).2 = w.
Proof. by destruct w. Qed.

End Awaits.

(** ** Changing the state of a request *)

Section ChangeStatus.
Context (env : Env) (w : World) (userId : Z) (id : string).

(** A request that exists, with its requester and its publication, whose
    publication belongs to the caller. *)
Context (rid : Z) (r : Solicitud) (u : Usuario) (p : Publicacion).
Hypothesis id_parses : parseInt (JStr id) = Some rid.
Hypothesis request_exists : solicitudes (db w) !! rid = Some r.
Hypothesis requester_exists : usuarios (db w) !! sol_usuarioId r = Some u.
Hypothesis publication_exists :
  publicaciones (db w) !! sol_publicacionId r = Some p.
Hypothesis caller_owns : pub_usuarioId p = userId.

(** C4. For a request whose state is "Aprobada", a status change by the
    owner of the publication to any of the three permitted states (the
    approved one included) is answered 400 "No se puede modificar una
    solicitud aprobada", and nothing changes: not the request, not its
    publication, not its siblings, and no mail is sent. *)
Theorem approved_request_is_final (nuevoEstado : JsVal) :
  includes estadosPermitidos nuevoEstado = true →
  sol_estado r = "Aprobada" →
  actualizarEstadoSolicitud env userId id nuevoEstado w
  = (reply 400 false "No se puede modificar una solicitud aprobada", w).
Proof.
  intros Hin Hest.
  unfold actualizarEstadoSolicitud, try_catch, actualizarEstadoSolicitud_body.
  rewrite id_parses, Hin. cbn [negb run].
  rewrite (exec_find_include_Some env w rid r u p) by done.
  cbn [si_publicacion si_row].
  destruct (decide (pub_usuarioId p ≠ userId)); [done|].
  destruct (decide (sol_estado r = "Aprobada")); done.
Qed.

(** C7. For a request that is not approved, asking for the state it already
    has changes no row, sends no mail, and answers 200 with the request as
    it was read: its five columns, unchanged, with the row of its requester
    and the row of its publication with its pets. *)
Theorem same_state_is_a_no_op :
  includes estadosPermitidos (JStr (sol_estado r)) = true →
  sol_estado r ≠ "Aprobada" →
  actualizarEstadoSolicitud env userId id (JStr (sol_estado r)) w
  = ({| status := 200;
        body := JsonObj
          [("success", JsonBool true);
           ("message",
            JsonStr "El estado ya estaba actualizado. No se envió correo.");
           ("solicitud",
            JsonObj
              [("id", JsonNum rid);
               ("estado", JsonStr (sol_estado r));
               ("mensaje", JsonStr (sol_mensaje r));
               ("usuarioId", JsonNum (sol_usuarioId r));
               ("publicacionId", JsonNum (sol_publicacionId r));
               ("usuario",
                JsonObj
                  [("id", JsonNum (sol_usuarioId r));
                   ("nombre", JsonStr (usr_nombre u));
                   ("apellido", JsonStr (usr_apellido u));
                   ("email", JsonStr (usr_email u));
                   ("password", JsonStr (usr_password u));
                   ("telefono", JsonStr (usr_telefono u));
                   ("provincia", JsonStr (usr_provincia u));
                   ("localidad", JsonStr (usr_localidad u))]);
               ("publicacion",
                JsonObj
                  [("id", JsonNum (sol_publicacionId r));
                   ("foto", JsonStr (pub_foto p));
                   ("estado", JsonStr (pub_estado p));
                   ("usuarioId", JsonNum (pub_usuarioId p));
                   ("Mascota",
                    JsonArr
                      (map (λ m : Z * Mascota,
                              JsonObj
                                [("id", JsonNum m.1);
                                 ("nombre", JsonStr (mas_nombre m.2));
                                 ("sexo", JsonStr (mas_sexo m.2));
                                 ("tipo", JsonStr (mas_tipo m.2));
                                 ("tamaño", JsonStr (mas_tamano m.2));
                                 ("descripcion", JsonStr (mas_descripcion m.2));
                                 ("publicacionId",
                                  JsonNum (mas_publicacionId m.2))])
                           (mascotas_de (sol_publicacionId r)
                                        (mascotas (db w)))))])])] |}, w).
Proof.
  intros Hin Hest.
  unfold actualizarEstadoSolicitud, try_catch, actualizarEstadoSolicitud_body.
  rewrite id_parses, Hin. cbn [negb run].
  rewrite (exec_find_include_Some env w rid r u p) by done.
  cbn [si_publicacion si_row].
  destruct (decide (pub_usuarioId p ≠ userId)); [done|].
  destruct (decide (sol_estado r = "Aprobada")); [done|].
  destruct (decide (JStr (sol_estado r) = JStr (sol_estado r))); done.
Qed.

End ChangeStatus.

Lemma approved_request_is_final_witness :
  parseInt (JStr "1") = Some 1
  ∧ includes estadosPermitidos (JStr "Pendiente") = true
  ∧ actualizarEstadoSolicitud Sample.env 1 "1" (JStr "Pendiente") Sample.approved
    = (reply 400 false "No se puede modificar una solicitud aprobada",
       Sample.approved).
Proof.
  split; [reflexivity|]. split; [reflexivity|].
  eapply (approved_request_is_final Sample.env Sample.approved 1 "1" 1);
    reflexivity.
Defined.

Lemma same_state_is_a_no_op_witness :
  let answer :=
    actualizarEstadoSolicitud Sample.env 1 "2" (JStr "Rechazada")
      Sample.approved in
  answer.2 = Sample.approved
  ∧ status answer.1 = 200
  ∧ path ["solicitud"; "id"] (body answer.1) = Some (JsonNum 2)
  ∧ path ["solicitud"; "estado"] (body answer.1) = Some (JsonStr "Rechazada")
  ∧ path ["solicitud"; "mensaje"] (body answer.1)
    = Some (JsonStr "Tengo un patio grande")
  ∧ path ["solicitud"; "usuario"; "nombre"] (body answer.1)
    = Some (JsonStr "Caro")
  ∧ path ["solicitud"; "publicacion"; "estado"] (body answer.1)
    = Some (JsonStr "no disponible").
Proof.
  pose proof (same_state_is_a_no_op Sample.env Sample.approved 1 "2" 2
                (Build_Solicitud "Rechazada" "Tengo un patio grande" 3 1)
                (Sample.usuario "Caro")
                (Build_Publicacion "data:image/png;base64,iVBORw0KGgo="
                                   "no disponible" 1)) as H.
  cbn [sol_estado] in H. cbn zeta.
  rewrite H; [repeat split|reflexivity..| |]; [reflexivity|].
  intros ?; discriminate.
Defined.

(** C8 as stated fails: the id "invalid_id", which parseInt reads as NaN, is
    answered 500 "Error interno del servidor", not 400. *)
Lemma invalid_id_is_answered_500 :
  parseInt (JStr "invalid_id") = None
  ∧ actualizarEstadoSolicitud Sample.env 1 "invalid_id" (JStr "Aprobada")
      Sample.two_pending
    = (internal_error "ID de solicitud inválido", Sample.two_pending)
  ∧ status (internal_error "ID de solicitud inválido") = 500.
Proof. repeat split. Qed.

(** C8, amended. The checks of a status change that come before any read:
    an id that parseInt reads as NaN is answered 500 "Error interno del
    servidor" with error "ID de solicitud inválido"; an id that parses to an
    integer (of any sign) passes, and then a state outside
    Aprobada/Rechazada/Pendiente is answered 400 "Estado no válido"; with a
    permitted state, an id that parses to a safe integer and has no row is
    answered 404.  In the three cases the world is left as it was. *)
Theorem status_change_checks (env : Env) (userId : Z) (id : string)
    (nuevoEstado : JsVal) (w : World) :
  (parseInt (JStr id) = None →
     actualizarEstadoSolicitud env userId id nuevoEstado w
     = (internal_error "ID de solicitud inválido", w))
  ∧ (∀ n, parseInt (JStr id) = Some n →
       includes estadosPermitidos nuevoEstado = false →
       actualizarEstadoSolicitud env userId id nuevoEstado w
       = (reply 400 false "Estado no válido", w))
  ∧ (∀ n, parseInt (JStr id) = Some n → isSafeInteger n →
       includes estadosPermitidos nuevoEstado = true →
       solicitudes (db w) !! n = None →
       actualizarEstadoSolicitud env userId id nuevoEstado w
       = (reply 404 false "Solicitud no encontrada", w)).
Proof.
  unfold actualizarEstadoSolicitud, try_catch, actualizarEstadoSolicitud_body.
  split; [|split].
  - by intros ->.
  - by intros n -> ->.
  - intros n -> _ -> Hnone. cbn [negb run].
    by rewrite (exec_find_include_None env w n Hnone).
Qed.

Lemma status_change_checks_witness :
  actualizarEstadoSolicitud Sample.env 1 "-1" (JStr "Aprobada") Sample.two_pending
  = (reply 404 false "Solicitud no encontrada", Sample.two_pending)
  ∧ actualizarEstadoSolicitud Sample.env 1 "0" (JStr "Cancelada") Sample.two_pending
    = (reply 400 false "Estado no válido", Sample.two_pending).
Proof.
  split.
  - apply (proj2 (proj2 (status_change_checks Sample.env 1 "-1" (JStr "Aprobada")
                           Sample.two_pending)) (-1)); [reflexivity| |reflexivity..].
    by vm_compute.
  - apply (proj1 (proj2 (status_change_checks Sample.env 1 "0" (JStr "Cancelada")
                           Sample.two_pending)) 0); reflexivity.
Defined.

(** ** Sending a request *)

Lemma solicitud_de_None uid pid (m : gmap Z Solicitud) :
  solicitud_de uid pid m = None ↔
  ∀ k r, m !! k = Some r →
         ¬ (sol_usuarioId r = uid ∧ sol_publicacionId r = pid).
Proof.
  unfold solicitud_de. rewrite head_None, map_to_list_empty_iff, map_empty.
  split.
  - intros H k r Hk HP. specialize (H k).
    rewrite map_lookup_filter_None in H. destruct H as [H|H]; [congruence|].
    by apply (H r).
  - intros H k. apply map_lookup_filter_None.
    destruct (m !! k) as [r|] eqn:Hk; [right|by left].
    intros r' [= <-]. by apply (H k).
Qed.

Lemma solicitud_de_Some uid pid (m : gmap Z Solicitud) x :
  solicitud_de uid pid m = Some x →
  m !! x.1 = Some x.2 ∧ sol_usuarioId x.2 = uid ∧ sol_publicacionId x.2 = pid.
Proof.
  unfold solicitud_de. intros H%head_Some_elem_of. destruct x as [k r].
  apply elem_of_map_to_list, map_lookup_filter_Some in H. naive_solver.
Qed.

Lemma solicitud_de_is_Some uid pid (m : gmap Z Solicitud) :
  already_requested uid pid m → is_Some (solicitud_de uid pid m).
Proof.
  intros (k & r & Hk & Hu & Hp).
  destruct (solicitud_de uid pid m) eqn:E; [done|].
  rewrite solicitud_de_None in E. by destruct (E k r Hk).
Qed.

Lemma solicitud_de_not_requested uid pid (m : gmap Z Solicitud) :
  ¬ already_requested uid pid m → solicitud_de uid pid m = None.
Proof.
  intros H. apply solicitud_de_None. intros k r Hk [Hu Hp].
  apply H. by exists k, r.
Qed.

Section CreateRequest.
Context (env : Env) (userId : Z) (publicacionId mensaje : JsVal) (w : World).

Lemma createRequest_invalid :
  parseInt publicacionId = None ∨ truthy publicacionId = false
  ∨ truthy mensaje = false →
  createRequest env userId publicacionId mensaje w = (faltan_datos, w).
Proof.
  unfold createRequest, try_catch, createRequest_body.
  intros [-> | [H | H]]; [done|..];
    destruct (parseInt publicacionId); [|done| |done];
    rewrite H; [done|]; by rewrite orb_true_r.
Qed.

Context (pubId : Z).
Hypothesis id_parses : parseInt publicacionId = Some pubId.
Hypothesis id_truthy : truthy publicacionId = true.
Hypothesis mensaje_truthy : truthy mensaje = true.

Lemma createRequest_not_found :
  publicaciones (db w) !! pubId = None →
  createRequest env userId publicacionId mensaje w
  = (reply 404 false "Publicación no encontrada", w).
Proof.
  intros Hp. destruct w as [d o]. cbn in Hp.
  unfold createRequest, try_catch, createRequest_body.
  rewrite id_parses, id_truthy, mensaje_truthy.
  cbn [negb orb run exec query db outbox]. by rewrite Hp.
Qed.

Context (p : Publicacion).
Hypothesis publication_exists : publicaciones (db w) !! pubId = Some p.

Lemma createRequest_unavailable :
  pub_estado p ≠ "disponible" →
  createRequest env userId publicacionId mensaje w
  = (reply 400 false "Esta publicación no está disponible para adopción", w).
Proof.
  intros Hne. destruct w as [d o]. cbn in publication_exists.
  unfold createRequest, try_catch, createRequest_body.
  rewrite id_parses, id_truthy, mensaje_truthy.
  cbn [negb orb run exec query db outbox]. rewrite publication_exists.
  cbn [fmap option_fmap option_map snd].
  by destruct (decide (pub_estado p ≠ "disponible")).
Qed.

Hypothesis available : pub_estado p = "disponible".

Lemma createRequest_own :
  pub_usuarioId p = userId →
  createRequest env userId publicacionId mensaje w
  = (reply 400 false
       "No puedes solicitar adopción de tu propia publicación", w).
Proof.
  intros Hown. destruct w as [d o]. cbn in publication_exists.
  unfold createRequest, try_catch, createRequest_body.
  rewrite id_parses, id_truthy, mensaje_truthy.
  cbn [negb orb run exec query db outbox]. rewrite publication_exists.
  cbn [fmap option_fmap option_map snd].
  destruct (decide (pub_estado p ≠ "disponible")); [done|].
  by destruct (decide (pub_usuarioId p = userId)).
Qed.

Hypothesis not_own : pub_usuarioId p ≠ userId.

Lemma createRequest_duplicate :
  already_requested userId pubId (solicitudes (db w)) →
  createRequest env userId publicacionId mensaje w
  = (reply 400 false "Ya enviaste una solicitud para esta publicación", w).
Proof.
  intros [x Hx]%solicitud_de_is_Some.
  destruct w as [d o]. cbn in publication_exists, Hx.
  unfold createRequest, try_catch, createRequest_body.
  rewrite id_parses, id_truthy, mensaje_truthy.
  cbn [negb orb run exec query db outbox]. rewrite publication_exists.
  cbn [fmap option_fmap option_map snd].
  destruct (decide (pub_estado p ≠ "disponible")); [done|].
  destruct (decide (pub_usuarioId p = userId)); [done|].
  cbn [run exec query db outbox]. by rewrite Hx.
Qed.

Lemma createRequest_created (texto : string) :
  ¬ already_requested userId pubId (solicitudes (db w)) →
  mensaje = JStr texto →
  is_Some (usuarios (db w) !! userId) →
  createRequest env userId publicacionId mensaje w
  = ({| status := 201;
        body := JsonObj
          [("success", JsonBool true);
           ("message", JsonStr "Solicitud enviada correctamente");
           ("data", solicitud_json (seq_solicitud (db w) + 1,
                                    created userId pubId texto))] |},
     {| db := bump_seq_solicitud
                (set_solicitudes (insert (seq_solicitud (db w) + 1)
                                         (created userId pubId texto)) (db w));
        outbox := outbox w |}).
Proof.
  intros Hno%solicitud_de_not_requested Hm Hu.
  destruct w as [d o]. cbn in publication_exists, Hno, Hu.
  unfold createRequest, try_catch, createRequest_body.
  rewrite id_parses, id_truthy, mensaje_truthy.
  cbn [negb orb run exec query db outbox]. rewrite publication_exists.
  cbn [fmap option_fmap option_map snd].
  destruct (decide (pub_estado p ≠ "disponible")); [done|].
  destruct (decide (pub_usuarioId p = userId)); [done|].
  cbn [run exec query db outbox]. rewrite Hno, Hm.
  cbn [run exec query db outbox]. unfold solicitud_create.
  rewrite decide_True by (split; [done|by eexists]).
  by rewrite Hno.
Qed.

End CreateRequest.




(** C6. A request for one's own publication is answered 400 whatever the
    estado of the publication (with the message of the availability check
    when it is not "disponible", with the message of the ownership check
    otherwise), and the world is left as it was. *)
Theorem own_publication_is_refused (env : Env) (userId : Z)
    (publicacionId : JsVal) (texto : string) (w : World) (pubId : Z)
    (p : Publicacion) :
  parseInt publicacionId = Some pubId →
  truthy publicacionId = true →
  texto ≠ "" →
  publicaciones (db w) !! pubId = Some p →
  pub_usuarioId p = userId →
  createRequest env userId publicacionId (JStr texto) w
  = (reply 400 false
       (if decide (pub_estado p = "disponible")
        then "No puedes solicitar adopción de tu propia publicación"
        else "Esta publicación no está disponible para adopción"), w).
Proof.
  intros Hparse Htruthy Htexto Hp Hown.
  assert (truthy (JStr texto) = true) as Hm.
  { cbn. by destruct (String.eqb_spec texto ""). }
  destruct (decide (pub_estado p = "disponible")) as [Hd|Hd].
  - by eapply createRequest_own.
  - by eapply createRequest_unavailable.
Qed.

Lemma own_publication_is_refused_witness :
  createRequest Sample.env 1 (JNum 1) (JStr "Es mío") Sample.published
  = (reply 400 false "No puedes solicitar adopción de tu propia publicación",
     Sample.published)
  ∧ createRequest Sample.env 1 (JStr "1") (JStr "Es mío") Sample.approved
    = (reply 400 false "Esta publicación no está disponible para adopción",
       Sample.approved).
Proof.
  split.
  - apply (own_publication_is_refused Sample.env 1 (JNum 1) "Es mío"
             Sample.published 1
             (Build_Publicacion "data:image/png;base64,iVBORw0KGgo="
                                "disponible" 1)); done.
  - apply (own_publication_is_refused Sample.env 1 (JStr "1") "Es mío"
             Sample.approved 1
             (Build_Publicacion "data:image/png;base64,iVBORw0KGgo="
                                "no disponible" 1)); done.
Defined.

(** ** Approving a request *)

Lemma estadosPermitidos_spec (v : JsVal) :
  includes estadosPermitidos v = true ↔
  v = JStr "Aprobada" ∨ v = JStr "Rechazada" ∨ v = JStr "Pendiente".
Proof.
  destruct v as [| | |n|s]; cbn; try (split; [done|naive_solver]).
  rewrite bool_decide_eq_true. unfold estadosPermitidos.
  rewrite !elem_of_cons, elem_of_nil. naive_solver.
Qed.

Section Approval.
Context (env : Env) (w : World) (userId : Z) (id : string).
Context (rid : Z) (r : Solicitud) (u : Usuario) (p : Publicacion).
Hypothesis id_parses : parseInt (JStr id) = Some rid.
Hypothesis request_exists : solicitudes (db w) !! rid = Some r.
Hypothesis requester_exists : usuarios (db w) !! sol_usuarioId r = Some u.
Hypothesis publication_exists :
  publicaciones (db w) !! sol_publicacionId r = Some p.
Hypothesis caller_owns : pub_usuarioId p = userId.
Hypothesis not_approved : sol_estado r ≠ "Aprobada".

Lemma approve_run :
  actualizarEstadoSolicitud env userId id (JStr "Aprobada") w
  = (after_mail env (notificacion (found w rid r u p) "Aprobada")
       (actualizada "Aprobada" (solicitud_json (rid, set_estado "Aprobada" r))),
     {| db := approve_db rid r p (db w);
        outbox := (outbox w ++ [notificacion (found w rid r u p) "Aprobada"])%list |}).
Proof.
  unfold actualizarEstadoSolicitud, try_catch, actualizarEstadoSolicitud_body.
  rewrite id_parses.
  rewrite (proj2 (estadosPermitidos_spec (JStr "Aprobada"))) by by left.
  cbn [negb run].
  rewrite (exec_find_include_Some env w rid r u p) by done.
  cbn [si_publicacion si_row si_id si_usuario].
  destruct (decide (pub_usuarioId p ≠ userId)); [done|].
  destruct (decide (sol_estado r = "Aprobada")); [done|].
  destruct (decide (JStr (sol_estado r) = JStr "Aprobada")); [congruence|].
  destruct (decide (JStr "Aprobada" = JStr "Aprobada")); [|done].
  destruct w as [d o]. cbn in request_exists, publication_exists.
  cbn [run exec query db outbox ToString].
  unfold solicitud_update. rewrite request_exists.
  cbn [run exec query db outbox ToString].
  unfold publicacion_update. cbn [publicaciones set_solicitudes].
  rewrite publication_exists.
  cbn [run exec query db outbox ToString mbind option_bind as_string default].
  unfold after_mail, approve_db, no_disponible, notificacion, found.
  cbn [si_usuario db]. destruct (transporter env _); reflexivity.
Qed.

(** The other two targets touch one row. *)
Lemma retarget_run (nuevo : string) :
  nuevo = "Rechazada" ∨ nuevo = "Pendiente" →
  nuevo ≠ sol_estado r →
  actualizarEstadoSolicitud env userId id (JStr nuevo) w
  = (after_mail env (notificacion (found w rid r u p) nuevo)
       (actualizada nuevo (solicitud_json (rid, set_estado nuevo r))),
     {| db := set_solicitudes (insert rid (set_estado nuevo r)) (db w);
        outbox := (outbox w ++ [notificacion (found w rid r u p) nuevo])%list |}).
Proof.
  intros Hnuevo Hchange.
  unfold actualizarEstadoSolicitud, try_catch, actualizarEstadoSolicitud_body.
  rewrite id_parses.
  rewrite (proj2 (estadosPermitidos_spec (JStr nuevo))) by naive_solver.
  cbn [negb run].
  rewrite (exec_find_include_Some env w rid r u p) by done.
  cbn [si_publicacion si_row si_id si_usuario].
  destruct (decide (pub_usuarioId p ≠ userId)); [done|].
  destruct (decide (sol_estado r = "Aprobada")); [done|].
  destruct (decide (JStr (sol_estado r) = JStr nuevo)); [congruence|].
  destruct (decide (JStr nuevo = JStr "Aprobada")); [naive_solver|].
  destruct w as [d o]. cbn in request_exists, publication_exists.
  cbn [run exec query db outbox ToString].
  unfold solicitud_update. rewrite request_exists.
  cbn [run exec query db outbox ToString].
  unfold after_mail, notificacion, found.
  cbn [si_usuario db]. destruct (transporter env _); reflexivity.
Qed.

End Approval.

(** *** The store after an approval *)

Section ApproveDb.
Context (rid : Z) (r : Solicitud) (p : Publicacion) (d : DB).

Lemma approve_db_target :
  solicitudes (approve_db rid r p d) !! rid = Some (set_estado "Aprobada" r).
Proof.
  unfold approve_db, update_many. cbn [solicitudes set_solicitudes set_publicaciones].
  rewrite map_lookup_imap, lookup_insert_eq. cbn.
  rewrite decide_False; [done|]. unfold selected. naive_solver.
Qed.

Lemma approve_db_sibling k :
  k ≠ rid →
  solicitudes (approve_db rid r p d) !! k
  = (λ s, if decide (sol_publicacionId s = sol_publicacionId r
                     ∧ sol_estado s = "Pendiente")
          then set_estado "Rechazada" s else s) <$> solicitudes d !! k.
Proof.
  intros Hk. unfold approve_db, update_many.
  cbn [solicitudes set_solicitudes set_publicaciones].
  rewrite map_lookup_imap, lookup_insert_ne by done.
  destruct (solicitudes d !! k) as [s|]; [|done]. cbn. f_equal.
  unfold selected. repeat case_decide; naive_solver.
Qed.

Lemma approve_db_publicaciones :
  publicaciones (approve_db rid r p d)
  = <[sol_publicacionId r := no_disponible p]> (publicaciones d).
Proof. reflexivity. Qed.

Lemma approve_db_rest :
  usuarios (approve_db rid r p d) = usuarios d
  ∧ mascotas (approve_db rid r p d) = mascotas d
  ∧ seq_publicacion (approve_db rid r p d) = seq_publicacion d
  ∧ seq_solicitud (approve_db rid r p d) = seq_solicitud d.
Proof. done. Qed.

End ApproveDb.

(** X1. The cascade of an approval, for a call that runs alone: the request
    becomes "Aprobada", its publication "no disponible", every other request
    of the same publication that was "Pendiente" becomes "Rechazada", every
    other row of every table is as before, and one notification, addressed
    to the requester, is handed to the mailer after the three writes. *)
Theorem approval_cascade (env : Env) (w : World) (userId : Z) (id : string)
    (rid : Z) (r : Solicitud) (u : Usuario) (p : Publicacion) :
  parseInt (JStr id) = Some rid →
  solicitudes (db w) !! rid = Some r →
  usuarios (db w) !! sol_usuarioId r = Some u →
  publicaciones (db w) !! sol_publicacionId r = Some p →
  pub_usuarioId p = userId →
  sol_estado r ≠ "Aprobada" →
  let answer := (actualizarEstadoSolicitud env userId id (JStr "Aprobada") w).1 in
  let w' := (actualizarEstadoSolicitud env userId id (JStr "Aprobada") w).2 in
  solicitudes (db w') !! rid = Some (set_estado "Aprobada" r)
  ∧ publicaciones (db w') !! sol_publicacionId r = Some (no_disponible p)
  ∧ (∀ k s, k ≠ rid → solicitudes (db w) !! k = Some s →
       solicitudes (db w') !! k
       = Some (if decide (sol_publicacionId s = sol_publicacionId r
                          ∧ sol_estado s = "Pendiente")
               then set_estado "Rechazada" s else s))
  ∧ (∀ k, solicitudes (db w) !! k = None → solicitudes (db w') !! k = None)
  ∧ (∀ k, k ≠ sol_publicacionId r →
       publicaciones (db w') !! k = publicaciones (db w) !! k)
  ∧ usuarios (db w') = usuarios (db w)
  ∧ mascotas (db w') = mascotas (db w)
  ∧ outbox w' = (outbox w ++ [notificacion (found w rid r u p) "Aprobada"])%list
  ∧ mail_to (notificacion (found w rid r u p) "Aprobada") = usr_email u
  ∧ answer
    = after_mail env (notificacion (found w rid r u p) "Aprobada")
        (actualizada "Aprobada" (solicitud_json (rid, set_estado "Aprobada" r))).
Proof.
  intros Hid Hr Hu Hp Hown Hest. cbn zeta.
  rewrite (approve_run env w userId id rid r u p) by done. cbn [fst snd db outbox].
  split; [apply approve_db_target|].
  split; [by rewrite approve_db_publicaciones, lookup_insert_eq|].
  split; [intros k s Hk Hs; by rewrite approve_db_sibling, Hs|].
  split.
  { intros k Hk. destruct (decide (k = rid)) as [->|Hne]; [congruence|].
    by rewrite approve_db_sibling, Hk. }
  split; [intros k Hk; by rewrite approve_db_publicaciones, lookup_insert_ne|].
  done.
Qed.

Lemma approval_cascade_witness :
  let w' := (actualizarEstadoSolicitud Sample.env 1 "1" (JStr "Aprobada")
               Sample.two_pending).2 in
  sol_estado <$> solicitudes (db w') !! 1 = Some "Aprobada"
  ∧ sol_estado <$> solicitudes (db w') !! 2 = Some "Rechazada"
  ∧ pub_estado <$> publicaciones (db w') !! 1 = Some "no disponible"
  ∧ mail_to <$> outbox w' = ["Beto@example.com"].
Proof.
  pose proof (approval_cascade Sample.env Sample.two_pending 1 "1" 1
                (created 2 1 "Me gustaría adoptar a Firulais")
                (Sample.usuario "Beto")
                (Build_Publicacion "data:image/png;base64,iVBORw0KGgo="
                                   "disponible" 1)
                eq_refl eq_refl eq_refl eq_refl eq_refl
                ltac:(intros [=])) as (H1 & H2 & H3 & _ & _ & _ & _ & H8 & _).
  cbn zeta. cbn [sol_publicacionId created] in H2.
  rewrite H1, H2, H8.
  rewrite (H3 2 (created 3 1 "Tengo un patio grande")) by done.
  repeat split.
Defined.

(** C2 at a failing input.  The three writes of an approval are three
    awaits, not one transaction: when the owner's list of received requests
    is read after the second await of the approval of request 1 (the first
    write), it shows request 1 "Aprobada" and request 2 still "Pendiente",
    which no call served before or after the whole approval shows. *)
Theorem approval_is_seen_half_done :
  let beto := (2, "Beto", "Pérez") in
  let caro := (3, "Caro", "Pérez") in
  let list_of rows :=
    {| status := 200; body := JsonObj [("solicitudes", JsonArr rows)] |} in
  let approve :=
    actualizarEstadoSolicitud_body 1 "1" (JStr "Aprobada") in
  let during :=
    concurrently Sample.env [true; true; false] approve
      (getSolicitudesRecibidas_body 1) internal_error internal_error
      Sample.two_pending in
  during.1.2
  = list_of
      [shown 1 beto "Firulais" "Aprobada" "Me gustaría adoptar a Firulais";
       shown 2 caro "Firulais" "Pendiente" "Tengo un patio grande"]
  ∧ status during.1.1 = 200
  ∧ during.2 = Sample.approved
  ∧ (getSolicitudesRecibidas Sample.env 1 Sample.two_pending).1
    = list_of
        [shown 1 beto "Firulais" "Pendiente" "Me gustaría adoptar a Firulais";
         shown 2 caro "Firulais" "Pendiente" "Tengo un patio grande"]
  ∧ (getSolicitudesRecibidas Sample.env 1 Sample.approved).1
    = list_of
        [shown 1 beto "Firulais" "Aprobada" "Me gustaría adoptar a Firulais";
         shown 2 caro "Firulais" "Rechazada" "Tengo un patio grande"].
Proof. vm_compute. repeat split. Qed.

(** ** Editing a publication *)

Lemma pretty_N_char_digit x : (48 ≤ code (pretty_N_char x) ≤ 57)%N.
Proof.
  unfold pretty_N_char. repeat case_match; vm_compute; split; discriminate.
Qed.

Lemma pretty_N_go_head x s : (0 < x)%N → decimal_head (pretty_N_go x s).
Proof.
  revert s. induction (N.lt_wf_0 x) as [x _ IH]; intros s Hx.
  rewrite pretty_N_go_step by done.
  destruct (decide (0 < x `div` 10)%N) as [Hd|Hd].
  - apply IH; [|done]. by apply N.div_lt.
  - apply N.nlt_ge, N.le_0_r in Hd. rewrite Hd, pretty_N_go_0.
    left. apply pretty_N_char_digit.
Qed.

Lemma ToString_JNum_head n : decimal_head (ToString (JNum n)).
Proof.
  cbn. unfold pretty, pretty_Z. destruct n as [|x|x].
  - left. vm_compute. split; discriminate.
  - unfold pretty, pretty_positive, pretty, pretty_N.
    rewrite decide_False by done. by apply pretty_N_go_head.
  - right. reflexivity.
Qed.

(** The chain on [estado]: silent on an absent field and on the two
    accepted strings, one error on anything else. *)
Lemma estado_chain (v : JsVal) :
  Validator.optional
    (Validator.isIn ["disponible"; "adoptado"]
       "El estado debe ser: disponible o adoptado") "estado" v
  = if decide (v = JUndefined ∨ v = JStr "disponible" ∨ v = JStr "adoptado")
    then [] else [estado_error v].
Proof.
  unfold Validator.optional, Validator.isIn.
  destruct v as [| |[]|n|s];
    try (rewrite decide_True by naive_solver; done);
    try (rewrite decide_False by naive_solver; done).
  - rewrite decide_False by naive_solver.
    rewrite bool_decide_eq_false_2; [done|].
    pose proof (ToString_JNum_head n) as Hh. cbn [Validator.toString].
    rewrite !elem_of_cons, elem_of_nil.
    intros [Hin|[Hin|[]]]; rewrite Hin in Hh; vm_compute in Hh; naive_solver.
  - cbn [Validator.toString ToString]. case_bool_decide as Hin.
    + rewrite !elem_of_cons, elem_of_nil in Hin.
      rewrite decide_True by naive_solver. done.
    + rewrite !elem_of_cons, elem_of_nil in Hin.
      rewrite decide_False by naive_solver. done.
Qed.

Lemma estado_validated (b : Body) :
  updatePublicationValidations b = [] →
  estado b = JUndefined ∨ estado b = JStr "disponible"
  ∨ estado b = JStr "adoptado".
Proof.
  unfold updatePublicationValidations.
  intros H. apply app_eq_nil in H as [_ H]. apply app_eq_nil in H as [He _].
  rewrite estado_chain in He. by case_decide.
Qed.

Lemma publicacion_update_cases id f e d :
  (∃ msg, publicacion_update id f e d = (Err msg, d))
  ∨ ∃ p, publicaciones d !! id = Some p
      ∧ publicacion_update id f e d
        = (Ok (id, {| pub_foto := default (pub_foto p) (f ≫= as_string);
                      pub_estado := default (pub_estado p) (e ≫= as_string);
                      pub_usuarioId := pub_usuarioId p |}),
           set_publicaciones
             (insert id {| pub_foto := default (pub_foto p) (f ≫= as_string);
                           pub_estado := default (pub_estado p) (e ≫= as_string);
                           pub_usuarioId := pub_usuarioId p |}) d).
Proof.
  unfold publicacion_update.
  destruct (publicaciones d !! id) as [p|] eqn:Hp.
  - destruct f as [[]|], e as [[]|]; eauto.
  - left. destruct f as [[]|], e as [[]|]; eauto.
Qed.

Lemma mascota_update_cases id n t s ti de d :
  (∃ msg, mascota_update id n t s ti de d = (Err msg, d))
  ∨ ∃ m f, mascota_update id n t s ti de d = (Ok m, set_mascotas f d).
Proof. unfold mascota_update. repeat case_match; eauto. Qed.

Lemma mascota_create_cases n t s ti de pid d :
  (∃ msg, mascota_create n t s ti de pid d = (Err msg, d))
  ∨ ∃ m f, mascota_create n t s ti de pid d
           = (Ok m, bump_seq_mascota (set_mascotas f d)).
Proof. unfold mascota_create. repeat case_match; eauto. Qed.

(** An edit either is refused and changes nothing, or is answered 200 and
    replaces one row of Publicacion (and rows of Mascota). *)
Lemma updatePublication_effect env uid id b w :
  let answer := (updatePublication env uid id b w).1 in
  let w' := (updatePublication env uid id b w).2 in
  (status answer ≠ 200 ∧ w' = w)
  ∨ (status answer = 200 ∧ updatePublicationValidations b = []
     ∧ ∃ pid p, parseInt (JStr id) = Some pid
         ∧ publicaciones (db w) !! pid = Some p ∧ pub_usuarioId p = uid
         ∧ publicaciones (db w') = <[pid := edited b p]> (publicaciones (db w))
         ∧ same_requests (db w) (db w') ∧ outbox w' = outbox w).
Proof.
  cbn zeta. unfold updatePublication, try_catch, updatePublication_body.
  destruct w as [d o].
  case_bool_decide as Hv; cbn [negb]; [|by left].
  destruct (parseInt (JStr id)) as [pid|]; [|by left].
  destruct (decide (uid = 0)); [by left|].
  cbn [run exec query db outbox].
  destruct (publicaciones d !! pid) as [p|] eqn:Hp; [|by left].
  cbn [fmap option_fmap option_map run fst snd].
  destruct (decide (pub_usuarioId p ≠ uid)) as [|Hown]; [by left|].
  apply dec_stable in Hown.
  destruct (updateData (foto b)) as [f|] eqn:Ef,
           (updateData (estado b)) as [e|] eqn:Ee.
  all: cbn [run exec query db outbox].
  all: try (destruct (publicacion_update_cases pid (Some f) (Some e) d)
              as [[msg Hu]|(p' & Hp' & Hu)]).
  all: try (destruct (publicacion_update_cases pid (Some f) None d)
              as [[msg Hu]|(p' & Hp' & Hu)]).
  all: try (destruct (publicacion_update_cases pid None (Some e) d)
              as [[msg Hu]|(p' & Hp' & Hu)]).
  all: try (rewrite Hu; cbn [run fst snd]).
  all: try (left; split; done).
  all: destruct (head (mascotas_de pid (mascotas d))) as [[mid m]|].
  all: cbn [run exec query db outbox fst snd].
  all: try match goal with
       | |- context [mascota_update ?a ?b ?c ?d ?e ?f ?g] =>
           destruct (mascota_update_cases a b c d e f g)
             as [[msg' Hm]|(m' & fm & Hm)];
           rewrite Hm
       | |- context [mascota_create ?a ?b ?c ?d ?e ?f ?g] =>
           destruct (mascota_create_cases a b c d e f g)
             as [[msg' Hm]|(m' & fm & Hm)];
           rewrite Hm
       end.
  all: cbn [run fst snd].
  all: try (left; split; done).
  all: right; split; [done|]; split; [done|].
  all: exists pid, p; cbn [db outbox].
  all: try (rewrite Hp in Hp'; injection Hp' as <-).
  all: unfold edited, same_requests; rewrite ?Ef, ?Ee; cbn.
  all: repeat split; try done.
  all: destruct p; cbn; by rewrite insert_id.
Qed.

(** C10. An edit that sends an [estado] other than "disponible" or
    "adoptado" ("no disponible" included) is answered 400 with the
    validation errors, the one on [estado] among them, and changes nothing;
    so no edit leaves a publication "no disponible" that was not so before,
    while an edit does write "adoptado"; and an edit that sends no [estado]
    leaves the estado of every publication as it was, and its foto too when
    no [foto] is sent. *)
Theorem edit_writes_only_disponible_or_adoptado (env : Env) (userId : Z)
    (id : string) (b : Body) (w : World) :
  let answer := (updatePublication env userId id b w).1 in
  let w' := (updatePublication env userId id b w).2 in
  (estado b ≠ JUndefined → estado b ≠ JStr "disponible" →
   estado b ≠ JStr "adoptado" →
   answer = errores (updatePublicationValidations b)
   ∧ status answer = 400
   ∧ estado_error (estado b) ∈ updatePublicationValidations b
   ∧ w' = w)
  ∧ (∀ pid p', publicaciones (db w') !! pid = Some p' →
       pub_estado p' = "no disponible" →
       ∃ p, publicaciones (db w) !! pid = Some p
            ∧ pub_estado p = "no disponible")
  ∧ (estado b = JUndefined →
     ∀ pid p, publicaciones (db w) !! pid = Some p →
       ∃ p', publicaciones (db w') !! pid = Some p'
             ∧ pub_estado p' = pub_estado p
             ∧ (foto b = JUndefined → pub_foto p' = pub_foto p))
  ∧ (let adopted :=
       updatePublication Sample.env 1 "1"
         (Sample.firulais_edit (JStr "adoptado")) Sample.published in
     status adopted.1 = 200
     ∧ pub_estado <$> publicaciones (db adopted.2) !! 1 = Some "adoptado").
Proof.
  cbn zeta. split; [|split; [|split]].
  - intros H1 H2 H3.
    assert (estado_error (estado b) ∈ updatePublicationValidations b) as Hin.
    { unfold updatePublicationValidations. rewrite !elem_of_app, estado_chain.
      rewrite decide_False by naive_solver. right; left. by left. }
    unfold updatePublication, try_catch, updatePublication_body.
    case_bool_decide as Hv; [rewrite Hv in Hin; by apply elem_of_nil in Hin|].
    done.
  - intros pid p' Hp' Hest.
    destruct (updatePublication_effect env userId id b w)
      as [[_ Hw]|(_ & Hv & pid0 & p0 & _ & Hp0 & _ & Hpubs & _)].
    + rewrite Hw in Hp'. eauto.
    + rewrite Hpubs in Hp'. destruct (decide (pid0 = pid)) as [->|Hne].
      * rewrite lookup_insert_eq in Hp'. injection Hp' as <-.
        exists p0. split; [done|]. unfold edited in Hest. cbn in Hest.
        destruct (estado_validated b Hv) as [E|[E|E]]; rewrite E in Hest;
          cbn in Hest; done.
      * rewrite lookup_insert_ne in Hp' by done. eauto.
  - intros Hest pid p Hp.
    destruct (updatePublication_effect env userId id b w)
      as [[_ Hw]|(_ & Hv & pid0 & p0 & _ & Hp0 & _ & Hpubs & _)].
    + rewrite Hw. eauto.
    + rewrite Hpubs. destruct (decide (pid0 = pid)) as [->|Hne].
      * rewrite lookup_insert_eq. eexists. split; [done|].
        rewrite Hp0 in Hp. injection Hp as <-.
        unfold edited. rewrite Hest. cbn. split; [done|]. by intros ->.
      * rewrite lookup_insert_ne by done. eauto.
  - vm_compute. by split.
Qed.

Lemma edit_writes_only_disponible_or_adoptado_witness :
  let refused :=
    updatePublication Sample.env 1 "1"
      (Sample.firulais_edit (JStr "no disponible")) Sample.published in
  status refused.1 = 400 ∧ refused.2 = Sample.published.
Proof.
  cbn zeta.
  destruct (proj1 (edit_writes_only_disponible_or_adoptado Sample.env 1 "1"
                     (Sample.firulais_edit (JStr "no disponible"))
                     Sample.published))
    as (_ & H1 & _ & H2); [done..|].
  by split.
Defined.

(** ** A rejected request can still be approved *)

(** C9. A request in state "Rechazada" is approved by the owner whatever the
    estado of its publication and whatever the states of the other requests:
    it becomes "Aprobada" and every other request that was "Aprobada" stays
    so.  Hence the calls of [Sample.approved_ops] (request 1 is approved,
    which rejects the pending request 2 and closes publication 1) followed
    by the approval of request 2 lead to two approved requests for the same
    publication. *)
Theorem rejected_request_can_be_approved :
  (∀ env w userId id rid r u p,
     parseInt (JStr id) = Some rid →
     solicitudes (db w) !! rid = Some r →
     usuarios (db w) !! sol_usuarioId r = Some u →
     publicaciones (db w) !! sol_publicacionId r = Some p →
     pub_usuarioId p = userId →
     sol_estado r = "Rechazada" →
     let w' := (actualizarEstadoSolicitud env userId id (JStr "Aprobada") w).2 in
     solicitudes (db w') !! rid = Some (set_estado "Aprobada" r)
     ∧ ∀ k s, k ≠ rid → solicitudes (db w) !! k = Some s →
              sol_estado s = "Aprobada" → solicitudes (db w') !! k = Some s)
  ∧ (run_ops Sample.approved_ops initial = Sample.approved
     ∧ sol_estado <$> solicitudes (db Sample.approved) !! 1 = Some "Aprobada"
     ∧ sol_estado <$> solicitudes (db Sample.approved) !! 2 = Some "Rechazada"
     ∧ pub_estado <$> publicaciones (db Sample.approved) !! 1
       = Some "no disponible"
     ∧ let w' := apply_op Sample.env
                   (OpActualizarEstadoSolicitud 1 "2" (JStr "Aprobada"))
                   Sample.approved in
       reachable w' ∧ two_approved_on (db w') 1).
Proof.
  split.
  - intros env w userId id rid r u p Hid Hr Hu Hp Hown Hest. cbn zeta.
    rewrite (approve_run env w userId id rid r u p) by (done || congruence).
    cbn [snd db]. split; [apply approve_db_target|].
    intros k s Hk Hs Ha. rewrite approve_db_sibling, Hs by done. cbn.
    rewrite decide_False; [done|]. intros [_ ?]; congruence.
  - split; [by vm_compute|]. do 3 (split; [by vm_compute|]). split.
    + exists Sample.both_approved_ops. by vm_compute.
    + exists 1, 2. do 2 eexists. split; [done|]. by vm_compute.
Qed.

Lemma rejected_request_can_be_approved_witness :
  solicitudes
    (db (actualizarEstadoSolicitud Sample.env 1 "2" (JStr "Aprobada")
           Sample.approved).2) !! 2
  = Some (set_estado "Aprobada" (created 3 1 "Tengo un patio grande")).
Proof.
  refine (proj1 (proj1 rejected_request_can_be_approved Sample.env
                   Sample.approved 1 "2" 2
                   (set_estado "Rechazada" (created 3 1 "Tengo un patio grande"))
                   (Sample.usuario "Caro")
                   (Build_Publicacion "data:image/png;base64,iVBORw0KGgo="
                                      "no disponible" 1)
                   eq_refl eq_refl eq_refl eq_refl eq_refl eq_refl)).
Defined.

(** ** What each call does to the publications and the requests *)

Lemma actualizarEstadoSolicitud_effect env uid id nuevo w :
  let w' := (actualizarEstadoSolicitud env uid id nuevo w).2 in
  db w' = db w
  ∨ ∃ rid r p,
      solicitudes (db w) !! rid = Some r
      ∧ publicaciones (db w) !! sol_publicacionId r = Some p
      ∧ sol_estado r ≠ "Aprobada"
      ∧ (db w' = approve_db rid r p (db w)
         ∨ ∃ e, e ≠ "Aprobada"
                ∧ db w' = set_solicitudes (insert rid (set_estado e r)) (db w)).
Proof.
  cbn zeta.
  destruct (parseInt (JStr id)) as [rid|] eqn:Hid; cycle 1.
  { left. unfold actualizarEstadoSolicitud, try_catch, actualizarEstadoSolicitud_body.
    by rewrite Hid. }
  destruct (includes estadosPermitidos nuevo) eqn:Hin; cycle 1.
  { left. unfold actualizarEstadoSolicitud, try_catch, actualizarEstadoSolicitud_body.
    by rewrite Hid, Hin. }
  destruct (solicitudes (db w) !! rid) as [r|] eqn:Hr; cycle 1.
  { left. unfold actualizarEstadoSolicitud, try_catch, actualizarEstadoSolicitud_body.
    rewrite Hid, Hin. cbn [negb run].
    by rewrite (exec_find_include_None env w rid Hr). }
  destruct (usuarios (db w) !! sol_usuarioId r) as [u|] eqn:Hu,
           (publicaciones (db w) !! sol_publicacionId r) as [p|] eqn:Hp.
  2-4: left; unfold actualizarEstadoSolicitud, try_catch, actualizarEstadoSolicitud_body;
       rewrite Hid, Hin; cbn [negb run]; destruct w as [d o]; cbn in *;
       unfold solicitud_find_include; rewrite Hr, ?Hu, ?Hp; done.
  destruct (decide (pub_usuarioId p = uid)) as [Hown|Hown],
           (decide (sol_estado r = "Aprobada")) as [Ha|Ha],
           (decide (JStr (sol_estado r) = nuevo)) as [Hs|Hs].
  1-3,5-8: left; unfold actualizarEstadoSolicitud, try_catch, actualizarEstadoSolicitud_body;
       rewrite Hid, Hin; cbn [negb run];
       rewrite (exec_find_include_Some env w rid r u p) by done;
       cbn [si_publicacion si_row];
       repeat (case_decide; try done).
  right. exists rid, r, p. do 3 (split; [done|]).
  apply estadosPermitidos_spec in Hin as [-> | [-> | ->] ].
  - left. by rewrite (approve_run env w uid id rid r u p).
  - right. exists "Rechazada". split; [done|].
    rewrite (retarget_run env w uid id rid r u p) by (done || eauto || congruence).
    done.
  - right. exists "Pendiente". split; [done|].
    rewrite (retarget_run env w uid id rid r u p) by (done || eauto || congruence).
    done.
Qed.

Lemma createPublication_effect env uid b w :
  let w' := (createPublication env uid b w).2 in
  db w' = db w
  ∨ ∃ P, pub_estado P = "disponible"
      ∧ publicaciones (db w')
        = <[seq_publicacion (db w) + 1 := P]> (publicaciones (db w))
      ∧ seq_publicacion (db w') = seq_publicacion (db w) + 1
      ∧ solicitudes (db w') = solicitudes (db w)
      ∧ seq_solicitud (db w') = seq_solicitud (db w).
Proof.
  cbn zeta. unfold createPublication, try_catch, createPublication_body.
  destruct w as [d o].
  case_bool_decide; cbn [negb]; [|by left].
  destruct (decide (uid = 0)); [by left|].
  cbn [run exec query db outbox]. unfold publicacion_create.
  destruct (foto b) as [| | | |f]; try by left.
  destruct (usuarios d !! uid); [|by left].
  cbn [run exec query db outbox fst].
  match goal with
  | |- context [mascota_create ?a ?b ?c ?d ?e ?f ?g] =>
      destruct (mascota_create_cases a b c d e f g)
        as [[msg' Hm]|(m' & fm & Hm)];
      rewrite Hm
  end; cbn [run fst snd db]; [by left|].
  right. eexists. by repeat split.
Qed.

Lemma deletePublication_effect env uid id w :
  let w' := (deletePublication env uid id w).2 in
  db w' = db w
  ∨ ∃ pid, publicaciones (db w') = delete pid (publicaciones (db w))
      ∧ solicitudes (db w')
        = filter (λ kr, sol_publicacionId kr.2 ≠ pid) (solicitudes (db w))
      ∧ seq_publicacion (db w') = seq_publicacion (db w)
      ∧ seq_solicitud (db w') = seq_solicitud (db w).
Proof.
  cbn zeta. unfold deletePublication, try_catch, deletePublication_body.
  destruct w as [d o].
  destruct (parseInt (JStr id)) as [pid|]; [|by left].
  destruct (decide (uid = 0)); [by left|].
  cbn [run exec query db outbox].
  destruct (publicaciones d !! pid) as [p|] eqn:Hp; [|by left].
  cbn [fmap option_fmap option_map run fst snd].
  destruct (decide (pub_usuarioId p ≠ uid)); [by left|].
  cbn [run exec query db outbox]. unfold publicacion_delete. rewrite Hp.
  cbn [run snd db]. right. exists pid. by repeat split.
Qed.

Lemma createRequest_effect env uid v m w :
  let w' := (createRequest env uid v m w).2 in
  db w' = db w
  ∨ ∃ R, sol_estado R = "Pendiente"
      ∧ is_Some (publicaciones (db w) !! sol_publicacionId R)
      ∧ solicitudes (db w')
        = <[seq_solicitud (db w) + 1 := R]> (solicitudes (db w))
      ∧ seq_solicitud (db w') = seq_solicitud (db w) + 1
      ∧ publicaciones (db w') = publicaciones (db w)
      ∧ seq_publicacion (db w') = seq_publicacion (db w).
Proof.
  cbn zeta. unfold createRequest, try_catch, createRequest_body.
  destruct w as [d o].
  destruct (parseInt v) as [pid|]; [|by left].
  destruct (negb (truthy v) || negb (truthy m)); [by left|].
  cbn [run exec query db outbox].
  destruct (publicaciones d !! pid) as [p|] eqn:Hp; [|by left].
  cbn [fmap option_fmap option_map run fst snd].
  destruct (decide (pub_estado p ≠ "disponible")); [by left|].
  destruct (decide (pub_usuarioId p = uid)); [by left|].
  cbn [run exec query db outbox].
  destruct (solicitud_de uid pid (solicitudes d)) eqn:Hs; [by left|].
  cbn [run exec query db outbox]. unfold solicitud_create.
  destruct m; try by left.
  case_decide; [|by left]. rewrite Hs. cbn [run snd db].
  right. eexists. repeat split; by rewrite ?Hp.
Qed.

Lemma deleteRequest_effect env uid id w :
  let w' := (deleteRequest env uid id w).2 in
  db w' = db w
  ∨ ∃ rid r, solicitudes (db w) !! rid = Some r
      ∧ sol_estado r = "Pendiente"
      ∧ db w' = set_solicitudes (delete rid) (db w).
Proof.
  cbn zeta. unfold deleteRequest, try_catch, deleteRequest_body.
  destruct w as [d o].
  destruct (parseInt (JStr id)) as [rid|]; [|by left].
  cbn [run exec query db outbox].
  destruct (solicitudes d !! rid) as [r|] eqn:Hr; [|by left].
  cbn [fmap option_fmap option_map run fst snd].
  destruct (decide (sol_usuarioId r ≠ uid)); [by left|].
  destruct (decide (sol_estado r ≠ "Pendiente")) as [|He]; [by left|].
  apply dec_stable in He.
  cbn [run exec query db outbox]. unfold solicitud_delete. rewrite Hr.
  cbn [run snd db]. right. by exists rid, r.
Qed.

Lemma registerUser_effect u w :
  publicaciones (db (registerUser u w)) = publicaciones (db w)
  ∧ solicitudes (db (registerUser u w)) = solicitudes (db w)
  ∧ seq_publicacion (db (registerUser u w)) = seq_publicacion (db w)
  ∧ seq_solicitud (db (registerUser u w)) = seq_solicitud (db w).
Proof. unfold registerUser. by case_decide. Qed.

Lemma set_estado_publicacionId e r :
  sol_publicacionId (set_estado e r) = sol_publicacionId r.
Proof. done. Qed.

Section Preservation.
Context (d d' : DB).
Hypothesis was_good : good d.

Lemma good_same :
  publicaciones d' = publicaciones d → solicitudes d' = solicitudes d →
  seq_publicacion d' = seq_publicacion d → seq_solicitud d' = seq_solicitud d →
  good d'.
Proof.
  destruct was_good as [[Hp Hs Hfk] Hinv]. intros E1 E2 E3 E4. split.
  - split; rewrite ?E1, ?E2, ?E3, ?E4; done.
  - intros pid p. unfold has_approved. rewrite E1, E2. apply Hinv.
Qed.

Lemma good_new_publication P :
  pub_estado P = "disponible" →
  publicaciones d' = <[seq_publicacion d + 1 := P]> (publicaciones d) →
  seq_publicacion d' = seq_publicacion d + 1 →
  solicitudes d' = solicitudes d → seq_solicitud d' = seq_solicitud d →
  good d'.
Proof.
  destruct was_good as [[Hp Hs Hfk] Hinv]. intros HP E1 E3 E2 E4.
  assert (publicaciones d !! (seq_publicacion d + 1) = None) as Hfresh.
  { destruct (publicaciones d !! (seq_publicacion d + 1)) eqn:E; [|done].
    apply Hp in E. lia. }
  split.
  - split; rewrite ?E1, ?E2, ?E3, ?E4; [|done|].
    + intros pid p [[<- _]|[_ H]]%lookup_insert_Some; [lia|].
      apply Hp in H. lia.
    + intros rid r Hr. rewrite lookup_insert_is_Some. right.
      split; [|by eapply Hfk]. intros Heq.
      apply Hfk in Hr as [? Hr]. rewrite <- Heq in Hr. congruence.
  - intros pid p. unfold has_approved. rewrite E1, E2.
    intros [[<- <-]|[Hne H]]%lookup_insert_Some; [|by apply Hinv].
    split; [by rewrite HP|].
    intros (rid & r & Hr & Hpid & _). apply Hfk in Hr as [? Hr]. congruence.
Qed.

Lemma good_edited pid p p' :
  publicaciones d !! pid = Some p → pub_estado p' = pub_estado p →
  publicaciones d' = <[pid := p']> (publicaciones d) →
  seq_publicacion d' = seq_publicacion d →
  solicitudes d' = solicitudes d → seq_solicitud d' = seq_solicitud d →
  good d'.
Proof.
  destruct was_good as [[Hp Hs Hfk] Hinv]. intros Hpid Hest E1 E3 E2 E4. split.
  - split; rewrite ?E1, ?E2, ?E3, ?E4; [|done|].
    + intros k q [[<- _]|[_ H]]%lookup_insert_Some; eauto.
    + intros rid r Hr. rewrite lookup_insert_is_Some'. right. by eapply Hfk.
  - intros k q. unfold has_approved. rewrite E1, E2.
    intros [[<- <-]|[Hne H]]%lookup_insert_Some; [|by apply Hinv].
    rewrite Hest. by apply Hinv.
Qed.

Lemma good_deleted pid :
  publicaciones d' = delete pid (publicaciones d) →
  solicitudes d'
  = filter (λ kr, sol_publicacionId kr.2 ≠ pid) (solicitudes d) →
  seq_publicacion d' = seq_publicacion d → seq_solicitud d' = seq_solicitud d →
  good d'.
Proof.
  destruct was_good as [[Hp Hs Hfk] Hinv]. intros E1 E2 E3 E4. split.
  - split; rewrite ?E1, ?E2, ?E3, ?E4.
    + intros k q [_ H]%lookup_delete_Some. eauto.
    + intros rid r [H _]%map_lookup_filter_Some. eauto.
    + intros rid r [H Hne]%map_lookup_filter_Some. cbn in Hne.
      rewrite lookup_delete_ne by done. eauto.
  - intros k q. unfold has_approved. rewrite E1, E2.
    intros [Hne H]%lookup_delete_Some. rewrite (Hinv k q H). split.
    + intros (rid & r & Hr & Hk & Ha). exists rid, r.
      rewrite map_lookup_filter_Some. cbn. repeat split; congruence.
    + intros (rid & r & [Hr _]%map_lookup_filter_Some & Hk & Ha). by exists rid, r.
Qed.

Lemma good_new_request R :
  sol_estado R = "Pendiente" →
  is_Some (publicaciones d !! sol_publicacionId R) →
  solicitudes d' = <[seq_solicitud d + 1 := R]> (solicitudes d) →
  seq_solicitud d' = seq_solicitud d + 1 →
  publicaciones d' = publicaciones d → seq_publicacion d' = seq_publicacion d →
  good d'.
Proof.
  destruct was_good as [[Hp Hs Hfk] Hinv]. intros HR HfkR E2 E4 E1 E3.
  assert (solicitudes d !! (seq_solicitud d + 1) = None) as Hfresh.
  { destruct (solicitudes d !! (seq_solicitud d + 1)) eqn:E; [|done].
    apply Hs in E. lia. }
  split.
  - split; rewrite ?E1, ?E2, ?E3, ?E4; [done| |].
    + intros k q [[<- _]|[_ H]]%lookup_insert_Some; [lia|].
      apply Hs in H. lia.
    + intros k q [[<- <-]|[_ H]]%lookup_insert_Some; eauto.
  - intros k q Hk. rewrite E1 in Hk. rewrite (Hinv k q Hk).
    unfold has_approved. rewrite E2. split.
    + intros (rid & r & Hr & Hpid & Ha). exists rid, r.
      rewrite lookup_insert_ne by congruence. done.
    + intros (rid & r & [[<- <-]|[_ Hr]]%lookup_insert_Some & Hpid & Ha);
        [congruence|]. by exists rid, r.
Qed.

Lemma good_cancelled rid r :
  solicitudes d !! rid = Some r → sol_estado r ≠ "Aprobada" →
  d' = set_solicitudes (delete rid) d → good d'.
Proof.
  destruct was_good as [[Hp Hs Hfk] Hinv]. intros Hr Hest ->. split.
  - split; cbn.
    + done.
    + intros k q [_ H]%lookup_delete_Some. eauto.
    + intros k q [_ H]%lookup_delete_Some. eauto.
  - intros k q Hk. cbn in Hk. rewrite (Hinv k q Hk).
    unfold has_approved. cbn. split.
    + intros (k' & r' & Hr' & Hpid & Ha). exists k', r'.
      rewrite lookup_delete_ne by congruence. done.
    + intros (k' & r' & [_ Hr']%lookup_delete_Some & Hpid & Ha).
      by exists k', r'.
Qed.

Lemma good_retargeted rid r e :
  solicitudes d !! rid = Some r → sol_estado r ≠ "Aprobada" → e ≠ "Aprobada" →
  d' = set_solicitudes (insert rid (set_estado e r)) d → good d'.
Proof.
  destruct was_good as [[Hp Hs Hfk] Hinv]. intros Hr Hest He ->. split.
  - split; cbn.
    + done.
    + intros k q [[<- _]|[_ H]]%lookup_insert_Some; eauto.
    + intros k q [[<- <-]|[_ H]]%lookup_insert_Some; cbn; eauto.
  - intros k q Hk. cbn in Hk. rewrite (Hinv k q Hk).
    unfold has_approved. cbn. split.
    + intros (k' & r' & Hr' & Hpid & Ha). exists k', r'.
      rewrite lookup_insert_ne by congruence. done.
    + intros (k' & r' & [[<- <-]|[_ Hr']]%lookup_insert_Some & Hpid & Ha);
        [done|]. by exists k', r'.
Qed.

Lemma good_approved rid r p :
  solicitudes d !! rid = Some r →
  publicaciones d !! sol_publicacionId r = Some p →
  d' = approve_db rid r p d → good d'.
Proof.
  destruct was_good as [[Hp Hs Hfk] Hinv]. intros Hr Hpub ->.
  assert (∀ k q, solicitudes (approve_db rid r p d) !! k = Some q →
            ∃ q0, solicitudes d !! k = Some q0
                  ∧ sol_publicacionId q = sol_publicacionId q0
                  ∧ (sol_estado q = "Aprobada" →
                     k = rid ∨ sol_estado q0 = "Aprobada")) as Hback.
  { intros k q. destruct (decide (k = rid)) as [->|Hne].
    - rewrite approve_db_target. intros [= <-]. exists r. by eauto.
    - rewrite approve_db_sibling by done.
      destruct (solicitudes d !! k) as [q0|]; [|done]. cbn. intros [= <-].
      exists q0. split; [done|]. case_decide; cbn; [|by eauto].
      split; [done|]. done. }
  split.
  - split.
    + rewrite approve_db_publicaciones.
      intros k q [[<- _]|[_ H]]%lookup_insert_Some; eauto.
    + intros k q (q0 & Hq0 & _)%Hback. eauto.
    + rewrite approve_db_publicaciones.
      intros k q (q0 & Hq0 & -> & _)%Hback.
      rewrite lookup_insert_is_Some'. right. eauto.
  - intros k q. rewrite approve_db_publicaciones.
    intros [[<- <-]|[Hne H]]%lookup_insert_Some.
    + split; [|done]. intros _. exists rid, (set_estado "Aprobada" r).
      by rewrite approve_db_target.
    + rewrite (Hinv k q H). unfold has_approved. split.
      * intros (k' & r' & Hr' & Hpid & Ha).
        assert (k' ≠ rid) by congruence.
        exists k', r'. rewrite approve_db_sibling, Hr' by done. cbn.
        rewrite decide_False; [done|]. intros [_ ?]. congruence.
      * intros (k' & r' & Hr' & Hpid & Ha).
        destruct (Hback k' r' Hr') as (q0 & Hq0 & Hsame & Hwas).
        destruct (Hwas Ha) as [->|Ha0].
        -- rewrite approve_db_target in Hr'. injection Hr' as <-. done.
        -- exists k', q0. split; [done|]. split; congruence.
Qed.

End Preservation.

Lemma good_initial : good (db initial).
Proof.
  split; [split|]; intros ? ? H; cbn in H; by rewrite ?lookup_empty in H.
Qed.

Lemma apply_op_good env op w :
  edits_no_estado op → good (db w) → good (db (apply_op env op w)).
Proof.
  intros Hop Hgood. destruct op as [u|uid b|uid id b|uid id|uid v m|uid id|uid id nuevo];
    cbn [apply_op].
  - destruct (registerUser_effect u w) as (?&?&?&?). by eapply good_same.
  - destruct (createPublication_effect env uid b w) as [E|(P&?&?&?&?&?)].
    + by rewrite E.
    + by eapply good_new_publication.
  - cbn in Hop.
    destruct (updatePublication_effect env uid id b w)
      as [[_ E]|(_ & _ & pid & p & _ & Hp & _ & Hpubs & (?&?&?&?) & _)].
    + by rewrite E.
    + eapply (good_edited _ _ Hgood pid p (edited b p)); try done.
      unfold edited. by rewrite Hop.
  - destruct (deletePublication_effect env uid id w) as [E|(pid&?&?&?&?)].
    + by rewrite E.
    + by eapply good_deleted.
  - destruct (createRequest_effect env uid v m w) as [E|(R&?&?&?&?&?&?)].
    + by rewrite E.
    + by eapply good_new_request.
  - destruct (deleteRequest_effect env uid id w) as [E|(rid&r&?&Hp&?)].
    + by rewrite E.
    + eapply good_cancelled; try done. by rewrite Hp.
  - destruct (actualizarEstadoSolicitud_effect env uid id nuevo w)
      as [E|(rid&r&p&?&?&?&[E|(e&?&E)])].
    + by rewrite E.
    + by eapply good_approved.
    + by eapply good_retargeted.
Qed.

Lemma run_ops_good ops w :
  Forall (λ eo, edits_no_estado eo.2) ops → good (db w) →
  good (db (run_ops ops w)).
Proof.
  intros Hops. revert w. induction Hops as [|[env op] ops Hop _ IH]; intros w Hw.
  - done.
  - apply IH. by apply apply_op_good.
Qed.




(** ** Two approvals at once *)

Lemma inv_sym userId pid w0 ra Ra ma sa rb Rb mb sb w :
  inv userId pid w0 ra Ra ma sa rb Rb mb sb w →
  inv userId pid w0 rb Rb mb sb ra Ra ma sa w.
Proof.
  intros ((Hu & Hm & P' & HP & Hown & Hest) & Ha & Hb & Hout).
  split; [|split; [done|split; [done|]]].
  - split; [done|]. split; [done|]. exists P'. naive_solver.
  - rewrite Hout. f_equiv. apply Permutation_app_comm.
Qed.

Lemma run_step {A} env (p : Prog A) w :
  run env p w = run env (step env p w).1 (step env p w).2.
Proof.
  destruct p as [? a|? msg|? ? c k|? ? body k]; cbn [run step]; try done.
  - by destruct (exec env c w) as [[x|msg] w'].
  - by destruct (run env body w) as [[x|msg] w'].
Qed.

Section TwoApprovals.
Context (env : Env) (userId pid : Z) (w0 : World) (P0 : Publicacion).
Context (ida : string) (ra : Z) (Ra : Solicitud) (Ua : Usuario).
Context (rb : Z) (Rb : Solicitud) (mb : Email).
Hypothesis ida_parses : parseInt (JStr ida) = Some ra.
Hypothesis distinct : ra ≠ rb.
Hypothesis requester : usuarios (db w0) !! sol_usuarioId Ra = Some Ua.
Hypothesis same_publication_a : sol_publicacionId Ra = pid.
Hypothesis same_publication_b : sol_publicacionId Rb = pid.

Let ma := notificacion (found w0 ra Ra Ua P0) "Aprobada".
Let prog_a := prog_at env userId pid ida ra Ra ma.
Let inv_ab := inv userId pid w0 ra Ra ma.

Lemma thread_step sa sb p w :
  prog_a sa p → inv_ab sa rb Rb mb sb w →
  ∃ p' w', step env p w = (p', w')
           ∧ prog_a (next sa) p' ∧ inv_ab (next sa) rb Rb mb sb w'.
Proof.
  unfold prog_a, inv_ab.
  intros Hp ((Hu & Hm & P' & HP & Hown & Hest) & (ea & Hra & Hea)
             & (eb & Hrb & Heb) & Hout).
  destruct w as [d o]. cbn [db outbox] in *.
  destruct sa as [|[|[|[|[|sa]]]]]; cbn [prog_at] in Hp.
  - (* the read *)
    subst p. unfold actualizarEstadoSolicitud_body. rewrite ida_parses.
    cbn [includes].
    rewrite bool_decide_eq_true_2 by (unfold estadosPermitidos; set_solver).
    cbn [negb step exec query db outbox]. unfold solicitud_find_include.
    rewrite Hra. cbn [sol_usuarioId sol_publicacionId set_estado].
    rewrite Hu, requester, same_publication_a, HP.
    cbn [si_publicacion si_row si_id si_usuario sol_estado].
    rewrite decide_False by (by intros []).
    rewrite decide_False by (rewrite Hea; lia).
    rewrite decide_False
      by (intros [= ->]; destruct Hea as [H _]; specialize (H eq_refl); lia).
    rewrite decide_True by done.
    eexists _, _. split; [reflexivity|]. split.
    + cbn [next prog_at].
      unfold writes, after_update, after_publicacion, send, ma, notificacion,
        found.
      cbn. unfold nombreAnimal. cbn. rewrite Hm, same_publication_a.
      reflexivity.
    + split; [|split; [|split]].
      * split; [done|]. split; [done|]. exists P'. split; [done|].
        split; [done|]. intros Hor. apply Hest. cbn [next] in Hor. lia.
      * exists ea. split; [done|]. rewrite Hea. cbn [next]. lia.
      * by exists eb.
      * done.
  - (* the first write *)
    subst p. unfold writes. cbn [step exec query db outbox].
    unfold solicitud_update. rewrite Hra.
    eexists _, _. split; [reflexivity|]. split; [reflexivity|].
    unfold inv, shared_ok, row_ok. split; [|split; [|split]];
      cbn [db outbox solicitudes set_solicitudes publicaciones usuarios
           mascotas].
    + split; [done|]. split; [done|]. exists P'. split; [done|].
      split; [done|]. intros Hor. apply Hest. cbn [next] in Hor. lia.
    + exists "Aprobada". rewrite lookup_insert_eq. split; [done|].
      cbn [next]. split; [lia|done].
    + exists eb. by rewrite lookup_insert_ne.
    + done.
  - (* the second write *)
    subst p. unfold after_update. cbn [step exec query db outbox].
    unfold publicacion_update. rewrite HP.
    eexists _, _. split; [reflexivity|]. split; [reflexivity|].
    unfold inv, shared_ok, row_ok. split; [|split; [|split]];
      cbn [db outbox solicitudes set_solicitudes set_publicaciones
           publicaciones usuarios mascotas].
    + split; [done|]. split; [done|]. eexists. rewrite lookup_insert_eq.
      split; [done|]. done.
    + exists ea. split; [done|]. rewrite Hea. cbn [next]. lia.
    + by exists eb.
    + done.
  - (* the third write *)
    subst p. unfold after_publicacion. cbn [step exec query db outbox].
    eexists _, _. split; [reflexivity|]. split; [reflexivity|].
    unfold inv, shared_ok, row_ok. split; [|split; [|split]];
      cbn [db outbox solicitudes set_solicitudes set_publicaciones
           publicaciones usuarios mascotas].
    + split; [done|]. split; [done|]. exists P'. split; [done|].
      split; [done|]. intros _. apply Hest. left; lia.
    + exists ea. unfold update_many. rewrite map_lookup_imap, Hra. cbn.
      rewrite decide_False by (unfold selected; naive_solver).
      split; [done|]. rewrite Hea. cbn [next]. lia.
    + unfold update_many. rewrite map_lookup_imap, Hrb. cbn.
      case_decide as Hsel.
      * exists "Rechazada". split; [done|].
        destruct Hsel as (_ & _ & Hpend). cbn in Hpend.
        split; [done|]. intros H2. apply Heb in H2. congruence.
      * by exists eb.
    + done.
  - (* the mail *)
    subst p. unfold send. cbn [step exec query db outbox].
    change {| mail_to := mail_to ma;
              mail_nombreSolicitante := mail_nombreSolicitante ma;
              mail_nombreAnimal := mail_nombreAnimal ma;
              mail_nuevoEstado := "Aprobada" |} with ma.
    assert (inv userId pid w0 ra Ra ma 5 rb Rb mb sb {| db := d; outbox := (o ++ [ma])%list |})
      as Hinv.
    { split; [|split; [|split]]; cbn [db outbox].
      * split; [done|]. split; [done|]. exists P'. split; [done|].
        split; [done|]. intros _. apply Hest. left; lia.
      * exists ea. split; [done|]. rewrite Hea. lia.
      * by exists eb.
      * trans ((outbox w0 ++ sent 4 ma ++ sent sb mb) ++ [ma])%list;
          [by apply Permutation_app|].
        change (sent 4 ma) with (@nil Email). change (sent 5 ma) with [ma].
        rewrite app_nil_l, <- app_assoc.
        apply Permutation_app_head, Permutation_app_comm. }
    destruct (transporter env ma) as [msg|] eqn:Hsend; cbn [db outbox].
    + eexists _, _. split; [reflexivity|]. split; [right; by exists msg|done].
    + eexists _, _. split; [reflexivity|]. split; [by left|done].
  - (* done *)
    change (next (S (S (S (S (S sa)))))) with 5%nat.
    assert (inv userId pid w0 ra Ra ma 5 rb Rb mb sb {| db := d; outbox := o |}) as Hinv.
    { split; [|split; [|split]]; cbn [db outbox].
      * split; [done|]. split; [done|]. exists P'. split; [done|].
        split; [done|]. intros _. apply Hest. left; lia.
      * exists ea. split; [done|]. rewrite Hea. lia.
      * by exists eb.
      * unfold sent in *. rewrite decide_True in Hout by lia.
        by rewrite decide_True by lia. }
    destruct Hp as [[-> Hsend]|(msg & -> & Hsend)].
    + eexists _, _. split; [reflexivity|]. split; [by left|done].
    + eexists _, _. split; [reflexivity|]. split; [right; by exists msg|done].
Qed.

(** From any stage on, the approval runs to its end with its answer. *)
Lemma thread_finish n sa sb p w :
  (5 ≤ sa + n)%nat → prog_a sa p → inv_ab sa rb Rb mb sb w →
  ∃ w', try_catch env p internal_error w
        = (after_mail env ma
             (actualizada "Aprobada"
                (solicitud_json (ra, set_estado "Aprobada" Ra))), w')
        ∧ inv_ab 5%nat rb Rb mb sb w'.
Proof.
  revert sa p w. induction n as [|n IH]; intros sa p w Hn Hp Hinv.
  - destruct (thread_step sa sb p w Hp Hinv) as (p' & w' & Hstep & _ & Hinv').
    assert (next sa = 5%nat) as Hnext.
    { destruct sa as [|[|[|[|[|sa]]]]]; try lia. done. }
    rewrite Hnext in Hinv'.
    destruct sa as [|[|[|[|[|sa]]]]]; try lia.
    unfold prog_a in Hp. cbn [prog_at] in Hp.
    destruct Hp as [[-> Hsend]|(msg & -> & Hsend)]; cbn [step] in Hstep;
      injection Hstep as <- <-; exists w; unfold try_catch, after_mail;
      rewrite Hsend; cbn [run]; done.
  - destruct (thread_step sa sb p w Hp Hinv) as (p' & w' & Hstep & Hp' & Hinv').
    destruct (IH (next sa) p' w') as (w'' & Hrun & Hinv''); [|done..|].
    { destruct sa as [|[|[|[|[|sa]]]]]; cbn [next]; lia. }
    exists w''. split; [|done]. unfold try_catch in *.
    rewrite run_step, Hstep. done.
Qed.

End TwoApprovals.

Section BothApprovals.
Context (env : Env) (userId pid : Z) (w0 : World) (P0 : Publicacion).
Context (ida : string) (ra : Z) (Ra : Solicitud) (Ua : Usuario).
Context (idb : string) (rb : Z) (Rb : Solicitud) (Ub : Usuario).
Hypothesis ida_parses : parseInt (JStr ida) = Some ra.
Hypothesis idb_parses : parseInt (JStr idb) = Some rb.
Hypothesis distinct : ra ≠ rb.
Hypothesis requester_a : usuarios (db w0) !! sol_usuarioId Ra = Some Ua.
Hypothesis requester_b : usuarios (db w0) !! sol_usuarioId Rb = Some Ub.
Hypothesis same_publication_a : sol_publicacionId Ra = pid.
Hypothesis same_publication_b : sol_publicacionId Rb = pid.

Let ma := notificacion (found w0 ra Ra Ua P0) "Aprobada".
Let mb := notificacion (found w0 rb Rb Ub P0) "Aprobada".
Let prog_a := prog_at env userId pid ida ra Ra ma.
Let prog_b := prog_at env userId pid idb rb Rb mb.
Let inv_ab sa sb := inv userId pid w0 ra Ra ma sa rb Rb mb sb.

Lemma step_a sa sb p w :
  prog_a sa p → inv_ab sa sb w →
  ∃ p' w', step env p w = (p', w') ∧ prog_a (next sa) p' ∧ inv_ab (next sa) sb w'.
Proof. intros. by eapply thread_step. Qed.

Lemma step_b sa sb p w :
  prog_b sb p → inv_ab sa sb w →
  ∃ p' w', step env p w = (p', w') ∧ prog_b (next sb) p' ∧ inv_ab sa (next sb) w'.
Proof.
  intros Hp Hinv%inv_sym.
  destruct (thread_step env userId pid w0 P0 idb rb Rb Ub ra Ra ma
              idb_parses (not_eq_sym distinct) requester_b same_publication_b
              same_publication_a sb sa p w Hp Hinv)
    as (p' & w' & ? & ? & ?%inv_sym).
  by exists p', w'.
Qed.

Lemma interleave_inv schedule sa sb pa pb w :
  prog_a sa pa → prog_b sb pb → inv_ab sa sb w →
  ∃ sa' sb' pa' pb' w',
    interleave env schedule pa pb w = (pa', pb', w')
    ∧ prog_a sa' pa' ∧ prog_b sb' pb' ∧ inv_ab sa' sb' w'.
Proof.
  revert sa sb pa pb w.
  induction schedule as [|[] rest IH]; intros sa sb pa pb w Ha Hb Hinv.
  - by exists sa, sb, pa, pb, w.
  - destruct (step_a sa sb pa w Ha Hinv) as (pa' & w' & Hstep & Ha' & Hinv').
    cbn [interleave]. rewrite Hstep. by eapply IH.
  - destruct (step_b sa sb pb w Hb Hinv) as (pb' & w' & Hstep & Hb' & Hinv').
    cbn [interleave]. rewrite Hstep. by eapply IH.
Qed.

Hypothesis request_a : solicitudes (db w0) !! ra = Some Ra.
Hypothesis request_b : solicitudes (db w0) !! rb = Some Rb.
Hypothesis publication : publicaciones (db w0) !! pid = Some P0.
Hypothesis caller_owns : pub_usuarioId P0 = userId.
Hypothesis not_approved_a : sol_estado Ra ≠ "Aprobada".
Hypothesis not_approved_b : sol_estado Rb ≠ "Aprobada".

Lemma inv_initial : inv_ab 0%nat 0%nat w0.
Proof.
  split; [|split; [|split]].
  - split; [done|]. split; [done|]. exists P0. split; [done|]. split; [done|].
    lia.
  - exists (sol_estado Ra). split; [by destruct Ra|]. split; [done|lia].
  - exists (sol_estado Rb). split; [by destruct Rb|]. split; [done|lia].
  - unfold sent. cbn. by rewrite app_nil_r.
Qed.

Lemma both_commit schedule :
  let result :=
    two_status_changes env schedule userId ida idb (JStr "Aprobada") w0 in
  result.1.1
  = after_mail env ma
      (actualizada "Aprobada" (solicitud_json (ra, set_estado "Aprobada" Ra)))
  ∧ result.1.2
    = after_mail env mb
        (actualizada "Aprobada" (solicitud_json (rb, set_estado "Aprobada" Rb)))
  ∧ inv_ab 5%nat 5%nat result.2.
Proof.
  cbn zeta. unfold two_status_changes, concurrently.
  destruct (interleave_inv schedule 0 0
              (actualizarEstadoSolicitud_body userId ida (JStr "Aprobada"))
              (actualizarEstadoSolicitud_body userId idb (JStr "Aprobada"))
              w0 eq_refl eq_refl inv_initial)
    as (sa & sb & pa & pb & w & -> & Ha & Hb & Hinv).
  destruct (thread_finish env userId pid w0 P0 ida ra Ra Ua rb Rb mb
              ida_parses distinct requester_a same_publication_a
              same_publication_b 5 sa sb pa w ltac:(lia) Ha Hinv)
    as (w1 & -> & Hinv1).
  apply inv_sym in Hinv1.
  destruct (thread_finish env userId pid w0 P0 idb rb Rb Ub ra Ra ma
              idb_parses (not_eq_sym distinct) requester_b same_publication_b
              same_publication_a 5 sb 5 pb w1 ltac:(lia) Hb Hinv1)
    as (w2 & -> & Hinv2%inv_sym).
  done.
Qed.

End BothApprovals.

(** C3 as stated fails, already when the two calls are served one after the
    other: the first approval rejects request 2 and closes the publication;
    the second finds request 2 "Rechazada", which is not "Aprobada", and
    approves it too.  Both calls are answered 200 and both requests end
    "Aprobada". *)
Lemma both_approvals_succeed_in_turn :
  let first :=
    actualizarEstadoSolicitud Sample.env 1 "1" (JStr "Aprobada")
      Sample.two_pending in
  let second :=
    actualizarEstadoSolicitud Sample.env 1 "2" (JStr "Aprobada") first.2 in
  status first.1 = 200
  ∧ sol_estado <$> solicitudes (db first.2) !! 2 = Some "Rechazada"
  ∧ pub_estado <$> publicaciones (db first.2) !! 1 = Some "no disponible"
  ∧ status second.1 = 200
  ∧ sol_estado <$> solicitudes (db second.2) !! 1 = Some "Aprobada"
  ∧ sol_estado <$> solicitudes (db second.2) !! 2 = Some "Aprobada"
  ∧ two_approved_on (db second.2) 1
  ∧ two_status_changes Sample.env [] 1 "1" "2" (JStr "Aprobada")
      Sample.two_pending
    = (first.1, second.1, second.2).
Proof.
  cbn zeta. do 6 (split; [by vm_compute|]). split; [|by vm_compute].
  exists 1, 2. do 2 eexists. split; [done|]. by vm_compute.
Qed.

(** C3, amended. Two approvals by the owner, of two different requests of
    the same publication, neither of them approved yet: in whatever order
    their awaits are served (each call before the other, or interleaved in
    any way), both calls complete their writes, both requests end
    "Aprobada", the publication ends "no disponible", and one notification
    for each of the two requesters is handed to the mailer.  Each call is
    answered 200 when the mailer accepts its notification, and the 500 of
    the catch block, its writes staying in place, when the mailer rejects
    it. *)
Theorem two_approvals_both_commit (env : Env) (schedule : list bool)
    (userId : Z) (id1 id2 : string) (w : World) (r1 r2 : Z)
    (R1 R2 : Solicitud) (U1 U2 : Usuario) (P : Publicacion) :
  parseInt (JStr id1) = Some r1 → parseInt (JStr id2) = Some r2 → r1 ≠ r2 →
  solicitudes (db w) !! r1 = Some R1 → solicitudes (db w) !! r2 = Some R2 →
  sol_publicacionId R2 = sol_publicacionId R1 →
  publicaciones (db w) !! sol_publicacionId R1 = Some P →
  pub_usuarioId P = userId →
  usuarios (db w) !! sol_usuarioId R1 = Some U1 →
  usuarios (db w) !! sol_usuarioId R2 = Some U2 →
  sol_estado R1 ≠ "Aprobada" → sol_estado R2 ≠ "Aprobada" →
  let result :=
    two_status_changes env schedule userId id1 id2 (JStr "Aprobada") w in
  let m1 := notificacion (found w r1 R1 U1 P) "Aprobada" in
  let m2 := notificacion (found w r2 R2 U2 P) "Aprobada" in
  result.1.1
  = after_mail env m1
      (actualizada "Aprobada" (solicitud_json (r1, set_estado "Aprobada" R1)))
  ∧ result.1.2
    = after_mail env m2
        (actualizada "Aprobada" (solicitud_json (r2, set_estado "Aprobada" R2)))
  ∧ solicitudes (db result.2) !! r1 = Some (set_estado "Aprobada" R1)
  ∧ solicitudes (db result.2) !! r2 = Some (set_estado "Aprobada" R2)
  ∧ two_approved_on (db result.2) (sol_publicacionId R1)
  ∧ pub_estado <$> publicaciones (db result.2) !! sol_publicacionId R1
    = Some "no disponible"
  ∧ outbox result.2 ≡ₚ (outbox w ++ [m1; m2])%list
  ∧ (transporter env m1 = None → status result.1.1 = 200)
  ∧ (transporter env m2 = None → status result.1.2 = 200)
  ∧ (∀ msg, transporter env m1 = Some msg →
       result.1.1 = internal_error msg ∧ status result.1.1 = 500)
  ∧ (∀ msg, transporter env m2 = Some msg →
       result.1.2 = internal_error msg ∧ status result.1.2 = 500).
Proof.
  intros Hid1 Hid2 Hne Hr1 Hr2 Hsame HP Hown HU1 HU2 Hn1 Hn2. cbn zeta.
  destruct (both_commit env userId (sol_publicacionId R1) w P id1 r1 R1 U1
              id2 r2 R2 U2 Hid1 Hid2 Hne HU1 HU2 eq_refl Hsame Hr1 Hr2 HP
              Hown Hn1 Hn2 schedule)
    as (-> & -> & (_ & _ & P' & HP' & _ & Hest) & (e1 & He1 & Ha1)
        & (e2 & He2 & Ha2) & Hout).
  assert (e1 = "Aprobada") as -> by (apply Ha1; lia).
  assert (e2 = "Aprobada") as -> by (apply Ha2; lia).
  do 4 (split; [done|]). split; [|split; [|split; [done|]]].
  - exists r1, r2, (set_estado "Aprobada" R1), (set_estado "Aprobada" R2).
    repeat split; done.
  - rewrite HP'. cbn. f_equal. apply Hest. left; lia.
  - unfold after_mail. split; [by intros ->|]. split; [by intros ->|].
    split; by intros msg ->.
Qed.

Lemma two_approvals_both_commit_witness :
  let result :=
    two_status_changes Sample.env [true; false; false; true; false] 1
      "1" "2" (JStr "Aprobada") Sample.two_pending in
  two_approved_on (db result.2) 1
  ∧ status result.1.1 = 200 ∧ status result.1.2 = 200.
Proof.
  cbn zeta.
  pose proof (two_approvals_both_commit Sample.env
                [true; false; false; true; false] 1 "1" "2"
                Sample.two_pending 1 2
                (created 2 1 "Me gustaría adoptar a Firulais")
                (created 3 1 "Tengo un patio grande")
                (Sample.usuario "Beto") (Sample.usuario "Caro")
                (Build_Publicacion "data:image/png;base64,iVBORw0KGgo="
                                   "disponible" 1)
                eq_refl eq_refl ltac:(done) eq_refl eq_refl eq_refl eq_refl
                eq_refl eq_refl eq_refl ltac:(done) ltac:(done))
    as (_ & _ & _ & _ & H & _ & _ & H1 & H2 & _).
  split; [exact H|]. split; [exact (H1 eq_refl)|exact (H2 eq_refl)].
Defined.

(** * The rest of the controllers *)

(** ** What the validations let through *)

Lemma isIn_JStr values msg path s :
  Validator.isIn values msg path (JStr s) = [] → s ∈ values.
Proof. unfold Validator.isIn. cbn. by case_bool_decide. Qed.

Lemma notEmpty_JStr msg path s :
  Validator.notEmpty msg path (JStr s) = [] → s ≠ "".
Proof.
  unfold Validator.notEmpty. cbn. by destruct (String.eqb_spec s "").
Qed.

Lemma pet_validated (b : Body) pid m :
  pet_validations b = [] →
  mascota_of (nombre b) (tamano b) (sexo b) (tipo b) (descripcion b) pid
  = Some m →
  valid_pet m ∧ mas_publicacionId m = pid.
Proof.
  unfold pet_validations, mascota_of. intros Hv Hm.
  destruct (nombre b) as [| | | |n]; try done.
  destruct (tamano b) as [| | | |t]; try done.
  destruct (sexo b) as [| | | |s]; try done.
  destruct (tipo b) as [| | | |ti]; try done.
  destruct (descripcion b) as [| | | |de]; try done.
  cbn in Hm. injection Hm as <-.
  apply app_eq_nil in Hv as [H1 Hv]. apply app_eq_nil in Hv as [H2 Hv].
  apply app_eq_nil in Hv as [H3 Hv]. apply app_eq_nil in Hv as [H4 H5].
  apply notEmpty_JStr in H1, H5. apply isIn_JStr in H2, H3, H4.
  by repeat split.
Qed.

Lemma foto_validated_create (b : Body) f :
  createPublicationValidations b = [] → foto b = JStr f → valid_foto f.
Proof.
  unfold createPublicationValidations, Validator.both, Validator.custom.
  intros Hv Hf. apply app_eq_nil in Hv as [_ Hv]. rewrite Hf in Hv.
  apply app_eq_nil in Hv as [_ Hv]. apply app_eq_nil in Hv as [H1 H2].
  split.
  - by destruct (foto_format (JStr f)).
  - by destruct (foto_size (JStr f)).
Qed.

Lemma foto_validated_update (b : Body) f :
  updatePublicationValidations b = [] → foto b = JStr f → valid_foto f.
Proof.
  unfold updatePublicationValidations, Validator.optional, Validator.both,
    Validator.custom.
  intros Hv Hf. apply app_eq_nil in Hv as [_ Hv].
  apply app_eq_nil in Hv as [_ Hv]. rewrite Hf in Hv.
  apply app_eq_nil in Hv as [H1 H2].
  split.
  - by destruct (foto_format (JStr f)).
  - by destruct (foto_size (JStr f)).
Qed.

Lemma pets_validated_create (b : Body) :
  createPublicationValidations b = [] → pet_validations b = [].
Proof. unfold createPublicationValidations. by intros [? _]%app_eq_nil. Qed.

Lemma pets_validated_update (b : Body) :
  updatePublicationValidations b = [] → pet_validations b = [].
Proof. unfold updatePublicationValidations. by intros [? _]%app_eq_nil. Qed.

Lemma mascota_of_fields n t s ti de pid m :
  mascota_of n t s ti de pid = Some m →
  (∀ x, n = JStr x → mas_nombre m = x)
  ∧ (∀ x, t = JStr x → mas_tamano m = x)
  ∧ (∀ x, s = JStr x → mas_sexo m = x)
  ∧ (∀ x, ti = JStr x → mas_tipo m = x)
  ∧ (∀ x, de = JStr x → mas_descripcion m = x).
Proof.
  unfold mascota_of. intros Hm.
  destruct n as [| | | |n]; try done. destruct t as [| | | |t]; try done.
  destruct s as [| | | |s]; try done. destruct ti as [| | | |ti]; try done.
  destruct de as [| | | |de]; try done.
  cbn in Hm. injection Hm as <-. cbn. repeat split; by intros x [= ->].
Qed.

(** The row that an accepted edit writes. *)
Lemma edited_edit_of (b : Body) p :
  updatePublicationValidations b = [] →
  (∀ v, updateData (foto b) = Some v → ∃ f, v = JStr f) →
  edit_of p (edited b p).
Proof.
  intros Hv Hf. unfold edit_of, edited. cbn. split; [done|]. split.
  - destruct (estado_validated b Hv) as [E|[E|E]]; rewrite E; cbn; eauto.
  - destruct (updateData (foto b)) as [v|] eqn:Ev; [|by left].
    destruct (Hf v eq_refl) as [f ->]. right. cbn.
    unfold updateData in Ev. destruct (truthy (foto b)); [|done].
    injection Ev as Ev. by eapply foto_validated_update.
Qed.

(** ** Each call as a change of the store *)

(** The store after a publication with photo [f] and pet [m] by [uid]. *)
Lemma createPublication_cases env uid b w :
  let answer := (createPublication env uid b w).1 in
  let w' := (createPublication env uid b w).2 in
  (status answer ≠ 201 ∧ w' = w)
  ∨ ∃ f m,
      createPublicationValidations b = [] ∧ uid ≠ 0 ∧ foto b = JStr f
      ∧ mascota_of (nombre b) (tamano b) (sexo b) (tipo b) (descripcion b)
          (seq_publicacion (db w) + 1) = Some m
      ∧ is_Some (usuarios (db w) !! uid)
      ∧ status answer = 201
      ∧ w' = {| db :=
                  bump_seq_mascota
                    (set_mascotas (λ l, l ++ [(seq_mascota (db w) + 1, m)])%list
                       (bump_seq_publicacion
                          (set_publicaciones
                             (insert (seq_publicacion (db w) + 1)
                                {| pub_foto := f; pub_estado := "disponible";
                                   pub_usuarioId := uid |}) (db w))));
                outbox := outbox w |}.
Proof.
  cbn zeta. unfold createPublication, try_catch, createPublication_body.
  destruct w as [d o].
  case_bool_decide as Hv; cbn [negb]; [|by left].
  destruct (decide (uid = 0)); [by left|].
  cbn [run exec query db outbox]. unfold publicacion_create.
  destruct (foto b) as [| | | |f] eqn:Hf; try by left.
  destruct (usuarios d !! uid) as [u|] eqn:Hu; [|by left].
  cbn [run exec query db outbox fst]. unfold mascota_create.
  destruct (mascota_of _ _ _ _ _ _) as [m|] eqn:Hm; [|by left].
  cbn [publicaciones bump_seq_publicacion set_publicaciones].
  rewrite lookup_insert_eq. cbn [run fst snd db outbox].
  right. exists f, m. by repeat split.
Qed.

Lemma createPublication_change env uid b w :
  change uid (db w) (db (createPublication env uid b w).2)
  ∧ outbox (createPublication env uid b w).2 = outbox w.
Proof.
  destruct (createPublication_cases env uid b w)
    as [[_ ->]|(f & m & Hv & _ & Hf & Hm & Hu & _ & ->)].
  - split; [constructor|done].
  - split; [|done]. cbn [db].
    destruct (pet_validated b _ m (pets_validated_create b Hv) Hm).
    apply ch_published; eauto using foto_validated_create.
Qed.

Lemma deletePublication_cases env uid id w :
  let answer := (deletePublication env uid id w).1 in
  let w' := (deletePublication env uid id w).2 in
  (status answer ≠ 200 ∧ w' = w)
  ∨ ∃ pid p,
      parseInt (JStr id) = Some pid ∧ uid ≠ 0
      ∧ publicaciones (db w) !! pid = Some p ∧ pub_usuarioId p = uid
      ∧ answer = reply 200 true "La publicación se eliminó correctamente"
      ∧ w' = {| db := (publicacion_delete pid (db w)).2; outbox := outbox w |}.
Proof.
  cbn zeta. unfold deletePublication, try_catch, deletePublication_body.
  destruct w as [d o].
  destruct (parseInt (JStr id)) as [pid|]; [|by left].
  destruct (decide (uid = 0)); [by left|].
  cbn [run exec query db outbox].
  destruct (publicaciones d !! pid) as [p|] eqn:Hp; [|by left].
  cbn [fmap option_fmap option_map run fst snd].
  destruct (decide (pub_usuarioId p ≠ uid)) as [|Hown]; [by left|].
  apply dec_stable in Hown.
  cbn [run exec query db outbox]. unfold publicacion_delete. rewrite Hp.
  cbn [run snd db]. right. exists pid, p. repeat split; try done. by rewrite Hp.
Qed.

Lemma deletePublication_change env uid id w :
  change uid (db w) (db (deletePublication env uid id w).2)
  ∧ outbox (deletePublication env uid id w).2 = outbox w.
Proof.
  destruct (deletePublication_cases env uid id w)
    as [[_ ->]|(pid & p & _ & _ & Hp & Hown & _ & ->)].
  - split; [constructor|done].
  - split; [|done]. by eapply ch_deleted.
Qed.

Lemma createRequest_cases env uid v m w :
  let answer := (createRequest env uid v m w).1 in
  let w' := (createRequest env uid v m w).2 in
  (status answer ≠ 201 ∧ w' = w)
  ∨ ∃ pid p texto,
      parseInt v = Some pid ∧ truthy v = true ∧ m = JStr texto ∧ texto ≠ ""
      ∧ publicaciones (db w) !! pid = Some p ∧ pub_estado p = "disponible"
      ∧ pub_usuarioId p ≠ uid
      ∧ ¬ already_requested uid pid (solicitudes (db w))
      ∧ is_Some (usuarios (db w) !! uid)
      ∧ answer
        = {| status := 201;
             body := JsonObj
               [("success", JsonBool true);
                ("message", JsonStr "Solicitud enviada correctamente");
                ("data", solicitud_json (seq_solicitud (db w) + 1,
                                         created uid pid texto))] |}
      ∧ w' = {| db := bump_seq_solicitud
                        (set_solicitudes
                           (insert (seq_solicitud (db w) + 1)
                                   (created uid pid texto)) (db w));
                outbox := outbox w |}.
Proof.
  cbn zeta.
  destruct (parseInt v) as [pid|] eqn:Hid; cycle 1.
  { left. rewrite createRequest_invalid by eauto. done. }
  destruct (truthy v) eqn:Hv; cycle 1.
  { left. rewrite createRequest_invalid by eauto. done. }
  destruct (truthy m) eqn:Hm; cycle 1.
  { left. rewrite createRequest_invalid by eauto. done. }
  destruct (publicaciones (db w) !! pid) as [p|] eqn:Hp; cycle 1.
  { left. by erewrite createRequest_not_found. }
  destruct (decide (pub_estado p = "disponible")) as [Hd|Hd]; cycle 1.
  { left. by erewrite createRequest_unavailable. }
  destruct (decide (pub_usuarioId p = uid)) as [Hown|Hown].
  { left. by erewrite createRequest_own. }
  destruct (solicitud_de uid pid (solicitudes (db w))) as [x|] eqn:Hs.
  { left. erewrite createRequest_duplicate; try done.
    apply solicitud_de_Some in Hs. exists x.1, x.2. naive_solver. }
  assert (¬ already_requested uid pid (solicitudes (db w))) as Ha.
  { intros (k & r & Hk & Hr). rewrite solicitud_de_None in Hs.
    by apply (Hs k r). }
  destruct m as [| | | |texto] eqn:Em, (usuarios (db w) !! uid) as [u|] eqn:Hu.
  9: { right. exists pid, p, texto.
       rewrite (createRequest_created env uid v (JStr texto) w pid Hid Hv Hm p
                  Hp Hd Hown texto Ha eq_refl) by (by rewrite Hu).
       repeat split; try done. by intros ->. }
  all: left; unfold createRequest, try_catch, createRequest_body;
    destruct w as [d o]; cbn in Hp, Hs, Hu;
    rewrite Hid, Hv, Hm; cbn [negb orb run exec query db outbox];
    rewrite Hp; cbn [fmap option_fmap option_map snd];
    destruct (decide (pub_estado p ≠ "disponible")); [done|];
    destruct (decide (pub_usuarioId p = uid)); [done|];
    cbn [run exec query db outbox]; rewrite Hs;
    cbn [run exec query db outbox]; unfold solicitud_create; try done.
  rewrite decide_False; [done|]. intros [[? Hu'] _]. congruence.
Qed.

Lemma createRequest_change env uid v m w :
  change uid (db w) (db (createRequest env uid v m w).2)
  ∧ outbox (createRequest env uid v m w).2 = outbox w.
Proof.
  destruct (createRequest_cases env uid v m w)
    as [[_ ->]|(pid & p & texto & _ & _ & _ & _ & Hp & Hd & Hown & Ha & Hu
                & _ & ->)].
  - split; [constructor|done].
  - split; [|done]. by eapply ch_requested.
Qed.

Lemma deleteRequest_cases env uid id w :
  let answer := (deleteRequest env uid id w).1 in
  let w' := (deleteRequest env uid id w).2 in
  (status answer ∈ [400; 403; 404] ∧ w' = w)
  ∨ ∃ rid r,
      parseInt (JStr id) = Some rid ∧ solicitudes (db w) !! rid = Some r
      ∧ sol_usuarioId r = uid ∧ sol_estado r = "Pendiente"
      ∧ answer = reply 200 true "Solicitud cancelada correctamente"
      ∧ w' = {| db := set_solicitudes (delete rid) (db w); outbox := outbox w |}.
Proof.
  cbn zeta. unfold deleteRequest, try_catch, deleteRequest_body.
  destruct w as [d o].
  destruct (parseInt (JStr id)) as [rid|]; [|left; split; [set_solver|done]].
  cbn [run exec query db outbox].
  destruct (solicitudes d !! rid) as [r|] eqn:Hr;
    [|left; split; [set_solver|done]].
  cbn [fmap option_fmap option_map run fst snd].
  destruct (decide (sol_usuarioId r ≠ uid)) as [|Hown];
    [left; split; [set_solver|done]|].
  destruct (decide (sol_estado r ≠ "Pendiente")) as [|He];
    [left; split; [set_solver|done]|].
  apply dec_stable in He, Hown.
  cbn [run exec query db outbox]. unfold solicitud_delete. rewrite Hr.
  cbn [run snd db]. right. by exists rid, r.
Qed.

Lemma deleteRequest_change env uid id w :
  change uid (db w) (db (deleteRequest env uid id w).2)
  ∧ outbox (deleteRequest env uid id w).2 = outbox w.
Proof.
  destruct (deleteRequest_cases env uid id w)
    as [[_ ->]|(rid & r & _ & Hr & Hown & Hest & _ & ->)].
  - split; [constructor|done].
  - split; [|done]. by eapply ch_cancelled.
Qed.

(** A status change either leaves the world as it is, or is one of the
    three permitted changes of a request that is not approved, made by the
    owner of its publication, with one notification. *)
Lemma actualizarEstadoSolicitud_cases env uid id nuevo w :
  let w' := (actualizarEstadoSolicitud env uid id nuevo w).2 in
  w' = w
  ∨ ∃ rid r u p e,
      parseInt (JStr id) = Some rid ∧ nuevo = JStr e
      ∧ solicitudes (db w) !! rid = Some r
      ∧ usuarios (db w) !! sol_usuarioId r = Some u
      ∧ publicaciones (db w) !! sol_publicacionId r = Some p
      ∧ pub_usuarioId p = uid ∧ sol_estado r ≠ "Aprobada"
      ∧ e ≠ sol_estado r
      ∧ outbox w' = (outbox w ++ [notificacion (found w rid r u p) e])%list
      ∧ (e = "Aprobada" ∧ db w' = approve_db rid r p (db w)
         ∨ (e = "Rechazada" ∨ e = "Pendiente")
           ∧ db w' = set_solicitudes (insert rid (set_estado e r)) (db w)).
Proof.
  cbn zeta.
  destruct (parseInt (JStr id)) as [rid|] eqn:Hid; cycle 1.
  { left. unfold actualizarEstadoSolicitud, try_catch, actualizarEstadoSolicitud_body.
    by rewrite Hid. }
  destruct (includes estadosPermitidos nuevo) eqn:Hin; cycle 1.
  { left. unfold actualizarEstadoSolicitud, try_catch, actualizarEstadoSolicitud_body.
    by rewrite Hid, Hin. }
  destruct (solicitudes (db w) !! rid) as [r|] eqn:Hr; cycle 1.
  { left. unfold actualizarEstadoSolicitud, try_catch, actualizarEstadoSolicitud_body.
    rewrite Hid, Hin. cbn [negb run].
    by rewrite (exec_find_include_None env w rid Hr). }
  destruct (usuarios (db w) !! sol_usuarioId r) as [u|] eqn:Hu,
           (publicaciones (db w) !! sol_publicacionId r) as [p|] eqn:Hp.
  2-4: left; unfold actualizarEstadoSolicitud, try_catch, actualizarEstadoSolicitud_body;
       rewrite Hid, Hin; cbn [negb run]; destruct w as [d o]; cbn in *;
       unfold solicitud_find_include; rewrite Hr, ?Hu, ?Hp; done.
  destruct (decide (pub_usuarioId p = uid)) as [Hown|Hown],
           (decide (sol_estado r = "Aprobada")) as [Ha|Ha],
           (decide (JStr (sol_estado r) = nuevo)) as [Hs|Hs].
  1-3,5-8: left; unfold actualizarEstadoSolicitud, try_catch, actualizarEstadoSolicitud_body;
       rewrite Hid, Hin; cbn [negb run];
       rewrite (exec_find_include_Some env w rid r u p) by done;
       cbn [si_publicacion si_row];
       repeat (case_decide; try done).
  right. exists rid, r, u, p.
  apply estadosPermitidos_spec in Hin as [-> | [-> | ->] ].
  - exists "Aprobada". rewrite (approve_run env w uid id rid r u p) by done.
    repeat split; try done; try congruence. by left.
  - exists "Rechazada".
    rewrite (retarget_run env w uid id rid r u p) by (done || eauto || congruence).
    repeat split; try done; try congruence. right. eauto.
  - exists "Pendiente".
    rewrite (retarget_run env w uid id rid r u p) by (done || eauto || congruence).
    repeat split; try done; try congruence. right. eauto.
Qed.

Lemma actualizarEstadoSolicitud_change env uid id nuevo w :
  change uid (db w) (db (actualizarEstadoSolicitud env uid id nuevo w).2).
Proof.
  destruct (actualizarEstadoSolicitud_cases env uid id nuevo w)
    as [->|(rid & r & u & p & e & _ & _ & Hr & _ & Hp & Hown & Ha & _ & _
            & [[_ ->]|[He ->]])].
  - constructor.
  - by eapply ch_approved.
  - by eapply ch_retargeted.
Qed.

Lemma set_publicaciones_id pid p d :
  publicaciones d !! pid = Some p → set_publicaciones (insert pid p) d = d.
Proof. intros H. destruct d. unfold set_publicaciones. cbn in *. by rewrite insert_id. Qed.

Lemma edited_nothing (b : Body) p :
  updateData (foto b) = None → updateData (estado b) = None → edited b p = p.
Proof. unfold edited. intros -> ->. by destruct p. Qed.

(** The write to Publicacion inside the transaction of an edit: refused
    when [foto] or [estado] is not a string, else the row becomes
    [edited b p]. *)
Lemma edit_publicacion_run env (b : Body) pid p d o A
    (k : Z * Publicacion → Prog A) :
  publicaciones d !! pid = Some p →
  let w := {| db := d; outbox := o |} in
  let w1 :=
    {| db := set_publicaciones (insert pid (edited b p)) d; outbox := o |} in
  let body :=
    match updateData (foto b), updateData (estado b) with
    | None, None => k (pid, p)
    | f, e => Vis (PublicacionUpdate pid f e) k
    end in
  (∃ msg, run env body w = (Err msg, w))
  ∨ (∀ v, updateData (foto b) = Some v → ∃ s, v = JStr s)
    ∧ run env body w = run env (k (pid, edited b p)) w1.
Proof.
  intros Hp. cbn zeta.
  destruct (updateData (foto b)) as [[| | | |f]|] eqn:Ef,
           (updateData (estado b)) as [[| | | |e]|] eqn:Ee.
  all: cbn [run exec query db outbox publicacion_update].
  all: try (left; eexists; reflexivity).
  all: right; split; [intros v [= <-]; eauto|].
  all: rewrite ?Hp; unfold edited; rewrite ?Ef, ?Ee;
    cbn [mbind option_bind as_string default run]; try done.
  rewrite set_publicaciones_id; [by destruct p|]. by destruct p.
Qed.

(** An edit either is refused and changes nothing, or is answered 200,
    replaces the row of the publication by [edited b p] and gives it the
    pet of the form: in place of its first pet, or as a new row when it has
    none. *)
Lemma updatePublication_cases env uid id b w :
  let answer := (updatePublication env uid id b w).1 in
  let w' := (updatePublication env uid id b w).2 in
  (status answer ≠ 200 ∧ w' = w)
  ∨ ∃ pid p m,
      updatePublicationValidations b = [] ∧ parseInt (JStr id) = Some pid
      ∧ uid ≠ 0 ∧ publicaciones (db w) !! pid = Some p ∧ pub_usuarioId p = uid
      ∧ (∀ v, updateData (foto b) = Some v → ∃ s, v = JStr s)
      ∧ status answer = 200 ∧ outbox w' = outbox w
      ∧ ((∃ mid old i old',
            head (mascotas_de pid (mascotas (db w))) = Some (mid, old)
            ∧ list_find (λ kr, kr.1 = mid) (mascotas (db w))
              = Some (i, (mid, old'))
            ∧ mascota_of (nombre b) (tamano b) (sexo b) (tipo b)
                (descripcion b) (mas_publicacionId old') = Some m
            ∧ db w'
              = set_mascotas
                  (map (λ kr, if decide (kr.1 = mid) then (mid, m) else kr))
                  (set_publicaciones (insert pid (edited b p)) (db w)))
         ∨ (mascotas_de pid (mascotas (db w)) = []
            ∧ mascota_of (nombre b) (tamano b) (sexo b) (tipo b)
                (descripcion b) pid = Some m
            ∧ db w'
              = bump_seq_mascota
                  (set_mascotas (λ l, l ++ [(seq_mascota (db w) + 1, m)])%list
                     (set_publicaciones (insert pid (edited b p)) (db w))))).
Proof.
  cbn zeta. unfold updatePublication, try_catch, updatePublication_body.
  destruct w as [d o].
  case_bool_decide as Hv; cbn [negb]; [|by left].
  destruct (parseInt (JStr id)) as [pid|]; [|by left].
  destruct (decide (uid = 0)); [by left|].
  cbn [run exec query db outbox].
  destruct (publicaciones d !! pid) as [p|] eqn:Hp; [|by left].
  cbn [fmap option_fmap option_map run fst snd].
  destruct (decide (pub_usuarioId p ≠ uid)) as [|Hown]; [by left|].
  apply dec_stable in Hown.
  cbn [run].
  pose (k0 := λ updatedPublicacion : Z * Publicacion,
          match head (mascotas_de pid (mascotas d)) with
          | Some mascotaExistente =>
              Vis (MascotaUpdate mascotaExistente.1 (nombre b) (tamano b)
                     (sexo b) (tipo b) (descripcion b))
                  (λ updatedMascota, Ret (updatedPublicacion, updatedMascota))
          | None =>
              Vis (MascotaCreate (nombre b) (tamano b) (sexo b) (tipo b)
                     (descripcion b) pid)
                  (λ updatedMascota, Ret (updatedPublicacion, updatedMascota))
          end).
  destruct (edit_publicacion_run env b pid p d o _ k0 Hp)
    as [[msg Hrun]|[Hfoto Hrun]]; subst k0; cbn beta zeta in Hrun.
  { cbn zeta in Hrun. rewrite Hrun. by left. }
  cbn zeta in Hrun. rewrite Hrun. clear Hrun.
  destruct (head (mascotas_de pid (mascotas d))) as [[mid old]|] eqn:Hhead.
  - cbn [run exec query db outbox fst snd]. unfold mascota_update.
    cbn [mascotas set_publicaciones].
    destruct (list_find (λ kr, kr.1 = mid) (mascotas d))
      as [[i [mid' old']]|] eqn:Hfind.
    + pose proof Hfind as (_ & Hkey & _)%list_find_Some. cbn in Hkey.
      subst mid'.
      destruct (mascota_of _ _ _ _ _ (mas_publicacionId old')) as [m|] eqn:Hm;
        [|by left].
      cbn [run fst snd db outbox status]. right. exists pid, p, m.
      do 8 (split; [done|]). left. exists mid, old, i, old'. done.
    + left. by destruct (mascota_of (nombre b) (tamano b) (sexo b) (tipo b)
                          (descripcion b) 0).
  - cbn [run exec query db outbox fst snd]. unfold mascota_create.
    destruct (mascota_of _ _ _ _ _ pid) as [m|] eqn:Hm; [|by left].
    cbn [publicaciones set_publicaciones]. rewrite lookup_insert_eq.
    cbn [run fst snd db outbox status]. right. exists pid, p, m.
    do 8 (split; [done|]). right. split; [|done].
    by destruct (mascotas_de pid (mascotas d)).
Qed.

Lemma updatePublication_change env uid id b w :
  NoDup (mascotas (db w)).*1 →
  change uid (db w) (db (updatePublication env uid id b w).2)
  ∧ outbox (updatePublication env uid id b w).2 = outbox w.
Proof.
  intros Hkeys.
  destruct (updatePublication_cases env uid id b w)
    as [[_ ->]|(pid & p & m & Hv & _ & _ & Hp & Hown & Hf & _ & Ho
                & [(mid & old & i & old' & Hhead & Hfind & Hm & ->)
                  |(Hnone & Hm & ->)])].
  - split; [constructor|done].
  - split; [|done].
    destruct (pet_validated b _ m (pets_validated_update b Hv) Hm).
    assert (old' = old) as ->.
    { apply head_Some_elem_of, list_elem_of_filter in Hhead as [_ Hin].
      apply list_find_Some in Hfind as (Hi & _ & _).
      apply list_elem_of_lookup in Hin as [j Hj].
      assert (i = j) as <-; [|congruence].
      eapply NoDup_lookup; [apply Hkeys|..];
        rewrite list_lookup_fmap; [by rewrite Hi|by rewrite Hj]. }
    eapply ch_edited; eauto using edited_edit_of.
  - split; [|done].
    destruct (pet_validated b _ m (pets_validated_update b Hv) Hm).
    eapply ch_edited_new_pet; eauto using edited_edit_of.
Qed.

(** Every call but a registration is one of the changes, made in the name
    of its caller. *)
Lemma apply_op_change env op w uid :
  NoDup (mascotas (db w)).*1 → caller op = Some uid →
  change uid (db w) (db (apply_op env op w)).
Proof.
  intros Hkeys Hcaller.
  destruct op as [u|u b|u id b|u id|u v m|u id|u id nuevo]; cbn [apply_op];
    try done; injection Hcaller as ->.
  - apply createPublication_change.
  - by apply updatePublication_change.
  - apply deletePublication_change.
  - apply createRequest_change.
  - apply deleteRequest_change.
  - apply actualizarEstadoSolicitud_change.
Qed.

(** ** The rows of Mascota under the three writes *)

Section Pets.
Context (l : list (Z * Mascota)).

Lemma mascotas_de_snoc pid k m :
  mascotas_de pid (l ++ [(k, m)])
  = (mascotas_de pid l
     ++ if decide (mas_publicacionId m = pid) then [(k, m)] else [])%list.
Proof.
  unfold mascotas_de. by rewrite filter_app.
Qed.

Lemma mascotas_de_cascade pid pid' :
  mascotas_de pid' (filter (λ kr, mas_publicacionId kr.2 ≠ pid) l)
  = if decide (pid' = pid) then [] else mascotas_de pid' l.
Proof.
  unfold mascotas_de. rewrite list_filter_filter. case_decide as Hpid.
  - subst pid'. induction l as [|x l' IH]; [done|].
    rewrite filter_cons. case_decide as H; [by destruct H|]. done.
  - apply list_filter_iff. intros x. naive_solver.
Qed.

Context (mid : Z) (old m : Mascota).
Hypothesis keys : NoDup l.*1.
Hypothesis is_row : (mid, old) ∈ l.
Hypothesis same_publication : mas_publicacionId m = mas_publicacionId old.

Let replace (kr : Z * Mascota) : Z * Mascota :=
  if decide (kr.1 = mid) then (mid, m) else kr.

Lemma row_of_key x : x ∈ l → x.1 = mid → x = (mid, old).
Proof.
  intros Hx Hk. destruct x as [k x]. cbn in Hk. subst k. f_equal.
  apply list_elem_of_lookup in Hx as [i Hi], is_row as [j Hj].
  assert (i = j) as ->; [|congruence].
  eapply NoDup_lookup; [apply keys|..]; rewrite list_lookup_fmap;
    [by rewrite Hi|by rewrite Hj].
Qed.

Lemma replace_keys : (map replace l).*1 = l.*1.
Proof.
  clear keys is_row. induction l as [|x l' IH]; [done|].
  cbn. rewrite IH. f_equal. unfold replace. by case_decide.
Qed.

Lemma mascotas_de_replace pid :
  mascotas_de pid (map replace l) = map replace (mascotas_de pid l).
Proof.
  assert (∀ x, x ∈ l →
            mas_publicacionId (replace x).2 = mas_publicacionId x.2) as Hsame.
  { intros x Hx. unfold replace. case_decide as Hk; [|done].
    rewrite (row_of_key x Hx Hk). done. }
  clear keys is_row. unfold mascotas_de.
  induction l as [|x l' IH]; [done|].
  cbn [map]. rewrite !filter_cons.
  rewrite IH by (intros y Hy; apply Hsame; by right).
  rewrite (Hsame x) by by left.
  by case_decide.
Qed.

Lemma elem_of_replace x :
  x ∈ map replace l → x = (mid, m) ∨ x ∈ l ∧ x.1 ≠ mid.
Proof.
  intros (y & -> & Hy)%list_elem_of_fmap. unfold replace.
  case_decide; eauto.
Qed.

End Pets.

(** ** The changes keep the store sound *)

(** A row of Solicitud after an approval comes from a row before it, with
    the same requester and publication. *)
Lemma approve_db_back rid r p d k q :
  solicitudes d !! rid = Some r →
  solicitudes (approve_db rid r p d) !! k = Some q →
  ∃ q0, solicitudes d !! k = Some q0
        ∧ sol_usuarioId q = sol_usuarioId q0
        ∧ sol_publicacionId q = sol_publicacionId q0
        ∧ (sol_estado q = sol_estado q0 ∨ sol_estado q = "Aprobada"
           ∨ sol_estado q = "Rechazada").
Proof.
  intros Hr. destruct (decide (k = rid)) as [->|Hne].
  - rewrite approve_db_target. intros [= <-]. exists r. cbn.
    repeat split; eauto.
  - rewrite approve_db_sibling by done.
    destruct (solicitudes d !! k) as [q0|]; [|done]. cbn. intros [= <-].
    exists q0. split; [done|]. case_decide; cbn; repeat split; eauto.
Qed.

Section Change.
Context (uid : Z) (d d' : DB).
Hypothesis was_sound : sound d.

Lemma fresh_publicacion : publicaciones d !! (seq_publicacion d + 1) = None.
Proof.
  destruct was_sound as ([Hp _ _] & _).
  destruct (publicaciones d !! (seq_publicacion d + 1)) eqn:E; [|done].
  apply Hp in E. lia.
Qed.

Lemma fresh_solicitud : solicitudes d !! (seq_solicitud d + 1) = None.
Proof.
  destruct was_sound as ([_ Hs _] & _).
  destruct (solicitudes d !! (seq_solicitud d + 1)) eqn:E; [|done].
  apply Hs in E. lia.
Qed.

Lemma fresh_mascota : seq_mascota d + 1 ∉ (mascotas d).*1.
Proof.
  destruct was_sound as (_ & _ & Hm & _).
  intros ([k m] & Hk & Hin)%list_elem_of_fmap. cbn in Hk. subst k.
  apply Hm in Hin. lia.
Qed.

Lemma change_consistent : change uid d d' → consistent d'.
Proof.
  destruct was_sound as ([Hp Hs Hfk] & _).
  intros [ |f m Hu Hf Hm Hpid|pid p p' mid i old m Hpid Hown He Hh Hfind Hm Hmp
          |pid p p' m Hpid Hown He Hnone Hm Hmp|pid p Hpid Hown
          |pid p texto Hpid Hd Hown Hno Hu|rid r Hr Hown He
          |rid r p Hr Hpid Hown Ha|rid r p e Hr Hpid Hown Ha He].
  - done.
  - split; cbn.
    + intros k q [[<- _]|[_ H]]%lookup_insert_Some; [lia|].
      apply Hp in H. lia.
    + done.
    + intros k q Hk. rewrite lookup_insert_is_Some'. eauto.
  - split; cbn.
    + intros k q [[<- _]|[_ H]]%lookup_insert_Some; eauto.
    + done.
    + intros k q Hk. rewrite lookup_insert_is_Some'. eauto.
  - split; cbn.
    + intros k q [[<- _]|[_ H]]%lookup_insert_Some; eauto.
    + done.
    + intros k q Hk. rewrite lookup_insert_is_Some'. eauto.
  - unfold publicacion_delete. rewrite Hpid. split; cbn.
    + intros k q [_ H]%lookup_delete_Some. eauto.
    + intros k q [H _]%map_lookup_filter_Some. eauto.
    + intros k q [H Hne]%map_lookup_filter_Some. cbn in Hne.
      rewrite lookup_delete_ne by done. eauto.
  - split; cbn.
    + done.
    + intros k q [[<- _]|[_ H]]%lookup_insert_Some; [lia|].
      apply Hs in H. lia.
    + intros k q [[<- <-]|[_ H]]%lookup_insert_Some; cbn; eauto.
  - split; cbn.
    + done.
    + intros k q [_ H]%lookup_delete_Some. eauto.
    + intros k q [_ H]%lookup_delete_Some. eauto.
  - split.
    + rewrite approve_db_publicaciones.
      intros k q [[<- _]|[_ H]]%lookup_insert_Some; eauto.
    + intros k q (q0 & Hq0 & _)%approve_db_back; eauto.
    + rewrite approve_db_publicaciones.
      intros k q (q0 & Hq0 & _ & -> & _)%approve_db_back; [|done].
      rewrite lookup_insert_is_Some'. eauto.
  - split; cbn.
    + done.
    + intros k q [[<- _]|[_ H]]%lookup_insert_Some; eauto.
    + intros k q [[<- <-]|[_ H]]%lookup_insert_Some; cbn; eauto.
Qed.

Lemma change_referential : change uid d d' → referential d'.
Proof.
  pose proof fresh_mascota as Hfresh.
  destruct was_sound as (_ & [Hpu Hsu Hsp Hmp Hk] & _).
  intros [ |f m Hu Hf Hm Hpid|pid p p' mid i old m Hpid Hown He Hh Hfind Hm Hmpid
          |pid p p' m Hpid Hown He Hnone Hm Hmpid|pid p Hpid Hown
          |pid p texto Hpid Hd Hown Hno Hu|rid r Hr Hown He
          |rid r p Hr Hpid Hown Ha|rid r p e Hr Hpid Hown Ha He].
  - done.
  - split; cbn; try done.
    + intros k q [[<- <-]|[_ H]]%lookup_insert_Some; cbn; eauto.
    + intros k q Hq. rewrite lookup_insert_is_Some'. eauto.
    + intros k q [Hq|Hq%list_elem_of_singleton]%elem_of_app;
        rewrite lookup_insert_is_Some'; [eauto|]. left. congruence.
    + rewrite fmap_app. apply NoDup_app. split; [done|]. split.
      * intros x Hx ->%list_elem_of_singleton. done.
      * apply NoDup_singleton.
  - destruct He as (Hsame & _).
    assert ((mid, old) ∈ mascotas d) as Hold.
    { by apply head_Some_elem_of, list_elem_of_filter in Hh as [_ ?]. }
    split; cbn; try done.
    + intros k q [[<- <-]|[_ H]]%lookup_insert_Some; [|by eauto].
      rewrite Hsame. eauto.
    + intros k q Hq. rewrite lookup_insert_is_Some'. eauto.
    + intros k q [[= -> ->]|[Hq _]]%elem_of_replace;
        rewrite lookup_insert_is_Some'; right; [|by eauto].
      rewrite Hmpid. eauto.
    + by rewrite replace_keys.
  - destruct He as (Hsame & _). split; cbn; try done.
    + intros k q [[<- <-]|[_ H]]%lookup_insert_Some; [|by eauto].
      rewrite Hsame. eauto.
    + intros k q Hq. rewrite lookup_insert_is_Some'. eauto.
    + intros k q [Hq|Hq%list_elem_of_singleton]%elem_of_app;
        rewrite lookup_insert_is_Some'; [eauto|]. left. congruence.
    + rewrite fmap_app. apply NoDup_app. split; [done|]. split.
      * intros x Hx ->%list_elem_of_singleton. done.
      * apply NoDup_singleton.
  - unfold publicacion_delete. rewrite Hpid. split; cbn.
    + intros k q [_ H]%lookup_delete_Some. eauto.
    + intros k q [H _]%map_lookup_filter_Some. eauto.
    + intros k q [H Hne]%map_lookup_filter_Some. cbn in Hne.
      rewrite lookup_delete_ne by done. eauto.
    + intros k q [Hne H]%list_elem_of_filter. cbn in Hne.
      rewrite lookup_delete_ne by done. eauto.
    + eapply sublist_NoDup; [done|]. apply fmap_sublist, sublist_filter.
  - split; cbn; try done.
    + intros k q [[<- <-]|[_ H]]%lookup_insert_Some; cbn; eauto.
    + intros k q [[<- <-]|[_ H]]%lookup_insert_Some; cbn; eauto.
  - split; cbn; try done.
    + intros k q [_ H]%lookup_delete_Some. eauto.
    + intros k q [_ H]%lookup_delete_Some. eauto.
  - split; try done.
    + rewrite approve_db_publicaciones.
      intros k q [[<- <-]|[_ H]]%lookup_insert_Some; cbn; eauto.
    + intros k q (q0 & Hq0 & -> & _)%approve_db_back; eauto.
    + rewrite approve_db_publicaciones.
      intros k q (q0 & Hq0 & _ & -> & _)%approve_db_back; [|done].
      rewrite lookup_insert_is_Some'. eauto.
    + rewrite approve_db_publicaciones. cbn.
      intros k q Hq. rewrite lookup_insert_is_Some'. eauto.
  - split; cbn; try done.
    + intros k q [[<- <-]|[_ H]]%lookup_insert_Some; cbn; eauto.
    + intros k q [[<- <-]|[_ H]]%lookup_insert_Some; cbn; eauto.
Qed.

Lemma change_mascotas_below_seq : change uid d d' → mascotas_below_seq d'.
Proof.
  destruct was_sound as (_ & [_ _ _ _ Hk] & Hm & _).
  unfold mascotas_below_seq.
  intros [ |f m Hus Hvf Hvm Hmpid|pid p p' mid i old m Hpid Hown He Hh Hfind Hvm Hmpid
          |pid p p' m Hpid Hown He Hnone Hvm Hmpid|pid p Hpid Hown
          |pid p texto Hpid Hd Hown Hno Hu|rid r Hr Hown He
          |rid r p Hr Hpid Hown Ha|rid r p e Hr Hpid Hown Ha He];
    try done.
  - cbn. intros k q [Hq|[= -> ->]%list_elem_of_singleton]%elem_of_app; [|lia].
    apply Hm in Hq. lia.
  - cbn. intros k q [[= -> ->]|[Hq _]]%elem_of_replace; [|by eauto].
    apply head_Some_elem_of, list_elem_of_filter in Hh as [_ ?]. eauto.
  - cbn. intros k q [Hq|[= -> ->]%list_elem_of_singleton]%elem_of_app; [|lia].
    apply Hm in Hq. lia.
  - unfold publicacion_delete. rewrite Hpid. cbn.
    intros k q [_ H]%list_elem_of_filter. eauto.
Qed.

Lemma change_unique_pairs : change uid d d' → unique_pairs d'.
Proof.
  pose proof fresh_solicitud as Hfresh.
  destruct was_sound as (_ & _ & _ & Hu & _).
  unfold unique_pairs.
  intros [ |f m Hus Hvf Hvm Hmpid|pid p p' mid i old m Hpid Hown He Hh Hfind Hvm Hmpid
          |pid p p' m Hpid Hown He Hnone Hvm Hmpid|pid p Hpid Hown
          |pid p texto Hpid Hd Hown Hno Husr|rid r Hr Hown He
          |rid r p Hr Hpid Hown Ha|rid r p e Hr Hpid Hown Ha He];
    try done.
  - unfold publicacion_delete. rewrite Hpid. cbn.
    intros k1 k2 r1 r2 [H1 _]%map_lookup_filter_Some
      [H2 _]%map_lookup_filter_Some. eauto.
  - cbn. intros k1 k2 r1 r2
      [[<- <-]|[_ H1]]%lookup_insert_Some [[<- <-]|[_ H2]]%lookup_insert_Some;
      cbn; [done| | |by eauto].
    + intros Hsu Hsp. destruct Hno. by exists k2, r2.
    + intros Hsu Hsp. destruct Hno. by exists k1, r1.
  - cbn. intros k1 k2 r1 r2 [_ H1]%lookup_delete_Some [_ H2]%lookup_delete_Some.
    eauto.
  - pose proof (λ k q, approve_db_back rid r p d k q Hr) as Hback.
    intros k1 k2 r1 r2 Hk1 Hk2.
    destruct (Hback _ _ Hk1) as (q1 & H1 & -> & -> & _).
    destruct (Hback _ _ Hk2) as (q2 & H2 & -> & -> & _). eauto.
  - cbn. intros k1 k2 r1 r2
      [[<- <-]|[_ H1]]%lookup_insert_Some [[<- <-]|[_ H2]]%lookup_insert_Some;
      cbn; eauto.
Qed.

Lemma change_estados_ok : change uid d d' → estados_ok d'.
Proof.
  destruct was_sound as (_ & _ & _ & _ & [Hs Hp] & _).
  unfold estados_ok.
  intros [ |f m Hus Hvf Hvm Hmpid|pid p p' mid i old m Hpid Hown He Hh Hfind Hvm Hmpid
          |pid p p' m Hpid Hown He Hnone Hvm Hmpid|pid p Hpid Hown
          |pid p texto Hpid Hd Hown Hno Husr|rid r Hr Hown He
          |rid r p Hr Hpid Hown Ha|rid r p e Hr Hpid Hown Ha He];
    try done.
  - split; [done|]. cbn.
    intros k q [[<- <-]|[_ H]]%lookup_insert_Some; [set_solver|eauto].
  - split; [done|]. cbn. destruct He as (_ & He & _).
    intros k q [[<- <-]|[_ H]]%lookup_insert_Some; [|by eauto].
    destruct He as [->|[->| ->]]; [by eauto|set_solver..].
  - split; [done|]. cbn. destruct He as (_ & He & _).
    intros k q [[<- <-]|[_ H]]%lookup_insert_Some; [|by eauto].
    destruct He as [->|[->| ->]]; [by eauto|set_solver..].
  - unfold publicacion_delete. rewrite Hpid. cbn. split.
    + intros k q [H _]%map_lookup_filter_Some. eauto.
    + intros k q [_ H]%lookup_delete_Some. eauto.
  - split; [|done]. cbn.
    intros k q [[<- <-]|[_ H]]%lookup_insert_Some; [set_solver|eauto].
  - split; [|done]. cbn. intros k q [_ H]%lookup_delete_Some. eauto.
  - split.
    + intros k q (q0 & H0 & _ & _ & [->|[->| ->]])%approve_db_back;
        [by eauto|set_solver..|done].
    + rewrite approve_db_publicaciones.
      intros k q [[<- <-]|[_ H]]%lookup_insert_Some; [set_solver|eauto].
  - split; [|done]. cbn.
    intros k q [[<- <-]|[_ H]]%lookup_insert_Some; [|by eauto].
    cbn. set_solver.
Qed.

Lemma change_fotos_ok : change uid d d' → fotos_ok d'.
Proof.
  destruct was_sound as (_ & _ & _ & _ & _ & _ & Hfotos).
  unfold fotos_ok.
  intros [ |f m Hus Hvf Hvm Hmpid|pid p p' mid i old m Hpid Hown He Hh Hfind Hvm Hmpid
          |pid p p' m Hpid Hown He Hnone Hvm Hmpid|pid p Hpid Hown
          |pid p texto Hpid Hd Hown Hno Husr|rid r Hr Hown He
          |rid r p Hr Hpid Hown Ha|rid r p e Hr Hpid Hown Ha He];
    try done.
  - cbn. intros k q [[<- <-]|[_ H]]%lookup_insert_Some; [done|eauto].
  - cbn. destruct He as (_ & _ & He).
    intros k q [[<- <-]|[_ H]]%lookup_insert_Some; [|by eauto].
    destruct He as [->|?]; eauto.
  - cbn. destruct He as (_ & _ & He).
    intros k q [[<- <-]|[_ H]]%lookup_insert_Some; [|by eauto].
    destruct He as [->|?]; eauto.
  - unfold publicacion_delete. rewrite Hpid. cbn.
    intros k q [_ H]%lookup_delete_Some. eauto.
  - rewrite approve_db_publicaciones.
    intros k q [[<- <-]|[_ H]]%lookup_insert_Some; cbn; eauto.
Qed.

Lemma no_pets pid :
  publicaciones d !! pid = None → mascotas_de pid (mascotas d) = [].
Proof.
  destruct was_sound as (_ & [_ _ _ Hmp _] & _). intros Hnone.
  destruct (mascotas_de pid (mascotas d)) as [|[k m] rest] eqn:E; [done|].
  assert ((k, m) ∈ mascotas_de pid (mascotas d)) as Hin by (rewrite E; by left).
  apply list_elem_of_filter in Hin as [Hpid Hin]. cbn in Hpid.
  apply Hmp in Hin as [? Hin]. congruence.
Qed.

Lemma change_one_pet : change uid d d' → one_pet d'.
Proof.
  pose proof fresh_publicacion as Hfresh. pose proof no_pets as Hno_pets.
  destruct was_sound as (_ & [_ _ _ Hmp Hk] & _ & _ & _ & Hone & _).
  unfold one_pet.
  intros [ |f m Hus Hvf Hvm Hmpid|pid p p' mid i old m Hpid Hown He Hh Hfind Hvm Hmpid
          |pid p p' m Hpid Hown He Hnone Hvm Hmpid|pid p Hpid Hown
          |pid p texto Hpid Hd Hown Hno Husr|rid r Hr Hown He
          |rid r p Hr Hpid Hown Ha|rid r p e Hr Hpid Hown Ha He];
    try done.
  - cbn [publicaciones mascotas bump_seq_mascota set_mascotas
         bump_seq_publicacion set_publicaciones].
    intros k q Hq. rewrite mascotas_de_snoc.
    apply lookup_insert_Some in Hq as [[<- <-]|[Hne Hq]].
    + rewrite decide_True by done. rewrite Hno_pets by done. eauto.
    + rewrite decide_False by congruence. rewrite app_nil_r. eauto.
  - cbn [publicaciones mascotas set_mascotas set_publicaciones].
    assert ((mid, old) ∈ mascotas d) as Hold.
    { by apply head_Some_elem_of, list_elem_of_filter in Hh as [_ ?]. }
    intros k q Hq.
    assert (is_Some (publicaciones d !! k)) as [q0 Hq0].
    { apply lookup_insert_Some in Hq as [[<- _]|[_ Hq]]; eauto. }
    rewrite (mascotas_de_replace _ mid old m) by done.
    destruct (Hone k q0 Hq0) as (k0 & m0 & -> & Hm0). cbn.
    case_decide; eauto.
  - destruct (Hone pid p Hpid) as (k0 & m0 & Hm0 & _). congruence.
  - unfold publicacion_delete. rewrite Hpid.
    cbn [snd publicaciones mascotas set_mascotas set_publicaciones
         set_solicitudes].
    intros k q [Hne Hq]%lookup_delete_Some.
    rewrite mascotas_de_cascade, decide_False by done. eauto.
  - rewrite approve_db_publicaciones.
    intros k q Hq.
    assert (is_Some (publicaciones d !! k)) as [q0 Hq0].
    { apply lookup_insert_Some in Hq as [[<- _]|[_ Hq]]; eauto. }
    eauto.
Qed.

Lemma change_sound : change uid d d' → sound d'.
Proof.
  intros Hch.
  split; [by apply change_consistent|].
  split; [by apply change_referential|].
  split; [by apply change_mascotas_below_seq|].
  split; [by apply change_unique_pairs|].
  split; [by apply change_estados_ok|].
  split; [by apply change_one_pet|by apply change_fotos_ok].
Qed.

End Change.
Lemma sound_initial : sound (db initial).
Proof.
  split; [apply (proj1 good_initial)|].
  split.
  { split; cbn; try (intros ? ? H; by rewrite lookup_empty in H).
    - by intros ? ? ?%elem_of_nil.
    - constructor. }
  split; [by intros ? ? ?%elem_of_nil|].
  split; [intros ? ? ? ? H; cbn in H; by rewrite lookup_empty in H|].
  split; [split; intros ? ? H; cbn in H; by rewrite lookup_empty in H|].
  split; intros ? ? H; cbn in H; by rewrite lookup_empty in H.
Qed.

(** A registration adds a row to Usuario and touches nothing else. *)
Lemma registerUser_sound u w : sound (db w) → sound (db (registerUser u w)).
Proof.
  intros Hw. unfold registerUser. case_decide; [done|]. cbn [db].
  destruct Hw as (Hc & [Hpu Hsu Hsp Hmp Hk] & Hrest).
  split; [by destruct Hc|]. split; [|done].
  split; cbn; try done.
  - intros k q Hq. rewrite lookup_insert_is_Some'. eauto.
  - intros k q Hq. rewrite lookup_insert_is_Some'. eauto.
Qed.

Lemma apply_op_sound env op w : sound (db w) → sound (db (apply_op env op w)).
Proof.
  intros Hw. destruct (caller op) as [uid|] eqn:Hc.
  - eapply (change_sound uid); [done|].
    apply apply_op_change; [apply Hw|done].
  - destruct op; try done. by apply registerUser_sound.
Qed.

Lemma run_ops_sound ops w : sound (db w) → sound (db (run_ops ops w)).
Proof.
  revert w. induction ops as [|[env op] ops IH]; intros w Hw; [done|].
  apply IH. by apply apply_op_sound.
Qed.

Lemma reachable_sound w : reachable w → sound (db w).
Proof. intros [ops <-]. apply run_ops_sound, sound_initial. Qed.

(** ** An id printed in decimal is read back by parseInt *)

Lemma pretty_N_char_val x :
  (x < 10)%N →
  digit_val (pretty_N_char x) = Some (Z.of_N x)
  ∧ (48 ≤ code (pretty_N_char x) ≤ 57)%N
  ∧ ((0 < x)%N → (49 ≤ code (pretty_N_char x))%N).
Proof.
  intros Hx.
  assert (x = 0 ∨ x = 1 ∨ x = 2 ∨ x = 3 ∨ x = 4 ∨ x = 5 ∨ x = 6 ∨ x = 7
          ∨ x = 8 ∨ x = 9)%N as Hcases by lia.
  repeat (destruct Hcases as [->|Hcases]); try subst x;
    (split; [reflexivity|]; split; [by vm_compute|]);
    intros H; (by vm_compute) || lia.
Qed.

Lemma pretty_N_go_digits x :
  (0 < x)%N →
  ∃ k, ∀ s acc,
    digits 10 (pretty_N_go x s) acc
    = digits 10 s (Some (k * default 0 acc + Z.of_N x)).
Proof.
  induction (N.lt_wf_0 x) as [x _ IH]. intros Hx.
  assert (x `mod` 10 < 10)%N as Hmod by (apply N.mod_lt; lia).
  destruct (pretty_N_char_val _ Hmod) as (Hval & _ & _).
  pose proof (N.div_mod x 10 ltac:(lia)) as Hdm.
  destruct (decide (0 < x `div` 10)%N) as [Hd|Hd].
  - destruct (IH (x `div` 10)%N) as [k Hk]; [by apply N.div_lt|done|].
    exists (10 * k). intros s acc. rewrite pretty_N_go_step by done.
    rewrite Hk. cbn [digits]. rewrite Hval. cbn [default].
    replace (Z.of_N (x `mod` 10) <? 10) with true by (symmetry; apply Z.ltb_lt; lia).
    f_equal. f_equal. unfold id. lia.
  - apply N.nlt_ge, N.le_0_r in Hd. exists 10. intros s acc.
    rewrite pretty_N_go_step by done. rewrite Hd, pretty_N_go_0.
    cbn [digits]. rewrite Hval.
    replace (Z.of_N (x `mod` 10) <? 10) with true by (symmetry; apply Z.ltb_lt; lia).
    f_equal. f_equal. unfold id. lia.
Qed.

Lemma pretty_N_go_leading x s :
  (0 < x)%N →
  ∃ c r, pretty_N_go x s = String c r ∧ (49 ≤ code c ≤ 57)%N.
Proof.
  revert s. induction (N.lt_wf_0 x) as [x _ IH]. intros s Hx.
  rewrite pretty_N_go_step by done.
  destruct (decide (0 < x `div` 10)%N) as [Hd|Hd].
  - apply IH; [by apply N.div_lt|done].
  - apply N.nlt_ge, N.le_0_r in Hd. rewrite Hd, pretty_N_go_0.
    assert (x `mod` 10 < 10)%N as Hmod by (apply N.mod_lt; lia).
    destruct (pretty_N_char_val _ Hmod) as (_ & Hhi & Hlo).
    pose proof (N.div_mod x 10 ltac:(lia)) as Hdm.
    eexists _, _. split; [done|]. split; [apply Hlo|apply Hhi]. lia.
Qed.

(** No white space is skipped before a digit or a sign. *)
Lemma trimStart_numeral c r :
  (45 ≤ code c ≤ 57)%N → trimStart (String c r) = String c r.
Proof.
  intros Hc. cbn [trimStart].
  assert (ws1 c = false) as ->.
  { unfold ws1. apply orb_false_iff. split.
    - apply andb_false_iff. right. apply N.leb_gt. lia.
    - apply N.eqb_neq. lia. }
  destruct r as [|b [|c' r3]]; try done.
  - assert (ws2 c b = false) as ->; [|done].
    unfold ws2. apply andb_false_iff. left. apply N.eqb_neq. lia.
  - assert (ws2 c b = false) as ->.
    { unfold ws2. apply andb_false_iff. left. apply N.eqb_neq. lia. }
    assert (ws3 c b c' = false) as ->; [|done].
    unfold ws3.
    assert ((code c =? 225)%N = false) as -> by (apply N.eqb_neq; lia).
    assert ((code c =? 226)%N = false) as -> by (apply N.eqb_neq; lia).
    assert ((code c =? 227)%N = false) as -> by (apply N.eqb_neq; lia).
    assert ((code c =? 239)%N = false) as -> by (apply N.eqb_neq; lia).
    done.
Qed.

Lemma digits_positive p :
  ∃ c r, pretty_N_go (N.pos p) "" = String c r ∧ (49 ≤ code c ≤ 57)%N
  ∧ digits 10 (String c r) None = Some (Z.pos p).
Proof.
  destruct (pretty_N_go_leading (N.pos p) "") as (c & r & E & Hc); [lia|].
  destruct (pretty_N_go_digits (N.pos p)) as [k Hk]; [lia|].
  exists c, r. split; [done|]. split; [done|].
  rewrite <- E, Hk. cbn. f_equal. lia.
Qed.

Lemma parseInt_decimal (n : Z) : parseInt (JStr (pretty n)) = Some n.
Proof.
  unfold parseInt. cbn [ToString]. destruct n as [|p|p].
  - reflexivity.
  - unfold pretty, pretty_Z, pretty, pretty_positive, pretty, pretty_N.
    rewrite decide_False by done.
    destruct (digits_positive p) as (c & r & -> & Hc & Hd).
    rewrite trimStart_numeral by lia. unfold split_sign.
    assert ((code c =? 45)%N = false) as -> by (apply N.eqb_neq; lia).
    assert ((code c =? 43)%N = false) as -> by (apply N.eqb_neq; lia).
    assert (split_radix (String c r) = (10, String c r)) as ->.
    { unfold split_radix. destruct r; [done|].
      assert ((code c =? 48)%N = false) as -> by (apply N.eqb_neq; lia). done. }
    rewrite Hd. cbn. f_equal.
  - unfold pretty, pretty_Z, pretty, pretty_positive, pretty, pretty_N.
    rewrite decide_False by done.
    destruct (digits_positive p) as (c & r & -> & Hc & Hd).
    change ("-" +:+ String c r) with (String "-" (String c r)).
    rewrite trimStart_numeral by (vm_compute; split; discriminate).
    cbn [split_sign]. change (code "-" =? 45)%N with true. cbn iota.
    assert (split_radix (String c r) = (10, String c r)) as ->.
    { unfold split_radix. destruct r; [done|].
      assert ((code c =? 48)%N = false) as -> by (apply N.eqb_neq; lia). done. }
    rewrite Hd. cbn. f_equal.
Qed.

Lemma parseInt_JNum (n : Z) : parseInt (JNum n) = Some n.
Proof. apply parseInt_decimal. Qed.

(** ** Cancelling a request *)

Lemma deleteRequest_accepted env uid id w rid r :
  parseInt (JStr id) = Some rid → solicitudes (db w) !! rid = Some r →
  sol_usuarioId r = uid → sol_estado r = "Pendiente" →
  deleteRequest env uid id w
  = (reply 200 true "Solicitud cancelada correctamente",
     {| db := set_solicitudes (delete rid) (db w); outbox := outbox w |}).
Proof.
  intros Hid Hr Hown Hest.
  unfold deleteRequest, try_catch, deleteRequest_body.
  destruct w as [d o]. cbn in Hr. rewrite Hid.
  cbn [run exec query db outbox]. rewrite Hr.
  cbn [fmap option_fmap option_map run fst snd].
  rewrite decide_False by (by intros ?).
  rewrite decide_False by (by intros ?).
  cbn [run exec query db outbox]. unfold solicitud_delete. by rewrite Hr.
Qed.

Lemma deleteRequest_not_pending env uid id w rid r :
  parseInt (JStr id) = Some rid → solicitudes (db w) !! rid = Some r →
  sol_usuarioId r = uid → sol_estado r ≠ "Pendiente" →
  deleteRequest env uid id w
  = (reply 400 false "Solo se pueden cancelar solicitudes pendientes", w).
Proof.
  intros Hid Hr Hown Hest.
  unfold deleteRequest, try_catch, deleteRequest_body.
  destruct w as [d o]. cbn in Hr. rewrite Hid.
  cbn [run exec query db outbox]. rewrite Hr.
  cbn [fmap option_fmap option_map run fst snd].
  rewrite decide_False by (by intros ?). by rewrite decide_True.
Qed.

(** X2. deleteRequest checks, in this order: the id is a number (else 400)
    and then, for an id that parses to a safe integer, the request exists
    (else 404), it is the caller's (else 403, whatever its state), it is
    "Pendiente" (else 400).  Every refusal leaves the world as it was;
    otherwise the answer is 200, that row and no other is removed, and no
    mail is sent. *)
Theorem cancel_checks_in_order (env : Env) (userId : Z) (id : string)
    (w : World) :
  let answer := deleteRequest env userId id w in
  (parseInt (JStr id) = None →
   answer = (reply 400 false "ID de solicitud inválido", w))
  ∧ ∀ rid, parseInt (JStr id) = Some rid → isSafeInteger rid →
      (solicitudes (db w) !! rid = None →
       answer = (reply 404 false "Solicitud no encontrada", w))
      ∧ ∀ r, solicitudes (db w) !! rid = Some r →
          (sol_usuarioId r ≠ userId →
           answer = (reply 403 false
                       "No tienes permiso para cancelar esta solicitud", w))
          ∧ (sol_usuarioId r = userId → sol_estado r ≠ "Pendiente" →
             answer = (reply 400 false
                         "Solo se pueden cancelar solicitudes pendientes", w))
          ∧ (sol_usuarioId r = userId → sol_estado r = "Pendiente" →
             answer = (reply 200 true "Solicitud cancelada correctamente",
                       {| db := set_solicitudes (delete rid) (db w);
                          outbox := outbox w |})).
Proof.
  cbn zeta. unfold deleteRequest, try_catch, deleteRequest_body.
  destruct w as [d o]. split; [by intros ->|].
  intros rid -> _. cbn [run exec query db outbox]. split; [by intros ->|].
  intros r Hr. cbn in Hr. rewrite Hr.
  cbn [fmap option_fmap option_map run fst snd].
  split; [|split].
  - intros Hne. by rewrite decide_True.
  - intros Hown Hest. rewrite decide_False by (by intros ?).
    by rewrite decide_True.
  - intros Hown Hest. rewrite decide_False by (by intros ?).
    rewrite decide_False by (by intros ?).
    cbn [run exec query db outbox]. unfold solicitud_delete.
    by rewrite Hr.
Qed.

Lemma cancel_checks_in_order_witness :
  deleteRequest Sample.env 3 "2" Sample.two_pending
  = (reply 200 true "Solicitud cancelada correctamente",
     {| db := set_solicitudes (delete 2) (db Sample.two_pending);
        outbox := outbox Sample.two_pending |})
  ∧ deleteRequest Sample.env 2 "2" Sample.approved
    = (reply 403 false "No tienes permiso para cancelar esta solicitud",
       Sample.approved)
  ∧ deleteRequest Sample.env 2 "1" Sample.approved
    = (reply 400 false "Solo se pueden cancelar solicitudes pendientes",
       Sample.approved).
Proof.
  pose proof (proj2 (cancel_checks_in_order Sample.env 3 "2" Sample.two_pending)
                2 eq_refl ltac:(by vm_compute)) as [_ H1].
  pose proof (proj2 (cancel_checks_in_order Sample.env 2 "2" Sample.approved)
                2 eq_refl ltac:(by vm_compute)) as [_ H2].
  pose proof (proj2 (cancel_checks_in_order Sample.env 2 "1" Sample.approved)
                1 eq_refl ltac:(by vm_compute)) as [_ H3].
  split; [|split].
  - apply (H1 (created 3 1 "Tengo un patio grande")); reflexivity.
  - apply (H2 (set_estado "Rechazada" (created 3 1 "Tengo un patio grande")));
      [reflexivity|]. intros [=].
  - apply (H3 (set_estado "Aprobada" (created 2 1 "Me gustaría adoptar a Firulais")));
      [reflexivity..|]. intros [=].
Defined.

(** X3. Sending a request and cancelling it under the id that was returned,
    written in decimal in the route, gives back the tables as they were;
    only the sequence of Solicitud has moved, so that sending the request
    again is accepted and gets the next id, not the cancelled one. *)
Theorem submit_then_cancel (env : Env) (userId : Z) (publicacionId mensaje : JsVal)
    (w : World) :
  reachable w →
  status (createRequest env userId publicacionId mensaje w).1 = 201 →
  let rid := seq_solicitud (db w) + 1 in
  let w1 := (createRequest env userId publicacionId mensaje w).2 in
  let w2 := (deleteRequest env userId (pretty rid) w1).2 in
  ∃ pid texto,
    (createRequest env userId publicacionId mensaje w).1
    = {| status := 201;
         body := JsonObj
           [("success", JsonBool true);
            ("message", JsonStr "Solicitud enviada correctamente");
            ("data", solicitud_json (rid, created userId pid texto))] |}
    ∧ (deleteRequest env userId (pretty rid) w1).1
      = reply 200 true "Solicitud cancelada correctamente"
    ∧ solicitudes (db w2) = solicitudes (db w)
    ∧ publicaciones (db w2) = publicaciones (db w)
    ∧ mascotas (db w2) = mascotas (db w)
    ∧ usuarios (db w2) = usuarios (db w)
    ∧ outbox w2 = outbox w
    ∧ seq_solicitud (db w2) = rid
    ∧ (createRequest env userId publicacionId mensaje w2).1
      = {| status := 201;
           body := JsonObj
             [("success", JsonBool true);
              ("message", JsonStr "Solicitud enviada correctamente");
              ("data", solicitud_json (rid + 1, created userId pid texto))] |}.
Proof.
  intros Hreach H201. cbn zeta.
  pose proof (reachable_sound w Hreach) as Hsound.
  pose proof (fresh_solicitud (db w) Hsound) as Hfresh.
  destruct (createRequest_cases env userId publicacionId mensaje w)
    as [[Hno _]|(pid & p & texto & Hid & Hv & -> & Htexto & Hp & Hd & Hown
                 & Ha & Hu & Hans & Hw1)]; [done|].
  exists pid, texto. rewrite Hans, Hw1. split; [done|].
  rewrite (deleteRequest_accepted env userId _ _ (seq_solicitud (db w) + 1)
             (created userId pid texto) (parseInt_decimal _))
    by (done || apply lookup_insert_eq).
  cbn [fst snd db outbox].
  cbn [solicitudes publicaciones mascotas usuarios seq_solicitud
       set_solicitudes bump_seq_solicitud].
  rewrite delete_insert_eq, delete_id by done.
  do 7 (split; [done|]).
  assert (truthy (JStr texto) = true) as Hm.
  { cbn. by destruct (String.eqb_spec texto ""). }
  match goal with
  | |- context [createRequest _ _ _ _ ?w2] =>
      rewrite (createRequest_created env userId publicacionId (JStr texto) w2
                 pid Hid Hv Hm p Hp Hd Hown texto); try done
  end.
  cbn [db solicitudes set_solicitudes bump_seq_solicitud].
  by rewrite delete_insert_eq, delete_id.
Qed.

Lemma submit_then_cancel_witness :
  let w1 := (createRequest Sample.env 2 (JNum 1) (JStr "Me gustaría adoptar")
               Sample.published).2 in
  let w2 := (deleteRequest Sample.env 2 "1" w1).2 in
  solicitudes (db w2) = solicitudes (db Sample.published)
  ∧ seq_solicitud (db w2) = 1.
Proof.
  assert (reachable Sample.published) as Hr.
  { exists Sample.published_ops. by vm_compute. }
  destruct (submit_then_cancel Sample.env 2 (JNum 1)
              (JStr "Me gustaría adoptar") Sample.published Hr eq_refl)
    as (pid & texto & _ & _ & H1 & _ & _ & _ & _ & H2 & _).
  split; [exact H1|exact H2].
Defined.

(** ** Rejecting a request, and putting it back to pending *)

(** X4. A change of a request that is not approved to "Rechazada" or to
    "Pendiente" (from the other of the two) by the owner of the publication
    rewrites the estado of that row and nothing else: the publication keeps
    its estado and the other requests theirs, whatever they are.  One
    notification goes to the requester; when the mailer rejects it the
    answer is 500 and the row stays changed. *)
Theorem rejection_touches_one_row (env : Env) (w : World) (userId : Z)
    (id : string) (rid : Z) (r : Solicitud) (u : Usuario) (p : Publicacion)
    (nuevo : string) :
  parseInt (JStr id) = Some rid →
  solicitudes (db w) !! rid = Some r →
  usuarios (db w) !! sol_usuarioId r = Some u →
  publicaciones (db w) !! sol_publicacionId r = Some p →
  pub_usuarioId p = userId →
  sol_estado r ≠ "Aprobada" →
  nuevo = "Rechazada" ∨ nuevo = "Pendiente" →
  nuevo ≠ sol_estado r →
  let answer := (actualizarEstadoSolicitud env userId id (JStr nuevo) w).1 in
  let w' := (actualizarEstadoSolicitud env userId id (JStr nuevo) w).2 in
  solicitudes (db w') = <[rid := set_estado nuevo r]> (solicitudes (db w))
  ∧ publicaciones (db w') = publicaciones (db w)
  ∧ mascotas (db w') = mascotas (db w)
  ∧ usuarios (db w') = usuarios (db w)
  ∧ outbox w' = (outbox w ++ [notificacion (found w rid r u p) nuevo])%list
  ∧ mail_to (notificacion (found w rid r u p) nuevo) = usr_email u
  ∧ answer
    = after_mail env (notificacion (found w rid r u p) nuevo)
        (actualizada nuevo (solicitud_json (rid, set_estado nuevo r))).
Proof.
  intros Hid Hr Hu Hp Hown Ha Hnuevo Hne. cbn zeta.
  by rewrite (retarget_run env w userId id rid r u p).
Qed.

Lemma rejection_touches_one_row_witness :
  let w' := (actualizarEstadoSolicitud Sample.env 1 "2" (JStr "Pendiente")
               Sample.approved).2 in
  sol_estado <$> solicitudes (db w') !! 2 = Some "Pendiente"
  ∧ pub_estado <$> publicaciones (db w') !! 1 = Some "no disponible".
Proof.
  destruct (rejection_touches_one_row Sample.env Sample.approved 1 "2" 2
              (set_estado "Rechazada" (created 3 1 "Tengo un patio grande"))
              (Sample.usuario "Caro")
              (Build_Publicacion "data:image/png;base64,iVBORw0KGgo="
                                 "no disponible" 1) "Pendiente"
              eq_refl eq_refl eq_refl eq_refl eq_refl
              ltac:(intros [=]) ltac:(by right) ltac:(intros [=]))
    as (H1 & H2 & _).
  cbn zeta. rewrite H1, H2. split; reflexivity.
Defined.

(** X5. A status change asked by anyone but the owner of the publication
    (the requester included) is answered 403 and changes nothing, whatever
    the state of the request and the permitted state asked for. *)
Theorem only_the_owner_changes_the_status (env : Env) (w : World) (userId : Z)
    (id : string) (nuevoEstado : JsVal) (rid : Z) (r : Solicitud)
    (u : Usuario) (p : Publicacion) :
  parseInt (JStr id) = Some rid →
  includes estadosPermitidos nuevoEstado = true →
  solicitudes (db w) !! rid = Some r →
  usuarios (db w) !! sol_usuarioId r = Some u →
  publicaciones (db w) !! sol_publicacionId r = Some p →
  pub_usuarioId p ≠ userId →
  actualizarEstadoSolicitud env userId id nuevoEstado w
  = (reply 403 false "No autorizado para modificar esta solicitud", w).
Proof.
  intros Hid Hin Hr Hu Hp Hown.
  unfold actualizarEstadoSolicitud, try_catch, actualizarEstadoSolicitud_body.
  rewrite Hid, Hin. cbn [negb run].
  rewrite (exec_find_include_Some env w rid r u p) by done.
  cbn [si_publicacion si_row]. by rewrite decide_True.
Qed.

Lemma only_the_owner_changes_the_status_witness :
  actualizarEstadoSolicitud Sample.env 2 "1" (JStr "Aprobada") Sample.two_pending
  = (reply 403 false "No autorizado para modificar esta solicitud",
     Sample.two_pending).
Proof.
  apply (only_the_owner_changes_the_status Sample.env Sample.two_pending 2 "1"
           (JStr "Aprobada") 1 (created 2 1 "Me gustaría adoptar a Firulais")
           (Sample.usuario "Beto")
           (Build_Publicacion "data:image/png;base64,iVBORw0KGgo="
                              "disponible" 1)); try reflexivity.
  intros [=].
Defined.

(** ** Who is sent mail *)

(** X6. Among the calls of the lifecycle, mail is sent by a status change
    that changes the state of a request, and by nothing else: publishing,
    editing or deleting a publication, sending or cancelling a request and
    registering leave the outbox as it was (the owner is not told of a new
    request, nor the requesters of a deleted publication).  A status change
    adds at most one message; it goes to the requester of the request and
    names the new state and the pet of the publication, by its name or, when
    the name is empty, as "la mascota". *)
Theorem only_status_changes_send_mail (env : Env) (op : Op) (w : World) :
  reachable w →
  let w' := apply_op env op w in
  outbox w' = outbox w
  ∨ ∃ uid id e rid r u k m,
      op = OpActualizarEstadoSolicitud uid id (JStr e)
      ∧ parseInt (JStr id) = Some rid
      ∧ solicitudes (db w) !! rid = Some r ∧ e ≠ sol_estado r
      ∧ usuarios (db w) !! sol_usuarioId r = Some u
      ∧ mascotas_de (sol_publicacionId r) (mascotas (db w)) = [(k, m)]
      ∧ outbox w'
        = (outbox w ++ [{| mail_to := usr_email u;
                           mail_nombreSolicitante := usr_nombre u;
                           mail_nombreAnimal :=
                             if String.eqb (mas_nombre m) ""
                             then "la mascota" else mas_nombre m;
                           mail_nuevoEstado := e |}])%list.
Proof.
  intros Hreach. cbn zeta.
  destruct op as [u|uid b|uid id b|uid id|uid v m|uid id|uid id nuevo];
    cbn [apply_op].
  - left. unfold registerUser. by case_decide.
  - left. apply createPublication_change.
  - left. destruct (updatePublication_cases env uid id b w)
      as [[_ ->]|(? & ? & ? & _ & _ & _ & _ & _ & _ & _ & Ho & _)]; done.
  - left. apply deletePublication_change.
  - left. apply createRequest_change.
  - left. apply deleteRequest_change.
  - destruct (actualizarEstadoSolicitud_cases env uid id nuevo w)
      as [->|(rid & r & u & p & e & Hid & -> & Hr & Hu & Hp & Hown & Ha & Hne
              & Ho & _)]; [by left|].
    right.
    destruct (reachable_sound w Hreach) as (_ & _ & _ & _ & _ & Hone & _).
    destruct (Hone _ _ Hp) as (k & m & Hpet & _).
    exists uid, id, e, rid, r, u, k, m. do 6 (split; [done|]).
    rewrite Ho. do 2 f_equal. unfold notificacion, found, nombreAnimal.
    cbn [si_usuario si_Mascota db]. by rewrite Hpet.
Qed.

Lemma only_status_changes_send_mail_witness :
  reachable Sample.two_pending
  ∧ mail_nombreAnimal
      <$> outbox (apply_op Sample.env
                    (OpActualizarEstadoSolicitud 1 "2" (JStr "Rechazada"))
                    Sample.two_pending)
    = ["Firulais"].
Proof.
  assert (reachable Sample.two_pending) as Hreach.
  { exists Sample.two_pending_ops. by vm_compute. }
  split; [exact Hreach|].
  destruct (only_status_changes_send_mail Sample.env
              (OpActualizarEstadoSolicitud 1 "2" (JStr "Rechazada"))
              Sample.two_pending Hreach)
    as [H|(uid & id & e & rid & r & u & k & m & Hop & Hid & Hr & _ & _ & Hpet
           & Ho)].
  - vm_compute in H. discriminate H.
  - injection Hop as <- <- <-. vm_compute in Hid. injection Hid as <-.
    vm_compute in Hr. injection Hr as <-. vm_compute in Hpet.
    injection Hpet as <- <-. rewrite Ho. reflexivity.
Defined.

(** ** A call touches the rows of its caller *)

Lemma map_id_on {A} (f : A → A) (l : list A) :
  (∀ x, x ∈ l → f x = x) → map f l = l.
Proof.
  induction l as [|x l IH]; intros H; [done|]. cbn.
  rewrite H by (by left). rewrite IH; [done|]. intros y Hy. apply H. by right.
Qed.

(** X7. A call of one of the six controllers of publications and requests
    that write (createPublication, updatePublication, deletePublication,
    createRequest, deleteRequest, actualizarEstadoSolicitud), made in the
    name of a user, leaves alone what belongs to the others: the rows of
    Usuario; every publication of another user, with its pets; and every
    request that is neither the caller's own nor made for one of the
    caller's publications.  Nor does it create such rows. *)
Theorem a_call_touches_only_its_callers_rows (env : Env) (op : Op) (uid : Z)
    (w : World) :
  reachable w → caller op = Some uid →
  let d := db w in
  let d' := db (apply_op env op w) in
  usuarios d' = usuarios d
  ∧ (∀ pid p, pub_usuarioId p ≠ uid →
       (publicaciones d' !! pid = Some p ↔ publicaciones d !! pid = Some p)
       ∧ (publicaciones d !! pid = Some p →
          mascotas_de pid (mascotas d') = mascotas_de pid (mascotas d)))
  ∧ (∀ rid r p, sol_usuarioId r ≠ uid →
       publicaciones d !! sol_publicacionId r = Some p →
       pub_usuarioId p ≠ uid →
       (solicitudes d' !! rid = Some r ↔ solicitudes d !! rid = Some r)).
Proof.
  intros Hreach Hcaller. cbn zeta.
  pose proof (reachable_sound w Hreach) as Hsound.
  pose proof (fresh_publicacion _ Hsound) as Hfp.
  pose proof (fresh_solicitud _ Hsound) as Hfs.
  destruct Hsound as (_ & [_ _ _ Hmp Hk] & _).
  pose proof (apply_op_change env op w uid Hk Hcaller) as Hch.
  remember (db (apply_op env op w)) as d' eqn:Ed'. clear Ed'.
  remember (db w) as d eqn:Ed. clear Ed Hreach. revert Hch.
  intros [ |f m Hus Hvf Hvm Hmpid|pid0 p0 p' mid i old m Hpid Hown He Hh Hfind Hvm Hmpid
          |pid0 p0 p' m Hpid Hown He Hnone Hvm Hmpid|pid0 p0 Hpid Hown
          |pid0 p0 texto Hpid Hd Hown Hno Husr|rid0 r0 Hr Hown He
          |rid0 r0 p0 Hr Hpid Hown Ha|rid0 r0 p0 e Hr Hpid Hown Ha He].
  - done.
  - split; [done|]. split; [|done].
    cbn [publicaciones mascotas bump_seq_mascota set_mascotas
         bump_seq_publicacion set_publicaciones].
    intros pid p Hp. split.
    + rewrite lookup_insert_Some. split.
      * intros [[<- <-]|[_ H]]; [done|done].
      * intros H. right. split; [congruence|done].
    + intros H. rewrite mascotas_de_snoc, decide_False, app_nil_r; [done|].
      congruence.
  - destruct He as (Hsame & _).
    assert ((mid, old) ∈ mascotas d ∧ mas_publicacionId old = pid0)
      as [Hold Hpold].
    { by apply head_Some_elem_of, list_elem_of_filter in Hh as [? ?]. }
    split; [done|]. split; [|done].
    cbn [publicaciones mascotas set_mascotas set_publicaciones].
    intros pid p Hp.
    assert (publicaciones d !! pid = Some p → pid ≠ pid0) as Hne.
    { intros H ->. congruence. }
    split.
    + rewrite lookup_insert_Some. split.
      * intros [[<- <-]|[_ H]]; [congruence|done].
      * intros H. right. split; [|done]. intros <-. by apply Hne.
    + intros H. rewrite (mascotas_de_replace _ mid old m) by done.
      apply map_id_on. intros x [Hx Hin]%list_elem_of_filter.
      rewrite decide_False; [done|]. intros Hkey.
      rewrite (row_of_key _ mid old Hk Hold x Hin Hkey) in Hx. cbn in Hx.
      apply (Hne H). congruence.
  - destruct He as (Hsame & _).
    split; [done|]. split; [|done].
    cbn [publicaciones mascotas bump_seq_mascota set_mascotas
         set_publicaciones].
    intros pid p Hp.
    assert (publicaciones d !! pid = Some p → pid ≠ pid0) as Hne.
    { intros H ->. congruence. }
    split.
    + rewrite lookup_insert_Some. split.
      * intros [[<- <-]|[_ H]]; [congruence|done].
      * intros H. right. split; [|done]. intros <-. by apply Hne.
    + intros H. rewrite mascotas_de_snoc, decide_False, app_nil_r; [done|].
      rewrite Hmpid. intros <-. by apply Hne.
  - unfold publicacion_delete. rewrite Hpid.
    cbn [snd usuarios publicaciones mascotas solicitudes set_solicitudes
         set_mascotas set_publicaciones].
    split; [done|]. split.
    + intros pid p Hp.
      assert (publicaciones d !! pid = Some p → pid ≠ pid0) as Hne.
      { intros H ->. congruence. }
      split.
      * rewrite lookup_delete_Some. split; [by intros [_ ?]|].
        intros H. split; [|done]. intros <-. by apply Hne.
      * intros H. by rewrite mascotas_de_cascade, decide_False by auto.
    + intros rid r p Hr Hp Hp'. rewrite map_lookup_filter_Some. cbn.
      split; [by intros [? _]|]. intros H. split; [done|]. congruence.
  - cbn [usuarios publicaciones mascotas solicitudes set_solicitudes
         bump_seq_solicitud].
    split; [done|]. split; [done|].
    intros rid r p Hr Hp Hp'. rewrite lookup_insert_Some. split.
    + intros [[<- <-]|[_ H]]; [done|done].
    + intros H. right. split; [congruence|done].
  - cbn [usuarios publicaciones mascotas solicitudes set_solicitudes].
    split; [done|]. split; [done|].
    intros rid r p Hr' Hp Hp'. rewrite lookup_delete_Some. split.
    + by intros [_ ?].
    + intros H. split; [congruence|done].
  - split; [done|]. split.
    + rewrite approve_db_publicaciones.
      change (mascotas (approve_db rid0 r0 p0 d)) with (mascotas d).
      intros pid p Hp. split; [|done].
      rewrite lookup_insert_Some. split.
      * intros [[<- <-]|[_ H]]; [done|done].
      * intros H. right. split; [congruence|done].
    + intros rid r p Hr' Hp Hp'.
      assert (sol_publicacionId r ≠ sol_publicacionId r0) as Hne
        by congruence.
      destruct (decide (rid = rid0)) as [->|Hrid].
      * rewrite approve_db_target. split; [|congruence].
        intros [= <-]. done.
      * rewrite approve_db_sibling by done.
        destruct (solicitudes d !! rid) as [s|]; [|done]. cbn. split.
        -- case_decide as Hsel; [|done]. intros [= <-]. by destruct Hsel.
        -- intros [= ->]. rewrite decide_False; [done|]. by intros [? _].
  - cbn [usuarios publicaciones mascotas solicitudes set_solicitudes].
    split; [done|]. split; [done|].
    intros rid r p Hr' Hp Hp'.
    assert (sol_publicacionId r ≠ sol_publicacionId r0) as Hne by congruence.
    rewrite lookup_insert_Some. split.
    + intros [[<- <-]|[_ H]]; [done|done].
    + intros H. right. split; [congruence|done].
Qed.

Lemma a_call_touches_only_its_callers_rows_witness :
  reachable Sample.two_pending
  ∧ solicitudes
      (db (apply_op Sample.env (OpDeleteRequest 2 "2") Sample.two_pending)) !! 2
    = Some (created 3 1 "Tengo un patio grande").
Proof.
  assert (reachable Sample.two_pending) as Hreach.
  { exists Sample.two_pending_ops. by vm_compute. }
  split; [exact Hreach|].
  destruct (a_call_touches_only_its_callers_rows Sample.env
              (OpDeleteRequest 2 "2") 2 Sample.two_pending Hreach eq_refl)
    as (_ & _ & H).
  apply (H 2 (created 3 1 "Tengo un patio grande")
           (Build_Publicacion "data:image/png;base64,iVBORw0KGgo="
                              "disponible" 1)); try reflexivity;
    intros [=].
Defined.

(** ** The listings *)

Lemma elem_of_rows {A} (m : gmap Z A) kr :
  kr ∈ rows m ↔ m !! kr.1 = Some kr.2.
Proof.
  unfold rows. rewrite merge_sort_Permutation. destruct kr as [k r].
  apply elem_of_map_to_list.
Qed.

Lemma elem_of_solicitudes_recibidas uid d kr :
  kr ∈ solicitudes_recibidas uid d ↔
  solicitudes d !! kr.1 = Some kr.2
  ∧ pub_usuarioId <$> publicaciones d !! sol_publicacionId kr.2 = Some uid.
Proof.
  unfold solicitudes_recibidas.
  rewrite list_elem_of_filter, merge_sort_Permutation. destruct kr as [k r].
  rewrite elem_of_map_to_list. naive_solver.
Qed.

(** A list of reads none of which fails gives the rows that were read. *)
Lemma collect_ok {A B} (f : A → Result (option B)) l :
  (∀ x, x ∈ l → ∃ y, f x = Ok (Some y)) →
  ∃ l', collect (map f l) = Ok l'
        ∧ ∀ y, y ∈ l' ↔ ∃ x, x ∈ l ∧ f x = Ok (Some y).
Proof.
  induction l as [|x l IH]; intros H.
  - exists []. split; [done|]. intros y. rewrite elem_of_nil.
    split; [done|]. by intros (? & ?%elem_of_nil & _).
  - destruct (H x) as (y & Hy); [by left|].
    destruct IH as (l' & Hl' & HF); [intros z Hz; apply H; by right|].
    exists (y :: l'). cbn. rewrite Hy, Hl'. split; [done|].
    intros z. rewrite elem_of_cons, HF. split.
    + intros [->|(x' & Hx' & Hz)]; [exists x|exists x']; split; try done;
        [by left|by right].
    + intros (x' & [->|Hx']%elem_of_cons & Hz); [left; congruence|].
      right. by exists x'.
Qed.

Lemma all_ok_ok {A B} (f : A → Result B) l :
  (∀ x, x ∈ l → ∃ y, f x = Ok y) →
  ∃ l', all_ok (map f l) = Ok l'
        ∧ ∀ y, y ∈ l' ↔ ∃ x, x ∈ l ∧ f x = Ok y.
Proof.
  induction l as [|x l IH]; intros H.
  - exists []. split; [done|]. intros y. rewrite elem_of_nil.
    split; [done|]. by intros (? & ?%elem_of_nil & _).
  - destruct (H x) as (y & Hy); [by left|].
    destruct IH as (l' & Hl' & HF); [intros z Hz; apply H; by right|].
    exists (y :: l'). cbn. rewrite Hy, Hl'. split; [done|].
    intros z. rewrite elem_of_cons, HF. split.
    + intros [->|(x' & Hx' & Hz)]; [exists x|exists x']; split; try done;
        [by left|by right].
    + intros (x' & [->|Hx']%elem_of_cons & Hz); [left; congruence|].
      right. by exists x'.
Qed.

(** X8. In a state reached through the API, the owner's list of received
    requests is answered 200 and holds exactly the requests made for the
    owner's publications, each with its requester's name, the name of the
    pet, its state and its message; the read never fails and no entry is
    shown "Sin nombre". *)
Theorem received_requests_are_those_of_own_publications (env : Env)
    (userId : Z) (w : World) :
  reachable w →
  ∃ entries,
    getSolicitudesRecibidas env userId w
    = ({| status := 200;
          body := match entries with
                  | [] => JsonObj
                      [("mensaje",
                        JsonStr "No hay solicitudes para tus publicaciones.");
                       ("solicitudes", JsonArr [])]
                  | _ => JsonObj [("solicitudes", JsonArr entries)]
                  end |}, w)
    ∧ ∀ j, j ∈ entries ↔
        ∃ rid r u p k m,
          solicitudes (db w) !! rid = Some r
          ∧ publicaciones (db w) !! sol_publicacionId r = Some p
          ∧ pub_usuarioId p = userId
          ∧ usuarios (db w) !! sol_usuarioId r = Some u
          ∧ mascotas_de (sol_publicacionId r) (mascotas (db w)) = [(k, m)]
          ∧ j = shown rid (sol_usuarioId r, usr_nombre u, usr_apellido u)
                  (mas_nombre m) (sol_estado r) (sol_mensaje r).
Proof.
  intros Hreach.
  destruct (reachable_sound w Hreach)
    as (_ & [_ Hsu Hsp _ _] & _ & _ & _ & Hone & _).
  destruct w as [d o]. cbn [db] in *.
  assert (∀ kr, kr ∈ solicitudes_recibidas userId d →
            ∃ y, solicitud_find_include kr.1 d = Ok (Some y)) as Hall.
  { intros [rid r] [Hr _]%elem_of_solicitudes_recibidas. cbn in *.
    unfold solicitud_find_include. rewrite Hr.
    destruct (Hsu _ _ Hr) as [u ->], (Hsp _ _ Hr) as [p ->]. eauto. }
  destruct (collect_ok _ _ Hall) as (l' & Hl' & Hin).
  exists (map recibida l'). split.
  - unfold getSolicitudesRecibidas, try_catch, getSolicitudesRecibidas_body.
    cbn [run exec query db outbox]. unfold solicitud_find_many.
    rewrite Hl'. cbn [run]. by destruct l'.
  - intros j. rewrite list_elem_of_fmap. split.
    + intros (y & -> & [[rid r] [Hkr Hy]]%Hin).
      apply elem_of_solicitudes_recibidas in Hkr as [Hr Hown]. cbn in *.
      unfold solicitud_find_include in Hy. rewrite Hr in Hy.
      destruct (Hsu _ _ Hr) as [u Hu], (Hsp _ _ Hr) as [p Hp].
      rewrite Hu, Hp in Hy. injection Hy as <-.
      destruct (Hone _ _ Hp) as (k & m & Hpet & _).
      exists rid, r, u, p, k, m. rewrite Hp in Hown.
      repeat split; try done; [by injection Hown|].
      unfold recibida, shown. cbn. by rewrite Hpet.
    + intros (rid & r & u & p & k & m & Hr & Hp & Hown & Hu & Hpet & ->).
      eexists. split; [|apply Hin; exists (rid, r); split].
      2: { apply elem_of_solicitudes_recibidas. cbn. rewrite Hp. cbn.
           by rewrite Hown. }
      2: { cbn. unfold solicitud_find_include. by rewrite Hr, Hu, Hp. }
      unfold recibida, shown. cbn. by rewrite Hpet.
Qed.

Import RequestListings PublicationListings.

Lemma received_requests_are_those_of_own_publications_witness :
  reachable Sample.approved
  ∧ status (getSolicitudesRecibidas Sample.env 1 Sample.approved).1 = 200.
Proof.
  assert (reachable Sample.approved) as Hreach.
  { exists Sample.approved_ops. by vm_compute. }
  split; [exact Hreach|].
  destruct (received_requests_are_those_of_own_publications Sample.env 1
              Sample.approved Hreach) as (entries & -> & _).
  reflexivity.
Defined.

(** X9. In a state reached through the API, the list of the requests a
    user has sent is answered 200 and holds exactly that user's requests.
    The cancel action is offered for the requests that are "Pendiente", and
    for those a cancellation under the listed id is accepted; for the
    others the action is null and a cancellation is refused with 400. *)
Theorem sent_requests_offer_cancel_when_pending (env : Env) (userId : Z)
    (w : World) :
  reachable w →
  ∃ entries,
    getSolicitudesEnviadas userId w
    = ({| status := 200;
          body := match entries with
                  | [] => JsonObj
                      [("mensaje",
                        JsonStr "No has enviado solicitudes de adopción.");
                       ("solicitudes", JsonArr [])]
                  | _ => JsonObj [("solicitudes", JsonArr entries)]
                  end |}, w)
    ∧ ∀ j, j ∈ entries ↔
        ∃ rid r k m cancelar,
          solicitudes (db w) !! rid = Some r ∧ sol_usuarioId r = userId
          ∧ mascotas_de (sol_publicacionId r) (mascotas (db w)) = [(k, m)]
          ∧ j = JsonObj
                  [("id", JsonNum rid); ("animal", JsonStr (mas_nombre m));
                   ("estado", JsonStr (sol_estado r));
                   ("mensaje", JsonStr (sol_mensaje r));
                   ("acciones",
                    JsonObj
                      [("cancelar", cancelar);
                       ("verDetalle",
                        JsonStr ("/api/publicaciones/"
                                 +:+ pretty (sol_publicacionId r)))])]
          ∧ (sol_estado r = "Pendiente"
             ∧ cancelar
               = JsonStr ("/api/solicitudes/" +:+ pretty rid +:+ "/cancelar")
             ∧ (deleteRequest env userId (pretty rid) w).1
               = reply 200 true "Solicitud cancelada correctamente"
             ∨ sol_estado r ≠ "Pendiente" ∧ cancelar = JsonNull
               ∧ deleteRequest env userId (pretty rid) w
                 = (reply 400 false
                      "Solo se pueden cancelar solicitudes pendientes", w)).
Proof.
  intros Hreach.
  destruct (reachable_sound w Hreach)
    as (_ & [_ _ Hsp _ _] & _ & _ & _ & Hone & _).
  assert (∀ kr, kr ∈ filter (λ kr, sol_usuarioId kr.2 = userId)
                       (rows (solicitudes (db w))) →
            ∃ y, with_publicacion (db w) kr = Ok y) as Hall.
  { intros [rid r] [_ Hr%elem_of_rows]%list_elem_of_filter. cbn in *.
    unfold with_publicacion. cbn. destruct (Hsp _ _ Hr) as [p ->]. eauto. }
  destruct (all_ok_ok _ _ Hall) as (l' & Hl' & Hin).
  assert (∀ rid r, solicitudes (db w) !! rid = Some r →
            sol_usuarioId r = userId →
            ∃ cancelar,
              (sol_estado r = "Pendiente"
               ∧ cancelar
                 = JsonStr ("/api/solicitudes/" +:+ pretty rid +:+ "/cancelar")
               ∧ (deleteRequest env userId (pretty rid) w).1
                 = reply 200 true "Solicitud cancelada correctamente"
               ∨ sol_estado r ≠ "Pendiente" ∧ cancelar = JsonNull
                 ∧ deleteRequest env userId (pretty rid) w
                   = (reply 400 false
                        "Solo se pueden cancelar solicitudes pendientes", w))
              ∧ (if decide (sol_estado r = "Pendiente")
                 then JsonStr ("/api/solicitudes/" +:+ pretty rid +:+ "/cancelar")
                 else JsonNull) = cancelar) as Hcancel.
  { intros rid r Hr Hown.
    destruct (decide (sol_estado r = "Pendiente")) as [He|He].
    - eexists. split; [left|done].
      by rewrite (deleteRequest_accepted env userId _ w rid r
                    (parseInt_decimal rid)).
    - eexists. split; [right|done].
      by rewrite (deleteRequest_not_pending env userId _ w rid r
                    (parseInt_decimal rid)). }
  exists (map enviada l'). split.
  - unfold getSolicitudesEnviadas, solicitud_find_many_usuario.
    rewrite Hl'. by destruct l'.
  - intros j. rewrite list_elem_of_fmap. split.
    + intros (y & -> & [[rid r] [[Hown Hr%elem_of_rows]%list_elem_of_filter Hy]]%Hin).
      cbn in *. unfold with_publicacion in Hy. cbn in Hy.
      destruct (Hsp _ _ Hr) as [p Hp]. rewrite Hp in Hy. injection Hy as <-.
      destruct (Hone _ _ Hp) as (k & m & Hpet & _).
      destruct (Hcancel rid r Hr Hown) as (cancelar & Hc & Hj).
      exists rid, r, k, m, cancelar. do 3 (split; [done|]). split; [|done].
      unfold enviada. cbn. by rewrite Hpet, Hj.
    + intros (rid & r & k & m & cancelar & Hr & Hown & Hpet & -> & Hc).
      destruct (Hsp _ _ Hr) as [p Hp].
      eexists. split; [|apply Hin; exists (rid, r); split].
      2: { apply list_elem_of_filter. split; [done|]. by apply elem_of_rows. }
      2: { unfold with_publicacion. cbn. by rewrite Hp. }
      unfold enviada. cbn. rewrite Hpet. cbn. do 6 f_equal.
      destruct Hc as [(He & -> & _)|(He & -> & _)].
      * by rewrite decide_True.
      * by rewrite decide_False.
Qed.

Lemma sent_requests_offer_cancel_when_pending_witness :
  reachable Sample.approved
  ∧ status (getSolicitudesEnviadas 3 Sample.approved).1 = 200.
Proof.
  assert (reachable Sample.approved) as Hreach.
  { exists Sample.approved_ops. by vm_compute. }
  split; [exact Hreach|].
  destruct (sent_requests_offer_cancel_when_pending Sample.env 3
              Sample.approved Hreach) as (entries & -> & _).
  reflexivity.
Defined.

Lemma elem_of_publicacion_find_many filtro d pub :
  pub ∈ publicacion_find_many filtro d ↔
  publicaciones d !! pi_id pub = Some (pi_row pub)
  ∧ pi_Mascota pub = mascotas_de (pi_id pub) (mascotas d)
  ∧ filtros filtro pub.
Proof.
  unfold publicacion_find_many.
  rewrite list_elem_of_filter, list_elem_of_fmap. split.
  - intros (Hf & [pid p] & -> & Hp%elem_of_rows). done.
  - intros (Hp & Hm & Hf). split; [done|].
    exists (pi_id pub, pi_row pub). split; [|by apply elem_of_rows].
    destruct pub. unfold with_Mascota. cbn in *. by rewrite Hm.
Qed.

(** X10. In a state reached through the API, the list of available
    publications is answered 200 and holds exactly the publications whose
    estado is "disponible" (those whose pet is of the given type, when a
    non-empty [tipo] is given), each with its photo and the name and type
    of its pet. *)
Theorem available_publications_are_listed (tipo : option string) (w : World) :
  reachable w →
  ∃ entries,
    getPublicacionesDisponibles tipo w
    = ({| status := 200;
          body := match entries with
                  | [] => JsonObj
                      [("publicaciones", JsonArr []);
                       ("message",
                        JsonStr "No hay animales disponibles para adopción en este momento")]
                  | _ => JsonObj [("publicaciones", JsonArr entries)]
                  end |}, w)
    ∧ ∀ j, j ∈ entries ↔
        ∃ pid p k m,
          publicaciones (db w) !! pid = Some p
          ∧ pub_estado p = "disponible"
          ∧ mascotas_de pid (mascotas (db w)) = [(k, m)]
          ∧ (∀ t, tipo = Some t → t ≠ "" → mas_tipo m = t)
          ∧ j = JsonObj
                  [("id", JsonNum pid); ("estado", JsonStr "disponible");
                   ("foto", JsonStr (pub_foto p));
                   ("mascota",
                    JsonObj [("nombre", JsonStr (mas_nombre m));
                             ("tipo", JsonStr (mas_tipo m))])].
Proof.
  intros Hreach.
  destruct (reachable_sound w Hreach) as (_ & _ & _ & _ & _ & Hone & _).
  set (filtro := match tipo with
                 | Some t => if String.eqb t "" then None else Some t
                 | None => None
                 end).
  exists (map disponible (publicacion_find_many filtro (db w))). split.
  - unfold getPublicacionesDisponibles. fold filtro.
    by destruct (publicacion_find_many filtro (db w)).
  - intros j. rewrite list_elem_of_fmap. split.
    + intros (pub & -> & (Hp & Hm & He & Hf)%elem_of_publicacion_find_many).
      destruct (Hone _ _ Hp) as (k & m & Hpet & _). rewrite Hpet in Hm.
      exists (pi_id pub), (pi_row pub), k, m. do 3 (split; [done|]). split.
      * intros t -> Ht. subst filtro. cbn in Hf.
        destruct (String.eqb_spec t ""); [done|]. rewrite Hm in Hf.
        by apply Exists_cons in Hf as [?|?%Exists_nil].
      * unfold disponible. by rewrite Hm, He.
    + intros (pid & p & k & m & Hp & He & Hpet & Ht & ->).
      exists {| pi_id := pid; pi_row := p; pi_Mascota := [(k, m)] |}.
      split; [unfold disponible; cbn; by rewrite He|].
      apply elem_of_publicacion_find_many. cbn. do 2 (split; [done|]).
      split; [done|]. subst filtro. destruct tipo as [t|]; [|done].
      destruct (String.eqb_spec t ""); [done|]. cbn.
      apply Exists_cons. left. cbn. by apply Ht.
Qed.

Lemma available_publications_are_listed_witness :
  reachable Sample.published
  ∧ status (getPublicacionesDisponibles (Some "Perro") Sample.published).1 = 200.
Proof.
  assert (reachable Sample.published) as Hreach.
  { exists Sample.published_ops. by vm_compute. }
  split; [exact Hreach|].
  destruct (available_publications_are_listed (Some "Perro") Sample.published
              Hreach) as (entries & -> & _).
  reflexivity.
Defined.

(** X11. Once a request is approved, the query of the available
    publications no longer returns its publication, whatever the filter,
    while it did return it before if it was "disponible". *)
Theorem approved_publication_is_no_longer_available (env : Env) (w : World)
    (userId : Z) (id : string) (rid : Z) (r : Solicitud) (u : Usuario)
    (p : Publicacion) :
  parseInt (JStr id) = Some rid →
  solicitudes (db w) !! rid = Some r →
  usuarios (db w) !! sol_usuarioId r = Some u →
  publicaciones (db w) !! sol_publicacionId r = Some p →
  pub_usuarioId p = userId →
  sol_estado r ≠ "Aprobada" →
  let w' := (actualizarEstadoSolicitud env userId id (JStr "Aprobada") w).2 in
  (∀ filtro pub, pub ∈ publicacion_find_many filtro (db w') →
     pi_id pub ≠ sol_publicacionId r)
  ∧ (pub_estado p = "disponible" →
     with_Mascota (db w) (sol_publicacionId r, p)
     ∈ publicacion_find_many None (db w)).
Proof.
  intros Hid Hr Hu Hp Hown Ha. cbn zeta.
  rewrite (approve_run env w userId id rid r u p) by done. cbn [snd db].
  split.
  - intros filtro pub (Hpub & _ & He & _)%elem_of_publicacion_find_many Heq.
    rewrite approve_db_publicaciones, Heq, lookup_insert_eq in Hpub.
    injection Hpub as Hpub. by rewrite <- Hpub in He.
  - intros He. by apply elem_of_publicacion_find_many.
Qed.

Lemma approved_publication_is_no_longer_available_witness :
  Forall (λ pub, pi_id pub ≠ 1)
    (publicacion_find_many None
       (db (actualizarEstadoSolicitud Sample.env 1 "1" (JStr "Aprobada")
              Sample.two_pending).2)).
Proof.
  apply Forall_forall. intros pub. revert pub.
  apply (approved_publication_is_no_longer_available Sample.env
           Sample.two_pending 1 "1" 1
           (created 2 1 "Me gustaría adoptar a Firulais")
           (Sample.usuario "Beto")
           (Build_Publicacion "data:image/png;base64,iVBORw0KGgo="
                              "disponible" 1));
    try reflexivity.
  intros [=].
Defined.

(** X12. In a state reached through the API, the list of a user's own
    publications is answered 200 and holds exactly the publications of that
    user, whatever their estado, each with its photo and its pet. *)
Theorem own_publications_are_listed (userId : Z) (w : World) :
  reachable w →
  ∃ entries,
    getMisPublicaciones userId w
    = ({| status := 200;
          body := JsonObj [("publicaciones", JsonArr entries)] |}, w)
    ∧ ∀ j, j ∈ entries ↔
        ∃ pid p k m,
          publicaciones (db w) !! pid = Some p ∧ pub_usuarioId p = userId
          ∧ mascotas_de pid (mascotas (db w)) = [(k, m)]
          ∧ j = JsonObj
                  [("id", JsonNum pid); ("foto", JsonStr (pub_foto p));
                   ("estado", JsonStr (pub_estado p));
                   ("mascota",
                    JsonObj [("id", JsonNum k);
                             ("nombre", JsonStr (mas_nombre m));
                             ("tipo", JsonStr (mas_tipo m));
                             ("sexo", JsonStr (mas_sexo m));
                             ("tamaño", JsonStr (mas_tamano m));
                             ("descripcion", JsonStr (mas_descripcion m))])].
Proof.
  intros Hreach.
  destruct (reachable_sound w Hreach) as (_ & _ & _ & _ & _ & Hone & _).
  exists (map mi_publicacion (publicacion_find_many_usuario userId (db w))).
  split.
  - unfold getMisPublicaciones.
    by destruct (publicacion_find_many_usuario userId (db w)).
  - intros j. unfold publicacion_find_many_usuario.
    rewrite list_elem_of_fmap. split.
    + intros (pub & -> & ([pid p] & -> & [Hown Hp%elem_of_rows]%list_elem_of_filter)%list_elem_of_fmap).
      cbn in *. destruct (Hone _ _ Hp) as (k & m & Hpet & _).
      exists pid, p, k, m. do 3 (split; [done|]).
      unfold mi_publicacion, with_Mascota. cbn. by rewrite Hpet.
    + intros (pid & p & k & m & Hp & Hown & Hpet & ->).
      exists (with_Mascota (db w) (pid, p)). split.
      * unfold mi_publicacion, with_Mascota. cbn. by rewrite Hpet.
      * apply list_elem_of_fmap. exists (pid, p). split; [done|].
        apply list_elem_of_filter. split; [done|]. by apply elem_of_rows.
Qed.

Lemma own_publications_are_listed_witness :
  reachable Sample.approved
  ∧ status (getMisPublicaciones 1 Sample.approved).1 = 200.
Proof.
  assert (reachable Sample.approved) as Hreach.
  { exists Sample.approved_ops. by vm_compute. }
  split; [exact Hreach|].
  destruct (own_publications_are_listed 1 Sample.approved Hreach)
    as (entries & -> & _).
  reflexivity.
Defined.

(** X13. The detail of a publication: an id that is not a number, or that
    parses to a safe integer and names no publication, is answered 404 with
    no message; in a state reached through the API the id of a publication
    is answered 200 with the publication, its pet and the contact data of
    its publisher (name, email, telephone, province and town), the password
    not among them. *)
Theorem detail_shows_the_publisher (id : string) (w : World) :
  reachable w →
  (parseInt (JStr id) = None → getDetallePublicacion id w = (sin_detalle, w))
  ∧ ∀ pid, parseInt (JStr id) = Some pid → isSafeInteger pid →
      (publicaciones (db w) !! pid = None →
       getDetallePublicacion id w = (sin_detalle, w))
      ∧ ∀ p, publicaciones (db w) !! pid = Some p →
          ∃ u k m,
            usuarios (db w) !! pub_usuarioId p = Some u
            ∧ mascotas_de pid (mascotas (db w)) = [(k, m)]
            ∧ getDetallePublicacion id w
              = ({| status := 200;
                    body := JsonObj
                      [("publicacion",
                        JsonObj
                          [("id", JsonNum pid);
                           ("foto", JsonStr (pub_foto p));
                           ("estado", JsonStr (pub_estado p));
                           ("mascota",
                            JsonObj
                              [("nombre", JsonStr (mas_nombre m));
                               ("tipo", JsonStr (mas_tipo m));
                               ("sexo", JsonStr (mas_sexo m));
                               ("tamaño", JsonStr (mas_tamano m));
                               ("descripcion", JsonStr (mas_descripcion m))]);
                           ("publicante",
                            JsonObj
                              [("id", JsonNum (pub_usuarioId p));
                               ("nombre", JsonStr (usr_nombre u));
                               ("apellido", JsonStr (usr_apellido u));
                               ("email", JsonStr (usr_email u));
                               ("telefono", JsonStr (usr_telefono u));
                               ("provincia", JsonStr (usr_provincia u));
                               ("localidad", JsonStr (usr_localidad u))])])] |},
                 w).
Proof.
  intros Hreach.
  destruct (reachable_sound w Hreach)
    as (_ & [Hpu _ _ _ _] & _ & _ & _ & Hone & _).
  unfold getDetallePublicacion, publicacion_find_detalle.
  split; [by intros ->|]. intros pid -> _. split; [by intros ->|].
  intros p Hp. rewrite Hp.
  destruct (Hpu _ _ Hp) as [u Hu], (Hone _ _ Hp) as (k & m & Hpet & _).
  exists u, k, m. do 2 (split; [done|]). rewrite Hu.
  unfold detalle. cbn. by rewrite Hpet.
Qed.

Lemma detail_shows_the_publisher_witness :
  reachable Sample.published
  ∧ getDetallePublicacion "7" Sample.published = (sin_detalle, Sample.published)
  ∧ status (getDetallePublicacion "1" Sample.published).1 = 200.
Proof.
  assert (reachable Sample.published) as Hreach.
  { exists Sample.published_ops. by vm_compute. }
  split; [exact Hreach|].
  destruct (detail_shows_the_publisher "7" Sample.published Hreach) as [_ H7].
  destruct (detail_shows_the_publisher "1" Sample.published Hreach) as [_ H1].
  split.
  - apply (H7 7 eq_refl); [by vm_compute|reflexivity].
  - destruct (proj2 (H1 1 eq_refl ltac:(by vm_compute)) _ eq_refl)
      as (u & k & m & _ & _ & ->).
    reflexivity.
Defined.

(** ** Publishing, editing and deleting *)

(** X14. createPublication is all or nothing.  Either it answers 201 and
    has added one publication, "disponible", owned by the caller, with a
    valid photo, under the next key, and one pet for it made of the five
    fields of the form; or it answers something else and the world is as it
    was.  The second case includes a form that passes the validations and
    whose pet the store refuses: with [nombre: 5] the publication that was
    already inserted inside the transaction is not kept, and the answer is
    500. *)
Theorem publication_is_created_with_its_pet (env : Env) (userId : Z)
    (b : Body) (w : World) :
  let answer := (createPublication env userId b w).1 in
  let w' := (createPublication env userId b w).2 in
  let pid := seq_publicacion (db w) + 1 in
  (status answer ≠ 201 ∧ w' = w
   ∨ status answer = 201
     ∧ ∃ f m,
         foto b = JStr f ∧ valid_foto f ∧ valid_pet m
         ∧ mascota_of (nombre b) (tamano b) (sexo b) (tipo b) (descripcion b)
             pid = Some m
         ∧ is_Some (usuarios (db w) !! userId)
         ∧ publicaciones (db w')
           = <[pid := {| pub_foto := f; pub_estado := "disponible";
                         pub_usuarioId := userId |}]> (publicaciones (db w))
         ∧ mascotas (db w')
           = (mascotas (db w) ++ [(seq_mascota (db w) + 1, m)])%list
         ∧ solicitudes (db w') = solicitudes (db w)
         ∧ usuarios (db w') = usuarios (db w)
         ∧ outbox w' = outbox w)
  ∧ (let form :=
       {| nombre := JNum 5; tamano := JStr "Mediano"; sexo := JStr "Macho";
          tipo := JStr "Perro"; descripcion := JStr "Muy amigable";
          foto := JStr "data:image/png;base64,iVBORw0KGgo=";
          estado := JUndefined |} in
     createPublicationValidations form = []
     ∧ createPublication Sample.env 1 form Sample.published
       = (reply 500 false "No se pudo crear la publicación, intente nuevamente",
          Sample.published)).
Proof.
  cbn zeta. split; [|by vm_compute].
  destruct (createPublication_cases env userId b w)
    as [?|(f & m & Hv & _ & Hf & Hm & Hu & H201 & ->)]; [by left|].
  right. split; [done|]. exists f, m.
  destruct (pet_validated b _ m (pets_validated_create b Hv) Hm) as [Hvm _].
  split; [done|]. split; [by eapply foto_validated_create|].
  split; [done|]. split; [done|]. split; [done|]. done.
Qed.

(** X15. deletePublication by the owner removes the publication together
    with every pet and every request that refers to it, approved requests
    included, and nothing else; no mail is sent to the requesters.  It is
    refused, leaving the world as it was, with 400 for an id that is not a
    number, 401 for a caller id of 0 and then, for an id that parses to a
    safe integer, 404 when there is no such publication and 403 for another
    user's publication. *)
Theorem deleting_a_publication_deletes_what_refers_to_it (env : Env)
    (userId : Z) (id : string) (w : World) :
  let answer := deletePublication env userId id w in
  (parseInt (JStr id) = None →
   answer = (reply 400 false "ID de publicación inválido", w))
  ∧ ∀ pid, parseInt (JStr id) = Some pid →
      (userId = 0 → answer = (reply 401 false "No autorizado", w))
      ∧ (userId ≠ 0 → isSafeInteger pid →
         (publicaciones (db w) !! pid = None →
          answer = (reply 404 false "Publicación no encontrada", w))
         ∧ ∀ p, publicaciones (db w) !! pid = Some p →
             (pub_usuarioId p ≠ userId →
              answer = (reply 403 false
                          "No tienes permiso para eliminar esta publicación",
                        w))
             ∧ (pub_usuarioId p = userId →
                answer.1 = reply 200 true "La publicación se eliminó correctamente"
                ∧ publicaciones (db answer.2) = delete pid (publicaciones (db w))
                ∧ (∀ rid, solicitudes (db answer.2) !! rid
                          = r ← solicitudes (db w) !! rid;
                            if decide (sol_publicacionId r = pid)
                            then None else Some r)
                ∧ (∀ pid', mascotas_de pid' (mascotas (db answer.2))
                           = if decide (pid' = pid) then []
                             else mascotas_de pid' (mascotas (db w)))
                ∧ usuarios (db answer.2) = usuarios (db w)
                ∧ outbox answer.2 = outbox w)).
Proof.
  cbn zeta. unfold deletePublication, try_catch, deletePublication_body.
  destruct w as [d o]. split; [by intros ->|]. intros pid ->.
  split; [intros ->; by rewrite decide_True|]. intros Hu _.
  rewrite decide_False by done. cbn [run exec query db outbox].
  split; [by intros ->|]. intros p Hp. cbn in Hp. rewrite Hp.
  cbn [fmap option_fmap option_map run fst snd]. split.
  - intros Hne. by rewrite decide_True.
  - intros Hown. rewrite decide_False by (by intros ?).
    cbn [run exec query db outbox]. unfold publicacion_delete. rewrite Hp.
    cbn [run fst snd db outbox publicaciones solicitudes mascotas usuarios
         set_solicitudes set_mascotas set_publicaciones].
    do 2 (split; [done|]). split; [|split; [|done]].
    + intros rid. destruct (solicitudes d !! rid) as [r|] eqn:Hr; cbn.
      * case_decide as Hpid.
        -- apply map_lookup_filter_None. right. intros r' Hr'. cbn.
           rewrite Hr in Hr'. injection Hr' as <-. by intros ?.
        -- apply map_lookup_filter_Some. done.
      * apply map_lookup_filter_None. by left.
    + intros pid'. apply mascotas_de_cascade.
Qed.

Lemma deleting_a_publication_deletes_what_refers_to_it_witness :
  let answer := deletePublication Sample.env 1 "1" Sample.approved in
  answer.1 = reply 200 true "La publicación se eliminó correctamente"
  ∧ solicitudes (db answer.2) !! 1 = None
  ∧ outbox answer.2 = outbox Sample.approved.
Proof.
  cbn zeta.
  destruct (proj2 (deleting_a_publication_deletes_what_refers_to_it Sample.env
                     1 "1" Sample.approved) 1 eq_refl) as [_ H].
  destruct (H ltac:(done) ltac:(by vm_compute)) as [_ H'].
  destruct (proj2 (H' _ eq_refl) eq_refl) as (H1 & _ & H2 & _ & _ & H3).
  split; [exact H1|]. split; [|exact H3]. rewrite H2. reflexivity.
Defined.

(** X16. In a state reached through the API an edit is all or nothing, and
    an accepted one (200) is made by the owner on a form that passes the
    validations: it rewrites the pet of the publication in place, under the
    key it had (it never adds a second pet), each of the five fields of the
    pet that the form gives as a string being stored as given; it writes
    the photo and the estado that were sent, and leaves the owner of the
    publication, the pets of the other publications, every request, every
    user and the outbox as they were. *)
Theorem edit_rewrites_the_pet_in_place (env : Env) (userId : Z) (id : string)
    (b : Body) (w : World) :
  reachable w →
  let answer := (updatePublication env userId id b w).1 in
  let w' := (updatePublication env userId id b w).2 in
  status answer ≠ 200 ∧ w' = w
  ∨ status answer = 200
    ∧ ∃ pid p k old m,
        parseInt (JStr id) = Some pid
        ∧ updatePublicationValidations b = []
        ∧ publicaciones (db w) !! pid = Some p ∧ pub_usuarioId p = userId
        ∧ mascotas_de pid (mascotas (db w)) = [(k, old)]
        ∧ mas_publicacionId m = pid
        ∧ (∀ s, nombre b = JStr s → mas_nombre m = s)
        ∧ (∀ s, tamano b = JStr s → mas_tamano m = s)
        ∧ (∀ s, sexo b = JStr s → mas_sexo m = s)
        ∧ (∀ s, tipo b = JStr s → mas_tipo m = s)
        ∧ (∀ s, descripcion b = JStr s → mas_descripcion m = s)
        ∧ publicaciones (db w') = <[pid := edited b p]> (publicaciones (db w))
        ∧ pub_usuarioId (edited b p) = userId
        ∧ (∀ pid', mascotas_de pid' (mascotas (db w'))
                   = if decide (pid' = pid) then [(k, m)]
                     else mascotas_de pid' (mascotas (db w)))
        ∧ solicitudes (db w') = solicitudes (db w)
        ∧ usuarios (db w') = usuarios (db w)
        ∧ outbox w' = outbox w.
Proof.
  intros Hreach. cbn zeta.
  destruct (reachable_sound w Hreach)
    as (_ & [_ _ _ _ Hk] & _ & _ & _ & Hone & _).
  destruct (updatePublication_cases env userId id b w)
    as [?|(pid & p & m & Hv & Hid & _ & Hp & Hown & _ & H200 & Ho
           & [(mid & old & i & old' & Hhead & Hfind & Hm & Hdb)
             |(Hnone & _)])]; [by left| |].
  - right. split; [done|].
    destruct (Hone _ _ Hp) as (k & old0 & Hpet & _).
    rewrite Hpet in Hhead. injection Hhead as -> ->.
    assert ((mid, old) ∈ mascotas (db w) ∧ mas_publicacionId old = pid)
      as [Hold Hpold].
    { assert ((mid, old) ∈ mascotas_de pid (mascotas (db w))) as Hin
        by (rewrite Hpet; by left).
      by apply list_elem_of_filter in Hin as [? ?]. }
    assert (old' = old) as ->.
    { apply list_find_Some in Hfind as (Hi & _ & _).
      apply (list_elem_of_lookup_2 (mascotas (db w)) i) in Hi.
      by injection (row_of_key _ mid old Hk Hold _ Hi eq_refl). }
    rewrite Hpold in Hm.
    exists pid, p, mid, old, m. rewrite Hdb.
    cbn [publicaciones mascotas solicitudes usuarios set_mascotas
         set_publicaciones].
    destruct (pet_validated b _ m (pets_validated_update b Hv) Hm) as [_ Hmp].
    destruct (mascota_of_fields _ _ _ _ _ _ _ Hm) as (Hf1 & Hf2 & Hf3 & Hf4 & Hf5).
    do 6 (split; [done|]). do 5 (split; [done|]).
    do 2 (split; [done|]). split; [|done].
    intros pid'.
    rewrite (mascotas_de_replace _ mid old m) by congruence.
    case_decide as Hpid.
    + subst pid'. rewrite Hpet. cbn. by rewrite decide_True.
    + apply map_id_on. intros x [Hx Hin]%list_elem_of_filter.
      rewrite decide_False; [done|]. intros Hkey.
      rewrite (row_of_key _ mid old Hk Hold x Hin Hkey) in Hx. cbn in Hx.
      congruence.
  - destruct (Hone _ _ Hp) as (k & old0 & Hpet & _). congruence.
Qed.

Lemma edit_rewrites_the_pet_in_place_witness :
  reachable Sample.approved
  ∧ solicitudes
      (db (updatePublication Sample.env 1 "1"
             (Sample.firulais_edit (JStr "adoptado")) Sample.approved).2)
    = solicitudes (db Sample.approved).
Proof.
  assert (reachable Sample.approved) as Hreach.
  { exists Sample.approved_ops. by vm_compute. }
  split; [exact Hreach|].
  destruct (edit_rewrites_the_pet_in_place Sample.env 1 "1"
              (Sample.firulais_edit (JStr "adoptado")) Sample.approved Hreach)
    as [[_ ->]|(_ & ? & ? & ? & ? & ? & _ & _ & _ & _ & _ & _ & _ & _ & _
                & _ & _ & _ & _ & _ & H & _)]; [done|exact H].
Defined.

(** ** Two submissions at once *)

Lemma submit_inv_sym uid pid w0 ta tb sa sb w :
  submit_inv uid pid w0 ta tb sa sb w → submit_inv uid pid w0 tb ta sb sa w.
Proof.
  intros (Ho & Hnot & Ha & Hb & Hdb). split; [done|].
  split; [naive_solver|]. split; [done|]. split; [done|].
  rewrite Hdb. repeat case_decide; naive_solver.
Qed.

Section Submission.
Context (env : Env) (uid pid : Z) (w0 : World) (p0 : Publicacion).
Context (va : JsVal) (ta tb : string).
Hypothesis va_parses : parseInt va = Some pid.
Hypothesis va_truthy : truthy va = true.
Hypothesis ta_not_empty : ta ≠ "".
Hypothesis publication : publicaciones (db w0) !! pid = Some p0.
Hypothesis available : pub_estado p0 = "disponible".
Hypothesis not_own : pub_usuarioId p0 ≠ uid.
Hypothesis registered : is_Some (usuarios (db w0) !! uid).
Hypothesis no_request : ¬ already_requested uid pid (solicitudes (db w0)).

Let rid := seq_solicitud (db w0) + 1.
Let at_a := submit_at uid pid va ta rid.
Let inv_ab := submit_inv uid pid w0 ta tb.

Lemma requested_after_insert t :
  is_Some (solicitud_de uid pid (solicitudes (with_request uid pid t (db w0)))).
Proof.
  apply solicitud_de_is_Some. exists rid, (created uid pid t).
  cbn. by rewrite lookup_insert_eq.
Qed.

Lemma submit_step sa sb p w :
  at_a sa p → inv_ab sa sb w →
  ∃ p' w', step env p w = (p', w')
           ∧ at_a (submit_next sa sb) p' ∧ inv_ab (submit_next sa sb) sb w'.
Proof.
  unfold at_a, inv_ab. intros Hp (Ho & Hnot & Ha & Hb & Hdb).
  destruct w as [d o]. cbn [db outbox] in *.
  assert (publicaciones d !! pid = Some p0
          ∧ is_Some (usuarios d !! uid)) as [Hpub Husr].
  { rewrite Hdb. by repeat case_decide. }
  destruct sa; cbn [submit_at submit_next] in *.
  - (* the read of the publication *)
    subst p. unfold createRequest_body. rewrite va_parses, va_truthy.
    assert (truthy (JStr ta) = true) as ->.
    { cbn. by destruct (String.eqb_spec ta ""). }
    cbn [negb orb step exec query db outbox]. rewrite Hpub.
    cbn [fmap option_fmap option_map snd].
    rewrite decide_False by (by intros ?). rewrite decide_False by done.
    eexists _, _. split; [reflexivity|]. split; [reflexivity|].
    split; [done|]. split; [by intros [? _]|]. split; [by intros [?|?]|].
    split; [naive_solver|]. by rewrite Hdb.
  - (* the read of the unique index *)
    subst p. unfold check_duplicate. cbn [step exec query db outbox].
    destruct (decide (sb = sub_created)) as [->|Hsb].
    + rewrite decide_False in Hdb by done. subst d.
      destruct (requested_after_insert tb) as [x ->].
      eexists _, _. split; [reflexivity|]. split; [reflexivity|].
      split; [done|]. split; [by intros [? _]|]. split; [done|].
      split; [by intros [?|?]|]. by rewrite decide_False by done.
    + rewrite !decide_False in Hdb by done. subst d.
      rewrite (solicitud_de_not_requested _ _ _ no_request).
      eexists _, _. split; [reflexivity|]. split; [reflexivity|].
      split; [done|]. split; [by intros [? _]|]. split; [by intros [?|?]|].
      split; [naive_solver|]. by rewrite !decide_False.
  - (* the insert *)
    subst p. unfold insert_request. cbn [step exec query db outbox].
    unfold solicitud_create.
    rewrite decide_True by (split; [done|by eexists]).
    destruct (decide (sb = sub_created)) as [->|Hsb].
    + rewrite decide_False in Hdb by done. subst d.
      destruct (requested_after_insert tb) as [x ->].
      eexists _, _. split; [reflexivity|]. split; [reflexivity|].
      split; [done|]. split; [by intros [? _]|]. split; [done|].
      split; [by intros [?|?]|]. by rewrite decide_False by done.
    + rewrite !decide_False in Hdb by done. subst d.
      rewrite (solicitud_de_not_requested _ _ _ no_request).
      eexists _, _. split; [reflexivity|]. split; [reflexivity|].
      split; [done|]. split; [by intros [_ ?]|]. split; [by intros [?|?]|].
      split; [naive_solver|]. by rewrite decide_True.
  - subst p. eexists _, _. split; [reflexivity|]. split; [reflexivity|]. done.
  - subst p. eexists _, _. split; [reflexivity|]. split; [reflexivity|]. done.
  - subst p. eexists _, _. split; [reflexivity|]. split; [reflexivity|]. done.
Qed.

Lemma submit_next_ended sa sb :
  submit_ended (submit_next (submit_next (submit_next sa sb) sb) sb).
Proof.
  unfold submit_ended. destruct sa; cbn [submit_next];
    repeat (case_decide; cbn [submit_next]); eauto.
Qed.

Lemma submit_ended_answer s p w :
  submit_ended s → at_a s p →
  try_catch env p (createRequest_catch env) w
  = (submit_answer env uid pid ta rid s, w).
Proof. unfold at_a. by intros [->|[->| ->]] ->. Qed.

(** From any stage on, the submission runs to its end with its answer. *)
Lemma submit_finish sa sb p w :
  at_a sa p → inv_ab sa sb w →
  ∃ sa' w', try_catch env p (createRequest_catch env) w
            = (submit_answer env uid pid ta rid sa', w')
            ∧ submit_ended sa' ∧ inv_ab sa' sb w'.
Proof.
  intros Hp Hinv.
  destruct (submit_step sa sb p w Hp Hinv) as (p1 & w1 & H1 & Hp1 & Hinv1).
  destruct (submit_step _ sb p1 w1 Hp1 Hinv1) as (p2 & w2 & H2 & Hp2 & Hinv2).
  destruct (submit_step _ sb p2 w2 Hp2 Hinv2) as (p3 & w3 & H3 & Hp3 & Hinv3).
  exists (submit_next (submit_next (submit_next sa sb) sb) sb), w3.
  split; [|split; [apply submit_next_ended|done]].
  rewrite <- (submit_ended_answer _ p3 w3 (submit_next_ended sa sb) Hp3).
  unfold try_catch. rewrite run_step, H1. cbn [fst snd].
  rewrite run_step, H2. cbn [fst snd]. by rewrite run_step, H3.
Qed.

End Submission.

Section TwoSubmissions.
Context (env : Env) (uid pid : Z) (w0 : World) (p0 : Publicacion).
Context (va vb : JsVal) (ta tb : string).
Hypothesis va_parses : parseInt va = Some pid.
Hypothesis vb_parses : parseInt vb = Some pid.
Hypothesis va_truthy : truthy va = true.
Hypothesis vb_truthy : truthy vb = true.
Hypothesis ta_not_empty : ta ≠ "".
Hypothesis tb_not_empty : tb ≠ "".
Hypothesis publication : publicaciones (db w0) !! pid = Some p0.
Hypothesis available : pub_estado p0 = "disponible".
Hypothesis not_own : pub_usuarioId p0 ≠ uid.
Hypothesis registered : is_Some (usuarios (db w0) !! uid).
Hypothesis no_request : ¬ already_requested uid pid (solicitudes (db w0)).

Let rid := seq_solicitud (db w0) + 1.
Let at_a := submit_at uid pid va ta rid.
Let at_b := submit_at uid pid vb tb rid.
Let inv_ab := submit_inv uid pid w0 ta tb.

Lemma submit_step_a sa sb p w :
  at_a sa p → inv_ab sa sb w →
  ∃ p' w', step env p w = (p', w')
           ∧ at_a (submit_next sa sb) p' ∧ inv_ab (submit_next sa sb) sb w'.
Proof. intros. by eapply submit_step. Qed.

Lemma submit_step_b sa sb p w :
  at_b sb p → inv_ab sa sb w →
  ∃ p' w', step env p w = (p', w')
           ∧ at_b (submit_next sb sa) p' ∧ inv_ab sa (submit_next sb sa) w'.
Proof.
  intros Hp Hinv%submit_inv_sym.
  destruct (submit_step env uid pid w0 p0 vb tb ta vb_parses vb_truthy
              tb_not_empty publication available not_own registered
              no_request sb sa p w Hp Hinv)
    as (p' & w' & ? & ? & ?%submit_inv_sym).
  by exists p', w'.
Qed.

Lemma submit_interleave schedule sa sb pa pb w :
  at_a sa pa → at_b sb pb → inv_ab sa sb w →
  ∃ sa' sb' pa' pb' w',
    interleave env schedule pa pb w = (pa', pb', w')
    ∧ at_a sa' pa' ∧ at_b sb' pb' ∧ inv_ab sa' sb' w'.
Proof.
  revert sa sb pa pb w.
  induction schedule as [|[] rest IH]; intros sa sb pa pb w Ha Hb Hinv.
  - by exists sa, sb, pa, pb, w.
  - destruct (submit_step_a sa sb pa w Ha Hinv)
      as (pa' & w' & Hstep & Ha' & Hinv').
    cbn [interleave]. rewrite Hstep. by eapply IH.
  - destruct (submit_step_b sa sb pb w Hb Hinv)
      as (pb' & w' & Hstep & Hb' & Hinv').
    cbn [interleave]. rewrite Hstep. by eapply IH.
Qed.

Lemma one_submission_wins schedule :
  let result :=
    two_submissions env schedule uid va (JStr ta) vb (JStr tb) w0 in
  ∃ sa sb,
    result.1.1 = submit_answer env uid pid ta rid sa
    ∧ result.1.2 = submit_answer env uid pid tb rid sb
    ∧ submit_ended sa ∧ submit_ended sb ∧ inv_ab sa sb result.2.
Proof.
  cbn zeta. unfold two_submissions, concurrently.
  assert (inv_ab sub_start sub_start w0) as Hinv0.
  { split; [done|]. split; [by intros [? _]|]. by repeat split; intros [?|?]. }
  destruct (submit_interleave schedule sub_start sub_start
              (createRequest_body uid va (JStr ta))
              (createRequest_body uid vb (JStr tb)) w0 eq_refl eq_refl Hinv0)
    as (sa & sb & pa & pb & w & -> & Ha & Hb & Hinv).
  destruct (submit_finish env uid pid w0 p0 va ta tb va_parses va_truthy
              ta_not_empty publication available not_own registered no_request
              sa sb pa w Ha Hinv) as (sa' & w1 & -> & Hea & Hinv1).
  apply submit_inv_sym in Hinv1.
  destruct (submit_finish env uid pid w0 p0 vb tb ta vb_parses vb_truthy
              tb_not_empty publication available not_own registered no_request
              sb sa' pb w1 Hb Hinv1) as (sb' & w2 & -> & Heb & Hinv2%submit_inv_sym).
  by exists sa', sb'.
Qed.

End TwoSubmissions.

(** X17. Two requests sent at once by one user for one publication that is
    open to that user never leave two rows: in whatever order their awaits
    are served, exactly one of the two calls is answered 201 and its row is
    the only one added; the other is answered 400 (it read the row of the
    first) or 500 (it had read none, and its insert was refused by the
    unique index on user and publication). *)
Theorem two_submissions_leave_one_request (env : Env) (schedule : list bool)
    (userId pid : Z) (w : World) (p : Publicacion) (id1 id2 : JsVal)
    (texto1 texto2 : string) :
  parseInt id1 = Some pid → parseInt id2 = Some pid →
  truthy id1 = true → truthy id2 = true → texto1 ≠ "" → texto2 ≠ "" →
  publicaciones (db w) !! pid = Some p → pub_estado p = "disponible" →
  pub_usuarioId p ≠ userId → is_Some (usuarios (db w) !! userId) →
  ¬ already_requested userId pid (solicitudes (db w)) →
  let result :=
    two_submissions env schedule userId id1 (JStr texto1) id2 (JStr texto2) w in
  let rid := seq_solicitud (db w) + 1 in
  outbox result.2 = outbox w
  ∧ (result.1.1 = enviada_201 (rid, created userId pid texto1)
     ∧ (result.1.2 = ya_enviada
        ∨ result.1.2 = createRequest_catch env unique_failed)
     ∧ db result.2 = with_request userId pid texto1 (db w)
     ∨ result.1.2 = enviada_201 (rid, created userId pid texto2)
       ∧ (result.1.1 = ya_enviada
          ∨ result.1.1 = createRequest_catch env unique_failed)
       ∧ db result.2 = with_request userId pid texto2 (db w)).
Proof.
  intros Hid1 Hid2 Ht1 Ht2 Hm1 Hm2 Hp Hd Hown Hu Hno. cbn zeta.
  destruct (one_submission_wins env userId pid w p id1 id2 texto1 texto2
              Hid1 Hid2 Ht1 Ht2 Hm1 Hm2 Hp Hd Hown Hu Hno schedule)
    as (sa & sb & -> & -> & Hea & Heb & Ho & Hnot & Ha & Hb & Hdb).
  split; [done|]. rewrite Hdb.
  destruct Hea as [->|[->| ->]], Heb as [->|[->| ->]];
    try (by destruct Hnot); try (by discriminate (Ha ltac:(eauto)));
    try (by discriminate (Hb ltac:(eauto)));
    cbn [submit_answer]; rewrite ?decide_True by done;
    rewrite ?decide_False by done; rewrite ?decide_True by done; eauto 10.
Qed.

Lemma two_submissions_leave_one_request_witness :
  let result :=
    two_submissions Sample.env [true; false; true; false] 2 (JNum 1)
      (JStr "Me gustaría adoptar") (JStr "1") (JStr "Por favor")
      Sample.published in
  status result.1.1 = 201 ∧ status result.1.2 = 500
  ∧ size (solicitudes (db result.2)) = 1%nat.
Proof.
  cbn zeta.
  destruct (two_submissions_leave_one_request Sample.env
              [true; false; true; false] 2 1 Sample.published
              (Build_Publicacion "data:image/png;base64,iVBORw0KGgo="
                                 "disponible" 1)
              (JNum 1) (JStr "1") "Me gustaría adoptar" "Por favor"
              eq_refl eq_refl eq_refl eq_refl ltac:(intros [=])
              ltac:(intros [=]) eq_refl eq_refl ltac:(intros [=])
              ltac:(by eexists)
              ltac:(intros (k & r & Hk & _); vm_compute in Hk; discriminate))
    as [_ [(H1 & H2 & H3)|(H1 & H2 & H3)]].
  - rewrite H1, H3. split; [reflexivity|].
    split; [|by vm_compute]. by vm_compute.
  - vm_compute in H1. discriminate H1.
Defined.

(** ** Histories *)

Lemma set_estado_same r : set_estado (sol_estado r) r = r.
Proof. by destruct r. Qed.

Lemma later_refl d : later d d.
Proof.
  split; [lia|]. split; [lia|]. split; [|split].
  - intros rid r Hr _. exists r. by rewrite set_estado_same.
  - intros pid p Hp _. by exists p.
  - intros rid r Hr _. by left.
Qed.

Lemma later_trans d1 d2 d3 :
  consistent d1 → later d1 d2 → later d2 d3 → later d1 d3.
Proof.
  intros [Hp1 Hs1 Hfk1] (Hs12 & Hp12 & Hr12 & Hpub12 & Ha12)
    (Hs23 & Hp23 & Hr23 & Hpub23 & Ha23).
  split; [lia|]. split; [lia|]. split; [|split].
  - intros rid r3 Hr3 Hle.
    destruct (Hr23 rid r3 Hr3) as (r2 & Hr2 & E23); [lia|].
    destruct (Hr12 rid r2 Hr2 Hle) as (r1 & Hr1 & E12).
    exists r1. split; [done|]. rewrite E23, E12. done.
  - intros pid p3 Hp3 Hle.
    destruct (Hpub23 pid p3 Hp3) as (p2 & Hp2 & E23); [lia|].
    destruct (Hpub12 pid p2 Hp2 Hle) as (p1 & Hq1 & E12).
    exists p1. split; [done|]. congruence.
  - intros rid r Hr Ha.
    destruct (Ha12 rid r Hr Ha) as [Hr2|[Hr2 Hpub2]]; [by apply Ha23|].
    right. split.
    + destruct (solicitudes d3 !! rid) as [r3|] eqn:Hr3; [|done].
      destruct (Hr23 rid r3 Hr3) as (r2 & Hr2' & _); [|congruence].
      apply Hs1 in Hr. lia.
    + destruct (publicaciones d3 !! sol_publicacionId r) as [p3|] eqn:Hp3;
        [|done].
      destruct (Hpub23 _ p3 Hp3) as (p2 & Hp2' & _); [|congruence].
      destruct (Hfk1 _ _ Hr) as [p1 Hq1]. apply Hp1 in Hq1. lia.
Qed.

Lemma change_later uid d d' : sound d → change uid d d' → later d d'.
Proof.
  intros Hsound Hch.
  pose proof (fresh_publicacion _ Hsound) as Hfp.
  pose proof (fresh_solicitud _ Hsound) as Hfs.
  destruct Hsound as ([Hp Hs Hfk] & _).
  destruct Hch as [ |f m Hus Hvf Hvm Hmpid|pid0 p0 p' mid i old m Hpid Hown He Hh Hfind Hvm Hmpid
          |pid0 p0 p' m Hpid Hown He Hnone Hvm Hmpid|pid0 p0 Hpid Hown
          |pid0 p0 texto Hpid Hd Hown Hno Husr|rid0 r0 Hr Hown He
          |rid0 r0 p0 Hr Hpid Hown Ha|rid0 r0 p0 e Hr Hpid Hown Ha He].
  - apply later_refl.
  - split; [cbn; lia|]. split; [cbn; lia|]. split; [|split]; cbn.
    + intros rid r Hr _. exists r. by rewrite set_estado_same.
    + intros pid p [[<- _]|[_ H]]%lookup_insert_Some Hle; [lia|]. by exists p.
    + intros rid r Hr _. by left.
  - destruct He as (Hsame & _).
    split; [cbn; lia|]. split; [cbn; lia|]. split; [|split]; cbn.
    + intros rid r Hr _. exists r. by rewrite set_estado_same.
    + intros pid p [[<- <-]|[_ H]]%lookup_insert_Some Hle; [by exists p0|].
      by exists p.
    + intros rid r Hr _. by left.
  - destruct He as (Hsame & _).
    split; [cbn; lia|]. split; [cbn; lia|]. split; [|split]; cbn.
    + intros rid r Hr _. exists r. by rewrite set_estado_same.
    + intros pid p [[<- <-]|[_ H]]%lookup_insert_Some Hle; [by exists p0|].
      by exists p.
    + intros rid r Hr _. by left.
  - unfold publicacion_delete. rewrite Hpid. cbn [snd].
    split; [cbn; lia|]. split; [cbn; lia|]. split; [|split]; cbn.
    + intros rid r [Hr _]%map_lookup_filter_Some _. exists r.
      by rewrite set_estado_same.
    + intros pid p [_ H]%lookup_delete_Some _. by exists p.
    + intros rid r Hr _.
      destruct (decide (sol_publicacionId r = pid0)) as [<-|Hne].
      * right. split; [|apply lookup_delete_eq].
        apply map_lookup_filter_None. right. intros r' Hr' Hne. cbn in Hne.
        congruence.
      * left. by apply map_lookup_filter_Some.
  - split; [cbn; lia|]. split; [cbn; lia|]. split; [|split]; cbn.
    + intros rid r [[<- _]|[_ H]]%lookup_insert_Some Hle; [lia|].
      exists r. by rewrite set_estado_same.
    + intros pid p Hq _. by exists p.
    + intros rid r Hr _. left. rewrite lookup_insert_ne; [done|]. congruence.
  - split; [cbn; lia|]. split; [cbn; lia|]. split; [|split]; cbn.
    + intros rid r [_ H]%lookup_delete_Some _. exists r.
      by rewrite set_estado_same.
    + intros pid p Hq _. by exists p.
    + intros rid r Hr' Hap. left. rewrite lookup_delete_ne; [done|]. congruence.
  - split; [cbn; lia|]. split; [cbn; lia|]. split; [|split].
    + intros rid r Hr' _. destruct (decide (rid = rid0)) as [->|Hne].
      * rewrite approve_db_target in Hr'. injection Hr' as <-. by exists r0.
      * rewrite approve_db_sibling in Hr' by done.
        destruct (solicitudes d !! rid) as [s|]; [|done]. cbn in Hr'.
        injection Hr' as <-. exists s. split; [done|].
        case_decide; [done|by rewrite set_estado_same].
    + rewrite approve_db_publicaciones.
      intros pid p [[<- <-]|[_ H]]%lookup_insert_Some _; [by exists p0|].
      by exists p.
    + intros rid r Hr' Hap. left.
      assert (rid ≠ rid0) by congruence.
      rewrite approve_db_sibling, Hr' by done. cbn.
      rewrite decide_False; [done|]. intros [_ ?]. congruence.
  - split; [cbn; lia|]. split; [cbn; lia|]. split; [|split]; cbn.
    + intros rid r [[<- <-]|[_ H]]%lookup_insert_Some _; [by exists r0|].
      exists r. by rewrite set_estado_same.
    + intros pid p Hq _. by exists p.
    + intros rid r Hr' Hap. left. rewrite lookup_insert_ne; [done|]. congruence.
Qed.

Lemma apply_op_later env op w :
  sound (db w) → later (db w) (db (apply_op env op w)).
Proof.
  intros Hw. destruct (caller op) as [uid|] eqn:Hc.
  - eapply (change_later uid); [done|].
    apply apply_op_change; [apply Hw|done].
  - destruct op; try done. cbn [apply_op]. unfold registerUser.
    case_decide; [apply later_refl|]. cbn [db].
    split; [cbn; lia|]. split; [cbn; lia|]. split; [|split]; cbn.
    + intros rid r Hr _. exists r. by rewrite set_estado_same.
    + intros pid p Hp _. by exists p.
    + intros rid r Hr _. by left.
Qed.

Lemma run_ops_later ops w :
  sound (db w) → later (db w) (db (run_ops ops w)).
Proof.
  revert w. induction ops as [|[env op] ops IH]; intros w Hw.
  - apply later_refl.
  - cbn. eapply later_trans; [apply Hw|by apply apply_op_later|].
    apply IH. by apply apply_op_sound.
Qed.

(** X18. An approval is final through every later history of calls: a
    request that is "Aprobada" in a state reached through the API is found
    unchanged after any further calls, unless its publication was deleted,
    in which case both are gone. *)
Theorem approved_requests_stay_approved (w : World) (ops : list (Env * Op))
    (rid : Z) (r : Solicitud) :
  reachable w →
  solicitudes (db w) !! rid = Some r → sol_estado r = "Aprobada" →
  let w' := run_ops ops w in
  solicitudes (db w') !! rid = Some r
  ∨ solicitudes (db w') !! rid = None
    ∧ publicaciones (db w') !! sol_publicacionId r = None.
Proof.
  intros Hreach Hr Ha. cbn zeta.
  by apply (run_ops_later ops w (reachable_sound w Hreach)).
Qed.

Lemma approved_requests_stay_approved_witness :
  reachable Sample.approved
  ∧ solicitudes
      (db (run_ops
             [(Sample.env, OpActualizarEstadoSolicitud 1 "1" (JStr "Rechazada"));
              (Sample.env, OpDeleteRequest 2 "1");
              (Sample.env, OpActualizarEstadoSolicitud 1 "2" (JStr "Aprobada"))]
             Sample.approved)) !! 1
    = Some (set_estado "Aprobada" (created 2 1 "Me gustaría adoptar a Firulais")).
Proof.
  assert (reachable Sample.approved) as Hreach.
  { exists Sample.approved_ops. by vm_compute. }
  split; [exact Hreach|].
  destruct (approved_requests_stay_approved Sample.approved
              [(Sample.env, OpActualizarEstadoSolicitud 1 "1" (JStr "Rechazada"));
               (Sample.env, OpDeleteRequest 2 "1");
               (Sample.env, OpActualizarEstadoSolicitud 1 "2" (JStr "Aprobada"))]
              1 (set_estado "Aprobada" (created 2 1 "Me gustaría adoptar a Firulais"))
              Hreach eq_refl eq_refl) as [H|[_ H]]; [exact H|].
  vm_compute in H. discriminate H.
Defined.

(** X19. Keys are not handed out twice and a row keeps what identifies it:
    after any further calls from a state reached through the API, a request
    found under a key that had been handed out before is the request that
    had that key, with its requester, its publication and its message
    (only its estado may differ), and a publication found under such a key
    is the one that had it, with its owner. *)
Theorem rows_keep_their_key_and_identity (w : World) (ops : list (Env * Op)) :
  reachable w →
  let w' := run_ops ops w in
  (∀ rid r', solicitudes (db w') !! rid = Some r' → rid ≤ seq_solicitud (db w) →
     ∃ r, solicitudes (db w) !! rid = Some r
          ∧ sol_usuarioId r' = sol_usuarioId r
          ∧ sol_publicacionId r' = sol_publicacionId r
          ∧ sol_mensaje r' = sol_mensaje r)
  ∧ (∀ pid p', publicaciones (db w') !! pid = Some p' →
       pid ≤ seq_publicacion (db w) →
       ∃ p, publicaciones (db w) !! pid = Some p
            ∧ pub_usuarioId p' = pub_usuarioId p)
  ∧ (∀ rid r, solicitudes (db w) !! rid = Some r → rid ≤ seq_solicitud (db w))
  ∧ (∀ pid p, publicaciones (db w) !! pid = Some p →
       pid ≤ seq_publicacion (db w)).
Proof.
  intros Hreach. cbn zeta.
  pose proof (reachable_sound w Hreach) as Hsound.
  destruct (run_ops_later ops w Hsound) as (_ & _ & Hr & Hp & _).
  destruct Hsound as ([Hpk Hsk _] & _).
  split; [|split; [done|split; done]].
  intros rid r' Hr' Hle. destruct (Hr rid r' Hr' Hle) as (r & Hr0 & ->).
  by exists r.
Qed.

Lemma rows_keep_their_key_and_identity_witness :
  reachable Sample.two_pending
  ∧ ∀ r',
      solicitudes
        (db (run_ops [(Sample.env, OpDeleteRequest 2 "1");
                      (Sample.env, OpCreateRequest 2 (JNum 1) (JStr "Otra vez"))]
               Sample.two_pending)) !! 1 = Some r' →
      sol_mensaje r' = "Me gustaría adoptar a Firulais".
Proof.
  assert (reachable Sample.two_pending) as Hreach.
  { exists Sample.two_pending_ops. by vm_compute. }
  split; [exact Hreach|]. intros r' Hr'.
  destruct (rows_keep_their_key_and_identity Sample.two_pending
              [(Sample.env, OpDeleteRequest 2 "1");
               (Sample.env, OpCreateRequest 2 (JNum 1) (JStr "Otra vez"))]
              Hreach) as (H & _).
  destruct (H 1 r' Hr' ltac:(by vm_compute)) as (r & Hr & _ & _ & ->).
  vm_compute in Hr. by injection Hr as <-.
Defined.

(** ** The store through the API *)

(** X20. In every state reached through the API the references hold: each
    request points to a registered user and to an existing publication,
    each publication to a registered user, each pet to an existing
    publication, and no two pets have the same key.  So the reads that
    include a required relation do not fail. *)
Theorem references_are_never_dangling (w : World) :
  reachable w → referential (db w).
Proof. intros Hreach. apply (reachable_sound w Hreach). Qed.

Lemma references_are_never_dangling_witness :
  reachable Sample.reopened ∧ referential (db Sample.reopened).
Proof.
  assert (reachable Sample.reopened) as Hreach.
  { exists Sample.reopened_ops. by vm_compute. }
  split; [exact Hreach|]. exact (references_are_never_dangling _ Hreach).
Defined.

(** X21. In every state reached through the API a user has at most one
    request for a publication. *)
Theorem one_request_per_user_and_publication (w : World) :
  reachable w → unique_pairs (db w).
Proof. intros Hreach. apply (reachable_sound w Hreach). Qed.

Lemma one_request_per_user_and_publication_witness :
  reachable Sample.both_approved ∧ unique_pairs (db Sample.both_approved).
Proof.
  assert (reachable Sample.both_approved) as Hreach.
  { exists Sample.both_approved_ops. by vm_compute. }
  split; [exact Hreach|]. exact (one_request_per_user_and_publication _ Hreach).
Defined.

(** X22. In every state reached through the API the estado of a request is
    "Pendiente", "Aprobada" or "Rechazada", and the estado of a publication
    is "disponible", "adoptado" or "no disponible", although both columns
    are free text in the schema. *)
Theorem estados_stay_in_their_enumerations (w : World) :
  reachable w → estados_ok (db w).
Proof. intros Hreach. apply (reachable_sound w Hreach). Qed.

Lemma estados_stay_in_their_enumerations_witness :
  reachable Sample.reopened ∧ estados_ok (db Sample.reopened).
Proof.
  assert (reachable Sample.reopened) as Hreach.
  { exists Sample.reopened_ops. by vm_compute. }
  split; [exact Hreach|]. exact (estados_stay_in_their_enumerations _ Hreach).
Defined.

(** X23. In every state reached through the API every publication has a
    photo that passes the two checks of the forms (an image data URL of at
    most 7000000 UTF-16 code units) and exactly one pet, whose size, sex
    and type are among the values that the forms accept. *)
Theorem every_publication_has_one_valid_pet (w : World) (pid : Z)
    (p : Publicacion) :
  reachable w → publicaciones (db w) !! pid = Some p →
  foto_format (JStr (pub_foto p)) = None
  ∧ foto_size (JStr (pub_foto p)) = None
  ∧ ∃ k m, mascotas_de pid (mascotas (db w)) = [(k, m)]
           ∧ mas_tamano m ∈ ["Chico"; "Mediano"; "Grande"]
           ∧ mas_sexo m ∈ ["Macho"; "Hembra"]
           ∧ mas_tipo m ∈ ["Perro"; "Gato"; "Pájaro"; "Conejo"].
Proof.
  intros Hreach Hp.
  destruct (reachable_sound w Hreach) as (_ & _ & _ & _ & _ & H1 & H2).
  destruct (H2 _ _ Hp) as [Hformat Hsize].
  destruct (H1 _ _ Hp) as (k & m & Hpet & _ & _ & Ht & Hs & Hti).
  do 2 (split; [done|]). by exists k, m.
Qed.

Lemma every_publication_has_one_valid_pet_witness :
  reachable Sample.reopened
  ∧ ∃ k m, mascotas_de 1 (mascotas (db Sample.reopened)) = [(k, m)]
           ∧ mas_tipo m ∈ ["Perro"; "Gato"; "Pájaro"; "Conejo"].
Proof.
  assert (reachable Sample.reopened) as Hreach.
  { exists Sample.reopened_ops. by vm_compute. }
  split; [exact Hreach|].
  destruct (every_publication_has_one_valid_pet Sample.reopened 1
              (Build_Publicacion "data:image/png;base64,iVBORw0KGgo="
                                 "disponible" 1) Hreach eq_refl)
    as (_ & _ & k & m & Hpet & _ & _ & Hti).
  by exists k, m.
Defined.

(** ** What the answers carry *)

(** X24. The answer of the shortcut for an unchanged state returns the
    request as it was read, with its [include]: the whole row of the
    requester is in it, the stored password hash included. *)
Theorem unchanged_state_answer_carries_the_requester (env : Env) (w : World)
    (userId : Z) (id : string) (rid : Z) (r : Solicitud) (u : Usuario)
    (p : Publicacion) :
  parseInt (JStr id) = Some rid →
  solicitudes (db w) !! rid = Some r →
  usuarios (db w) !! sol_usuarioId r = Some u →
  publicaciones (db w) !! sol_publicacionId r = Some p →
  pub_usuarioId p = userId →
  sol_estado r = "Pendiente" ∨ sol_estado r = "Rechazada" →
  let answer :=
    (actualizarEstadoSolicitud env userId id (JStr (sol_estado r)) w).1 in
  status answer = 200
  ∧ path ["solicitud"; "usuario"; "password"] (body answer)
    = Some (JsonStr (usr_password u))
  ∧ path ["solicitud"; "usuario"; "email"] (body answer)
    = Some (JsonStr (usr_email u)).
Proof.
  intros Hid Hr Hu Hp Hown Hest. cbn zeta.
  unfold actualizarEstadoSolicitud, try_catch, actualizarEstadoSolicitud_body.
  rewrite Hid.
  rewrite (proj2 (estadosPermitidos_spec (JStr (sol_estado r))))
    by (destruct Hest as [Hest|Hest]; rewrite Hest; eauto).
  cbn [negb run].
  rewrite (exec_find_include_Some env w rid r u p) by done.
  cbn [si_publicacion si_row].
  rewrite decide_False by (by intros ?).
  rewrite decide_False by (destruct Hest as [Hest|Hest]; by rewrite Hest).
  rewrite decide_True by done. done.
Qed.

Lemma unchanged_state_answer_carries_the_requester_witness :
  path ["solicitud"; "usuario"; "password"]
    (body (actualizarEstadoSolicitud Sample.env 1 "2" (JStr "Pendiente")
             Sample.two_pending).1)
  = Some (JsonStr "$2b$10$hash").
Proof.
  apply (unchanged_state_answer_carries_the_requester Sample.env
           Sample.two_pending 1 "2" 2 (created 3 1 "Tengo un patio grande")
           (Sample.usuario "Caro")
           (Build_Publicacion "data:image/png;base64,iVBORw0KGgo="
                              "disponible" 1));
    try reflexivity. by left.
Defined.

(** X25. The presence check of createRequest lets through a [mensaje] that
    is not a string (a number other than 0, or [true]).  When every other
    check passes, the insert is then refused by the store: nothing is
    created and the answer is 500 "No se pudo enviar la solicitud, intente
    nuevamente", with the detail of the error only when NODE_ENV is
    "development". *)
Theorem message_that_is_not_a_string_is_answered_500 (env : Env) (userId : Z)
    (publicacionId mensaje : JsVal) (w : World) (pid : Z) (p : Publicacion) :
  parseInt publicacionId = Some pid → truthy publicacionId = true →
  truthy mensaje = true → (∀ texto, mensaje ≠ JStr texto) →
  publicaciones (db w) !! pid = Some p → pub_estado p = "disponible" →
  pub_usuarioId p ≠ userId →
  ¬ already_requested userId pid (solicitudes (db w)) →
  let answer := (createRequest env userId publicacionId mensaje w).1 in
  (createRequest env userId publicacionId mensaje w).2 = w
  ∧ status answer = 500
  ∧ path ["message"] (body answer)
    = Some (JsonStr "No se pudo enviar la solicitud, intente nuevamente")
  ∧ (NODE_ENV env ≠ "development" → path ["error"] (body answer) = None)
  ∧ (NODE_ENV env = "development" → is_Some (path ["error"] (body answer))).
Proof.
  intros Hid Hv Hm Hnot Hp Hd Hown Hno. cbn zeta.
  unfold createRequest, try_catch, createRequest_body.
  destruct w as [d o]. cbn in Hp, Hno.
  rewrite Hid, Hv, Hm. cbn [negb orb run exec query db outbox].
  rewrite Hp. cbn [fmap option_fmap option_map snd].
  rewrite decide_False by (by intros ?). rewrite decide_False by done.
  cbn [run exec query db outbox].
  rewrite (solicitud_de_not_requested _ _ _ Hno).
  cbn [run exec query db outbox]. unfold solicitud_create.
  destruct mensaje as [| | | |texto]; try (by destruct (Hnot texto));
    cbn [run fst snd]; (split; [done|]); (split; [done|]);
    (split; [done|]); unfold createRequest_catch; cbn [body];
    (split; intros Henv; [by rewrite decide_False|by rewrite decide_True]).
Qed.

Lemma message_that_is_not_a_string_is_answered_500_witness :
  let answer := createRequest Sample.env 2 (JNum 1) (JNum 5) Sample.published in
  answer.2 = Sample.published ∧ status answer.1 = 500.
Proof.
  cbn zeta.
  destruct (message_that_is_not_a_string_is_answered_500 Sample.env 2 (JNum 1)
              (JNum 5) Sample.published 1
              (Build_Publicacion "data:image/png;base64,iVBORw0KGgo="
                                 "disponible" 1)
              eq_refl eq_refl eq_refl ltac:(intros ? [=]) eq_refl eq_refl
              ltac:(intros [=])
              ltac:(intros (k & r & Hk & _); vm_compute in Hk; discriminate))
    as (H1 & H2 & _).
  by split.
Defined.

(** ** A cancellation that races an approval *)


